(** * Media ingestion and object lifecycle of the uploads module

    A shallow embedding of [src/modules/core/controllers/upload.controller.ts],
    [src/modules/core/utils/upload.ts], [src/modules/core/models/upload.model.ts]
    and [src/database/s3-object-store.ts], with the properties of the
    ingestion, search and delete paths stated over it.

    Conventions of the embedding:
    - a JavaScript string is a [string] (a sequence of bytes);
    - an [async] handler is a computation in the monad [M]: it reads the
      request context, threads the two backing stores and the operation log,
      and ends in a value or in a thrown error; the value of a handler is
      the response it sends, an early [return res...] being a leaf of the
      conditional it sits in;
    - the third-party collaborators (content sniffing, image decoding, frame
      extraction, the regular-expression engine, identifier validation, the
      faults of the two stores) are data of the payload or fields of the
      context, so that every handler is a function that can be evaluated. *)

From Stdlib Require Import ZArith Lia Ascii.
From stdpp Require Import base option list gmap strings pretty.

Local Open Scope Z_scope.

(** ** JavaScript string primitives used by the sources *)

Module JS.

(** [s.split(sep)] for a one-character separator: never the empty array. *)
Fixpoint split (sep : ascii) (s : string) : list string :=
  match s with
  | EmptyString => [EmptyString]
  | String c r =>
      if Ascii.eqb c sep then EmptyString :: split sep r
      else match split sep r with
           | [] => [String c EmptyString]
           | h :: t => String c h :: t
           end
  end.

(** [parts.join(sep)] *)
Fixpoint join (sep : string) (parts : list string) : string :=
  match parts with
  | [] => EmptyString
  | [p] => p
  | p :: ps => p +:+ sep +:+ join sep ps
  end.

(** [parts.slice(0, -1)] *)
Definition init (parts : list string) : list string := removelast parts.

(** [parts[parts.length - 1]], also [parts.pop()]; [None] is [undefined]. *)
Definition pop (parts : list string) : option string := last parts.

(** [s.startsWith(p)] *)
Definition startsWith (s p : string) : bool := String.prefix p s.

Definition lower (c : ascii) : ascii :=
  let n := nat_of_ascii c in
  if (Nat.leb 65 n && Nat.leb n 90)%bool then ascii_of_nat (n + 32) else c.

(** [s.toLowerCase()] on the ASCII letters *)
Fixpoint toLowerCase (s : string) : string :=
  match s with
  | EmptyString => EmptyString
  | String c r => String (lower c) (toLowerCase r)
  end.

(** Truthiness of a string value that may be absent. *)
Definition truthy (s : option string) : bool :=
  match s with
  | Some (String _ _) => true
  | _ => false
  end.

(** [a || b] on strings *)
Definition or_else (a : option string) (b : string) : string :=
  match a with
  | Some (String c r) => String c r
  | _ => b
  end.

(** [list.includes(x)] *)
Definition includes (l : list string) (x : string) : bool :=
  bool_decide (x ∈ l).

Fixpoint has_char (c : ascii) (s : string) : bool :=
  match s with
  | EmptyString => false
  | String d r => (Ascii.eqb d c || has_char c r)%bool
  end.

End JS.

(** ** Data model ([upload.model.ts]) *)

Inductive FileType := image | video | audio | document | other.

#[global] Instance FileType_eq_dec : EqDecision FileType.
Proof. solve_decision. Defined.

Definition type_name (t : FileType) : string :=
  match t with
  | image => "image" | video => "video" | audio => "audio"
  | document => "document" | other => "other"
  end.

Record Details := mkDetails {
  d_src : string;
  d_width : option Z;
  d_height : option Z;
  d_duration : option Z;
  d_preview : string;
}.

(** A stored document of the [files] collection. The document built by the
    upload handler has exactly these fields, [_id] being added by the store:
    in the document handed to the insert, the empty [_id] stands for the
    absent one. *)
Record FileMetadata := mkFile {
  _id : string;
  filename : string;
  mimeType : string;
  type : FileType;
  size : Z;
  s3Key : string;
  src : string;
  preview : option string;
  details : Details;
  uploadedBy : option string;
  uploadedAt : Z;
}.

Definition FILE_CONSTRAINTS_MAX_FILE_SIZE : Z := 100 * 1024 * 1024.

(** ** Type classifier ([getFileType], upload.ts) *)

Definition image_exts : list string :=
  ["jpg"; "jpeg"; "png"; "gif"; "webp"; "bmp"; "tiff"; "svg"].
Definition video_exts : list string :=
  ["mp4"; "avi"; "mov"; "wmv"; "flv"; "webm"; "mkv"; "3gp"].
Definition audio_exts : list string :=
  ["mp3"; "wav"; "ogg"; "flac"; "aac"; "m4a"; "wma"].
Definition document_exts : list string :=
  ["pdf"; "doc"; "docx"; "txt"; "rtf"; "xls"; "xlsx"; "ppt"; "pptx"].

Definition getFileType (mime : string) (name : option string) : FileType :=
  if JS.startsWith mime "image/" then image
  else if JS.startsWith mime "video/" then video
  else if JS.startsWith mime "audio/" then audio
  else if (bool_decide (mime = "application/octet-stream") && JS.truthy name)%bool then
    let ext := default EmptyString (JS.pop (JS.split "."%char (JS.toLowerCase (default EmptyString name)))) in
    if JS.includes image_exts ext then image
    else if JS.includes video_exts ext then video
    else if JS.includes audio_exts ext then audio
    else if JS.includes document_exts ext then document
    else other
  else if (JS.startsWith mime "application/pdf"
           || JS.startsWith mime "application/msword"
           || JS.startsWith mime "application/vnd.openxmlformats"
           || JS.startsWith mime "text/")%bool then document
  else other.

(** ** Object key scheme: reconstruction at delete time
    ([getS3KeysForFile], upload.controller.ts) *)

Definition getS3KeysForFile (file : FileMetadata) : list string :=
  let keys := [s3Key file] in
  let pathParts := JS.split "/"%char (s3Key file) in
  let fname := default EmptyString (JS.pop pathParts) in
  let fileId := default EmptyString (head (JS.split "-"%char fname)) in
  let basePath := JS.join "/" (JS.init pathParts) in
  if (bool_decide (type file = image) && JS.truthy (preview file)
      && negb (bool_decide (preview file = Some (src file))))%bool
  then keys ++ [basePath +:+ "/preview-" +:+ fileId +:+ ".jpg"]
  else if (bool_decide (type file = video) && JS.truthy (preview file))%bool
  then keys ++ [basePath +:+ "/poster-" +:+ fileId +:+ ".jpg"]
  else keys.

(** ** Payloads as the media tools see them

    The handlers never look inside a buffer: they hand it to [file-type],
    [image-size], [ffprobe], [sharp] and [ffmpeg]. A payload is therefore
    modelled by what each of these tools answers on it; an absent answer
    ([None]) is the tool throwing or rejecting. *)

Record Jpeg := mkJpeg {
  jpeg_width : Z;
  jpeg_height : Z;
  jpeg_quality : Z;
}.

Record Probe := mkProbe {
  streams : list (option Z * option Z);   (* width, height of each stream *)
  format_duration : option Z;
}.

Record Buffer := mkBuffer {
  sniffed : option string;                  (* fileTypeFromBuffer(buffer)?.mime *)
  image_size : option (option Z * option Z);(* sizeOf(buffer) *)
  ffprobe : option Probe;                   (* ffprobe of the temporary copy *)
  decoded : option (positive * positive);   (* pixel size, when sharp decodes it *)
  encodes : bool;                           (* resize().jpeg().toBuffer() resolves *)
  screenshot : option Jpeg;                 (* frame written by ffmpeg and read back *)
  embedded_thumbnail : option Jpeg;         (* sharp(buffer, {failOnError: false}) result *)
}.

(** Truthiness of an optional number: [undefined] and [0] are falsy. *)
Definition num_truthy (n : option Z) : bool :=
  match n with
  | Some v => negb (v =? 0)
  | None => false
  end.

(** ** Metadata prober ([extractMediaMetadata], upload.ts) *)

Record MediaMetadata := mkMeta {
  m_mimeType : option string;
  m_width : option Z;
  m_height : option Z;
  m_duration : option Z;
}.

Definition extractMediaMetadata (buffer : Buffer) : MediaMetadata :=
  let mime := sniffed buffer in
  let by_image_size :=
    match image_size buffer with
    | Some (w, h) =>
        if (num_truthy w && num_truthy h)%bool then Some (mkMeta mime w h None) else None
    | None => None
    end in
  match by_image_size with
  | Some m => m
  | None =>
      match ffprobe buffer with
      | Some info =>
          let videoStream :=
            List.find (fun s => (num_truthy (fst s) && num_truthy (snd s))%bool) (streams info) in
          let '(w, h) := match videoStream with
                         | Some (w, h) => (w, h)
                         | None => (None, None)
                         end in
          mkMeta mime w h
                 (if num_truthy (format_duration info) then format_duration info else None)
      | None => mkMeta mime None None None
      end
  end.

(** ** Preview deriver ([PREVIEW_CONFIG], [generateImagePreview],
    [generateVideoPoster], [extractVideoThumbnail], upload.ts) *)

Definition PREVIEW_CONFIG_MAX_WIDTH : Z := 720.
Definition PREVIEW_CONFIG_MAX_HEIGHT : Z := 720.
Definition PREVIEW_CONFIG_JPEG_QUALITY : Z := 85.

Inductive Fit := fit_inside | fit_cover | fit_fill.

Record ResizeOptions := mkResize {
  fit : Fit;
  withoutEnlargement : bool;
}.

(** Quotient rounded to the nearest integer, halves upwards. *)
Definition round_div (a b : Z) : Z := (2 * a + b) / (2 * b).

(** Modelled from the spec: the image library's [resize(W, H, options)] is
    not part of the sources. With [fit: 'inside'] the picture keeps its aspect
    ratio and is scaled by the larger of the two shrink factors, so that it is
    as large as possible within [W] x [H]; with [withoutEnlargement] a picture
    already within the box keeps its size. Other fits are not used by the
    sources and are modelled as filling the box. *)
Definition sharp_resize (W H : Z) (o : ResizeOptions) (w h : Z) : Z * Z :=
  match fit o with
  | fit_inside =>
      if (withoutEnlargement o && (w <=? W) && (h <=? H))%bool then (w, h)
      else if h * W <? w * H
           then (W, Z.max 1 (round_div (h * W) w))
           else (Z.max 1 (round_div (w * H) h), H)
  | _ => (W, H)
  end.

(** Metadata object of [sharp(buffer).metadata()]. *)
Record SharpMetadata := mkSharpMeta {
  sm_width : option Z;
  sm_height : option Z;
}.

Definition sharp_metadata (buffer : Buffer) : option SharpMetadata :=
  match decoded buffer with
  | Some (w, h) => Some (mkSharpMeta (Some (Z.pos w)) (Some (Z.pos h)))
  | None => None
  end.

(** [image.resize(W, H, o).jpeg({quality}).toBuffer()] *)
Definition sharp_resize_jpeg (buffer : Buffer) (W H : Z) (o : ResizeOptions) (quality : Z)
  : option Jpeg :=
  match decoded buffer with
  | Some (w, h) =>
      if encodes buffer
      then let '(w', h') := sharp_resize W H o (Z.pos w) (Z.pos h) in Some (mkJpeg w' h' quality)
      else None
  | None => None
  end.

Definition exceeds (n : option Z) (bound : Z) : bool :=
  match n with
  | Some v => (num_truthy n && (bound <? v))%bool
  | None => false
  end.

(** The [try] block returns the resized picture or [null]; the [catch] turns
    every rejection of the library into [null]. *)
Definition generateImagePreview (buffer : Buffer) (mime : string) : option Jpeg :=
  match sharp_metadata buffer with
  | None => None
  | Some metadata =>
      if (exceeds (sm_width metadata) PREVIEW_CONFIG_MAX_WIDTH
          || exceeds (sm_height metadata) PREVIEW_CONFIG_MAX_HEIGHT)%bool
      then sharp_resize_jpeg buffer PREVIEW_CONFIG_MAX_WIDTH PREVIEW_CONFIG_MAX_HEIGHT
             (mkResize fit_inside true) PREVIEW_CONFIG_JPEG_QUALITY
      else None
  end.

(** Every exit of [generateVideoPoster] resolves: the frame, or [null]. *)
Definition generateVideoPoster (buffer : Buffer) : option Jpeg := screenshot buffer.

Definition thumbnail_error : string := "Failed to read video thumbnail".

(** [extractVideoThumbnail] rethrows: [inr msg] is the thrown error. *)
Definition extractVideoThumbnail (buffer : Buffer) : Jpeg + string :=
  match embedded_thumbnail buffer with
  | Some j => inl j
  | None => inr thumbnail_error
  end.

(** ** Responses *)

Record FileSummary := mkSummary {
  fs_id : string;
  fs_filename : string;
  fs_s3Key : string;
  fs_type : FileType;
}.

Record Pagination := mkPagination {
  currentPage : Z;
  totalPages : Z;
  totalCount : Z;
  limit : Z;
  hasNextPage : bool;
  hasPreviousPage : bool;
}.

(** The JSON bodies the handlers send. [ErrorJson] is an object with the two
    keys [error] and [message], whichever order the source lists them in. *)
Inductive Body :=
| ErrorJson (error message : string)
| InvalidIdsJson (error message : string) (invalidIds : list string)
| CreatedJson (doc : FileMetadata)
| DeletedJson (message : string) (id name key : string) (deletedKeys : list string)
| BulkDeletedJson (message : string) (deletedCount s3ObjectsDeleted : Z)
                  (deletedFiles : list FileSummary)
| SearchJson (items : list FileMetadata) (hasMore : bool) (pagination : Pagination).

Record Response := mkResponse {
  status : Z;
  body : Body;
}.

(** ** The two backing stores and the request context *)

Inductive S3Command :=
| PutObjectCommand (bucket key contentType : string)
| DeleteObjectCommand (bucket key : string)
| DeleteObjectsCommand (bucket : option string) (keys : list string).

Inductive Bson :=
| BString (s : string)
| BNumber (n : Z)
| BDate (t : Z)
| BObjectId (hex : string)
| BDocument (d : Details).

#[global] Instance Details_eq_dec : EqDecision Details.
Proof. solve_decision. Defined.
#[global] Instance Bson_eq_dec : EqDecision Bson.
Proof. solve_decision. Defined.

(** One condition of a query document. *)
Inductive Cond :=
| CEq (v : Bson)                                (* field: v *)
| CIn (vs : list Bson)                          (* field: {$in: vs} *)
| CRegex (pattern options : string)             (* field: {$regex, $options} *)
| CRange (gte lte : option Bson).               (* field: {$gte, $lte} *)

Definition Filter := list (string * Cond).

Inductive DbCall :=
| InsertOne (doc : FileMetadata)
| FindOne (q : Filter)
| Find (q : Filter)
| CountDocuments (q : Filter)
| DeleteOne (q : Filter)
| DeleteMany (q : Filter).

Inductive DbOp := op_insertOne | op_findOne | op_find | op_countDocuments | op_deleteOne | op_deleteMany.

(** An entry of the operation log: a call that reached a store, and whether
    it succeeded. *)
Inductive Op :=
| S3 (cmd : S3Command) (ok : bool)
| Db (call : DbCall) (ok : bool).

Record World := mkWorld {
  objects : gset (string * string);   (* (bucket, key) of every stored object *)
  files : list FileMetadata;          (* the [files] collection *)
  oplog : list Op;                    (* calls made so far, oldest first *)
}.

Record Context := mkContext {
  (* configuration *)
  S3_COMP_BUCKET_URL : option string;
  S3_COMP_BUCKET_BKT : string;
  S3_COMP_VIRT_HOST : string;
  S3_BUCKET_NAME : option string;
  (* ambient values of one request *)
  iso_now : string;                   (* new Date().toISOString() *)
  now : Z;                            (* new Date() *)
  uuidv4 : string;
  fresh_object_id : string;           (* the _id the store gives to an insert *)
  (* third-party functions *)
  ObjectId_isValid : string → bool;
  regex_test : string → string → string → bool;   (* pattern, options, subject *)
  (* faults: the message of the error a call throws, if it does *)
  put_fault : string → option string;
  delete_fault : string → option string;
  batch_fault : list string → option string;
  db_fault : DbOp → option string;
}.

(** ** The handler monad *)

Inductive Outcome (A : Type) :=
| Val (a : A)
| Thrown (msg : string).
Arguments Val {A} a.
Arguments Thrown {A} msg.

Definition M (A : Type) : Type := Context → World → Outcome A * World.

Definition ret {A} (a : A) : M A := λ _ w, (Val a, w).

Definition bind {A B} (m : M A) (k : A → M B) : M B :=
  λ ctx w, match m ctx w with
           | (Val a, w') => k a ctx w'
           | (Thrown e, w') => (Thrown e, w')
           end.

Definition throw {A} (msg : string) : M A := λ _ w, (Thrown msg, w).

(** [try { m } catch (err) { h(err.message) }] *)
Definition try_catch {A} (m : M A) (h : string → M A) : M A :=
  λ ctx w, match m ctx w with
           | (Val a, w') => (Val a, w')
           | (Thrown e, w') => h e ctx w'
           end.

Definition ask : M Context := λ ctx w, (Val ctx, w).

Definition record (o : Op) (w : World) : World :=
  mkWorld (objects w) (files w) (oplog w ++ [o]).

Notation "x <- m ;; k" := (bind m (λ x, k))
  (at level 100, m at next level, right associativity, only parsing).
Notation "m ;;; k" := (bind m (λ _, k))
  (at level 100, right associativity, only parsing).

(** [Promise.all([a, b])]: both calls are issued, and the first rejection,
    if any, is the rejection of the whole. *)
Definition promise_all {A B} (a : M A) (b : M B) : M (A * B) :=
  λ ctx w,
    let '(ra, w1) := a ctx w in
    let '(rb, w2) := b ctx w1 in
    match ra, rb with
    | Val x, Val y => (Val (x, y), w2)
    | Thrown e, _ => (Thrown e, w2)
    | _, Thrown e => (Thrown e, w2)
    end.

(** [res.status(code).json(body)] *)
Definition send (code : Z) (b : Body) : M Response := ret (mkResponse code b).

(** ** Object store gateway ([s3Client.send], [uploadToS3], s3-object-store.ts) *)

Definition with_objects (o : gset (string * string)) (w : World) : World :=
  mkWorld o (files w) (oplog w).

Definition with_files (fs : list FileMetadata) (w : World) : World :=
  mkWorld (objects w) fs (oplog w).

(** [s3Client.send(new PutObjectCommand(..))] *)
Definition s3_put (bucket key contentType : string) : M unit :=
  λ ctx w,
    let cmd := PutObjectCommand bucket key contentType in
    match put_fault ctx key with
    | Some e => (Thrown e, record (S3 cmd false) w)
    | None => (Val (), record (S3 cmd true) (with_objects ({[ (bucket, key) ]} ∪ objects w) w))
    end.

(** [s3Client.send(new DeleteObjectCommand(..))] *)
Definition s3_delete (bucket key : string) : M unit :=
  λ ctx w,
    let cmd := DeleteObjectCommand bucket key in
    match delete_fault ctx key with
    | Some e => (Thrown e, record (S3 cmd false) w)
    | None => (Val (), record (S3 cmd true) (with_objects (objects w ∖ {[ (bucket, key) ]}) w))
    end.

Definition missing_bucket_error : string := "No value provided for input HTTP label: Bucket.".

(** [s3Client.send(new DeleteObjectsCommand(..))]: the value is the [Deleted]
    list of the result; keys whose deletion fails go to its [Errors] list. *)
Definition s3_delete_batch (bucket : option string) (keys : list string) : M (list string) :=
  λ ctx w,
    let cmd := DeleteObjectsCommand bucket keys in
    match bucket with
    | None => (Thrown missing_bucket_error, record (S3 cmd false) w)
    | Some b =>
        match batch_fault ctx keys with
        | Some e => (Thrown e, record (S3 cmd false) w)
        | None =>
            let deleted := List.filter (λ k, bool_decide (delete_fault ctx k = None)) keys in
            (Val deleted,
             record (S3 cmd true)
               (with_objects (objects w ∖ list_to_set ((λ k, (b, k)) <$> deleted)) w))
        end
    end.

(** [uploadToS3(buffer, key, contentType)]: the [catch] of the source logs and
    rethrows, so a failed put is the thrown error itself. *)
Definition uploadToS3 (key contentType : string) : M (option string) :=
  ctx <- ask ;;
  if negb (JS.truthy (S3_COMP_BUCKET_URL ctx)) then ret None
  else
    s3_put (S3_COMP_BUCKET_BKT ctx) key contentType ;;;
    ret (Some (S3_COMP_VIRT_HOST ctx +:+ "/" +:+ key)).

(** ** Metadata store (the [files] collection) *)

Definition doc_field (d : FileMetadata) (name : string) : option Bson :=
  if String.eqb name "_id" then Some (BObjectId (_id d))
  else if String.eqb name "filename" then Some (BString (filename d))
  else if String.eqb name "mimeType" then Some (BString (mimeType d))
  else if String.eqb name "type" then Some (BString (type_name (type d)))
  else if String.eqb name "size" then Some (BNumber (size d))
  else if String.eqb name "s3Key" then Some (BString (s3Key d))
  else if String.eqb name "src" then Some (BString (src d))
  else if String.eqb name "preview" then BString <$> preview d
  else if String.eqb name "details" then Some (BDocument (details d))
  else if String.eqb name "uploadedBy" then BString <$> uploadedBy d
  else if String.eqb name "uploadedAt" then Some (BDate (uploadedAt d))
  else None.

(** Order comparison of the store: only values of one type compare. *)
Definition bson_le (a b : Bson) : bool :=
  match a, b with
  | BNumber x, BNumber y => x <=? y
  | BDate x, BDate y => x <=? y
  | _, _ => false
  end.

Definition cond_holds (regex : string → string → string → bool) (c : Cond) (v : option Bson) : bool :=
  match v with
  | None => false
  | Some v =>
      match c with
      | CEq x => bool_decide (v = x)
      | CIn xs => bool_decide (v ∈ xs)
      | CRegex p o => match v with BString s => regex p o s | _ => false end
      | CRange lo hi =>
          (match lo with Some l => bson_le l v | None => true end
           && match hi with Some h => bson_le v h | None => true end)%bool
      end
  end.

Definition matches (regex : string → string → string → bool) (q : Filter) (d : FileMetadata) : bool :=
  forallb (λ fc, cond_holds regex (snd fc) (doc_field d (fst fc))) q.

(** A call to the store either throws the fault of its kind or runs. *)
Definition db_call {A} (kind : DbOp) (call : DbCall) (run : Context → World → A * World) : M A :=
  λ ctx w,
    match db_fault ctx kind with
    | Some e => (Thrown e, record (Db call false) w)
    | None => let '(a, w') := run ctx w in (Val a, record (Db call true) w')
    end.

Definition insertOne (doc : FileMetadata) : M string :=
  db_call op_insertOne (InsertOne doc)
    (λ ctx w,
       let id := fresh_object_id ctx in
       let stored := mkFile id (filename doc) (mimeType doc) (type doc) (size doc) (s3Key doc)
                       (src doc) (preview doc) (details doc) (uploadedBy doc) (uploadedAt doc) in
       (id, with_files (files w ++ [stored]) w)).

Definition findOne (q : Filter) : M (option FileMetadata) :=
  db_call op_findOne (FindOne q)
    (λ ctx w, (List.find (matches (regex_test ctx) q) (files w), w)).

Definition find (q : Filter) : M (list FileMetadata) :=
  db_call op_find (Find q)
    (λ ctx w, (List.filter (matches (regex_test ctx) q) (files w), w)).

Definition countDocuments (q : Filter) : M Z :=
  db_call op_countDocuments (CountDocuments q)
    (λ ctx w, (Z.of_nat (length (List.filter (matches (regex_test ctx) q) (files w))), w)).

Fixpoint remove_first (p : FileMetadata → bool) (l : list FileMetadata) : list FileMetadata :=
  match l with
  | [] => []
  | d :: r => if p d then r else d :: remove_first p r
  end.

Definition deleteOne (q : Filter) : M Z :=
  db_call op_deleteOne (DeleteOne q)
    (λ ctx w,
       let p := matches (regex_test ctx) q in
       ((if existsb p (files w) then 1 else 0), with_files (remove_first p (files w)) w)).

Definition deleteMany (q : Filter) : M Z :=
  db_call op_deleteMany (DeleteMany q)
    (λ ctx w,
       let p := matches (regex_test ctx) q in
       (Z.of_nat (length (List.filter p (files w))),
        with_files (List.filter (λ d, negb (p d)) (files w)) w)).

(** ** Ingestion orchestrator ([uploadFile], upload.controller.ts) *)

Record UploadedFile := mkUpload {
  originalname : string;
  mimetype : string;
  file_size : Z;
  buffer : Buffer;
}.

Record UploadRequest := mkUploadRequest {
  user_id : option string;            (* req.user?.id *)
  req_file : option UploadedFile;     (* req.file *)
}.

Definition unauthorized : Response :=
  mkResponse 401 (ErrorJson "UNAUTHORIZED" "User authentication required").
Definition no_file : Response :=
  mkResponse 400 (ErrorJson "NO_FILE" "No file uploaded").
Definition file_too_large : Response :=
  mkResponse 400 (ErrorJson "FILE_TOO_LARGE" "File size exceeds 100MB limit").
Definition unsupported_media_type : Response :=
  mkResponse 400 (ErrorJson "UNSUPPORTED_MEDIA_TYPE" "File type not supported for preview generation").
(** The [catch] of the handler: [{ message: 'Upload failed', error: err.message }]. *)
Definition upload_failed (err_message : string) : Response :=
  mkResponse 500 (ErrorJson err_message "Upload failed").

Definition baseKey_of (userId iso : string) : string :=
  let timestamp := default EmptyString (head (JS.split "T"%char iso)) in
  "uploads/" +:+ userId +:+ "/" +:+ timestamp.

Definition s3Key_of (baseKey fileId name : string) : string :=
  baseKey +:+ "/" +:+ fileId +:+ "-" +:+ name.

Definition image_previewKey (baseKey fileId : string) : string :=
  baseKey +:+ "/preview-" +:+ fileId +:+ ".jpg".

Definition video_previewKey (baseKey fileId : string) : string :=
  baseKey +:+ "/poster-" +:+ fileId +:+ ".jpg".

(** The preview variables after the category dispatch:
    [previewBuffer], [previewKey], [previewMimeType]. *)
Definition derive_preview (fileType : FileType) (file : UploadedFile) (finalMimeType : string)
    (baseKey fileId : string) : M (option Jpeg * option string * option string) :=
  match fileType with
  | image =>
      match generateImagePreview (buffer file) finalMimeType with
      | Some j => ret (Some j, Some (image_previewKey baseKey fileId), Some "image/jpeg")
      | None => ret (None, None, None)
      end
  | video =>
      previewBuffer <-
        match generateVideoPoster (buffer file) with
        | Some j => ret (Some j)
        | None =>
            match extractVideoThumbnail (buffer file) with
            | inl j => ret (Some j)
            | inr e => throw e
            end
        end ;;
      match previewBuffer with
      | Some j => ret (Some j, Some (video_previewKey baseKey fileId), Some "image/jpeg")
      | None => ret (None, None, None)
      end
  | _ => ret (None, None, None)
  end.

Definition uploadFile (req : UploadRequest) : M Response :=
  match user_id req with
  | Some (String c u) =>
      let userId := String c u in
      match req_file req with
      | None => ret no_file
      | Some file =>
          if FILE_CONSTRAINTS_MAX_FILE_SIZE <? file_size file then ret file_too_large
          else
            ctx <- ask ;;
            let fileId := uuidv4 ctx in
            let baseKey := baseKey_of userId (iso_now ctx) in
            let s3Key := s3Key_of baseKey fileId (originalname file) in
            try_catch
              (let meta := extractMediaMetadata (buffer file) in
               let finalMimeType := JS.or_else (m_mimeType meta) (mimetype file) in
               let fileType := getFileType finalMimeType (Some (originalname file)) in
               if negb (JS.includes ["image"; "video"; "audio"] (type_name fileType))
               then ret unsupported_media_type
               else
                 derived <- derive_preview fileType file finalMimeType baseKey fileId ;;
                 let '(previewBuffer, previewKey, previewMimeType) := derived in
                 originalUrl <- uploadToS3 s3Key finalMimeType ;;
                 match originalUrl with
                 | None => throw "Media upload failed"
                 | Some originalUrl =>
                     previewUrl <-
                       match previewBuffer, previewKey, previewMimeType with
                       | Some _, Some (String k ks), Some (String m ms) =>
                           if negb (bool_decide (fileType = audio))
                           then uploadToS3 (String k ks) (String m ms)
                           else ret (Some originalUrl)
                       | _, _, _ =>
                           if bool_decide (fileType = audio) then ret (Some originalUrl)
                           else ret None
                       end ;;
                     let shown := JS.or_else previewUrl originalUrl in
                     let doc :=
                       mkFile EmptyString (originalname file) finalMimeType fileType (file_size file)
                         s3Key originalUrl (Some shown)
                         (mkDetails originalUrl (m_width meta) (m_height meta)
                            (m_duration meta) shown)
                         (Some userId) (now ctx) in
                     insertedId <- insertOne doc ;;
                     send 201
                       (CreatedJson
                          (mkFile insertedId (filename doc) (mimeType doc) (type doc) (size doc)
                             (s3Key) (src doc) (preview doc) (details doc)
                             (uploadedBy doc) (uploadedAt doc)))
                 end)
              (λ err_message, ret (upload_failed err_message))
      end
  | _ => ret unauthorized
  end.

(** ** Lifecycle manager ([deleteFile], [bulkDeleteFiles], upload.controller.ts) *)

Definition owned_by_id (fileId userId : string) : Filter :=
  [("_id", CEq (BObjectId fileId)); ("uploadedBy", CEq (BString userId))].

Definition owned_among (ids : list string) (userId : string) : Filter :=
  [("_id", CIn (BObjectId <$> ids)); ("uploadedBy", CEq (BString userId))].

(** [s3Keys.map(async key => { try { send(Delete key) } catch { warn } })]
    followed by [Promise.allSettled]: the sends are issued in the order of
    the keys, each inside its own [try], and all have settled afterwards. *)
Fixpoint delete_each (bucket : string) (keys : list string) : M unit :=
  match keys with
  | [] => ret ()
  | key :: rest =>
      try_catch (s3_delete bucket key) (λ _, ret ()) ;;;
      delete_each bucket rest
  end.

Definition invalid_file_id : Response :=
  mkResponse 400 (ErrorJson "INVALID_FILE_ID" "Valid file ID required").
Definition file_not_found : Response :=
  mkResponse 404
    (ErrorJson "FILE_NOT_FOUND" "File not found or you do not have permission to delete it").
Definition delete_failed (err_message : string) : Response :=
  mkResponse 500 (ErrorJson err_message "Delete failed").

Definition deleteFile (user : option string) (param : option string) : M Response :=
  match user with
  | Some (String c u) =>
      let userId := String c u in
      ctx <- ask ;;
      match param with
      | Some (String p ps) =>
          let fileId := String p ps in
          if negb (ObjectId_isValid ctx fileId) then ret invalid_file_id
          else
            try_catch
              (found <- findOne (owned_by_id fileId userId) ;;
               match found with
               | None => ret file_not_found
               | Some file =>
                   let s3Keys := getS3KeysForFile file in
                   delete_each (S3_COMP_BUCKET_BKT ctx) s3Keys ;;;
                   deleteOne (owned_by_id fileId userId) ;;;
                   send 200
                     (DeletedJson "File deleted successfully"
                        (_id file) (filename file) (s3Key file) s3Keys)
               end)
              (λ err_message, ret (delete_failed err_message))
      | _ => ret invalid_file_id
      end
  | _ => ret unauthorized
  end.

Definition MAX_BULK_DELETE : Z := 100.
Definition chunkSize : nat := 1000.

Definition invalid_request : Response :=
  mkResponse 400 (ErrorJson "INVALID_REQUEST" "Array of file IDs required").
Definition too_many_files : Response :=
  mkResponse 400 (ErrorJson "TOO_MANY_FILES" "Maximum 100 files can be deleted at once").
Definition invalid_file_ids (invalid : list string) : Response :=
  mkResponse 400 (InvalidIdsJson "INVALID_FILE_IDS" "Some file IDs are invalid" invalid).
Definition no_files_found : Response :=
  mkResponse 404
    (ErrorJson "NO_FILES_FOUND" "No files found or you do not have permission to delete them").
Definition bulk_delete_failed (err_message : string) : Response :=
  mkResponse 500 (ErrorJson err_message "Bulk delete failed").

(** The slices [allS3Keys.slice(i, i + chunkSize)] for [i = 0, chunkSize, ..]. *)
Fixpoint chunks_from (fuel : nat) (n : nat) (keys : list string) : list (list string) :=
  match fuel, keys with
  | S fuel', _ :: _ => take n keys :: chunks_from fuel' n (drop n keys)
  | _, _ => []
  end.

Definition chunks (n : nat) (keys : list string) : list (list string) :=
  chunks_from (length keys) n keys.

(** The [for] loop over the chunks: a chunk whose call throws contributes no
    result and the loop continues. *)
Fixpoint delete_chunks (bucket : option string) (cs : list (list string)) : M (list (list string)) :=
  match cs with
  | [] => ret []
  | chunk :: rest =>
      result <- try_catch (deleted <- s3_delete_batch bucket chunk ;; ret (Some deleted))
                          (λ _, ret None) ;;
      results <- delete_chunks bucket rest ;;
      ret (match result with Some deleted => deleted :: results | None => results end)
  end.

Definition summary (file : FileMetadata) : FileSummary :=
  mkSummary (_id file) (filename file) (s3Key file) (type file).

Definition bulkDeleteFiles (user : option string) (fileIds : option (list string)) : M Response :=
  match user with
  | Some (String c u) =>
      let userId := String c u in
      match fileIds with
      | Some (id :: ids') =>
          let ids := id :: ids' in
          if MAX_BULK_DELETE <? Z.of_nat (length ids) then ret too_many_files
          else
            ctx <- ask ;;
            let validFileIds := List.filter (ObjectId_isValid ctx) ids in
            if negb (length validFileIds =? length ids)%nat
            then ret (invalid_file_ids (List.filter (λ i, negb (ObjectId_isValid ctx i)) ids))
            else
              try_catch
                (found <- find (owned_among validFileIds userId) ;;
                 if (length found =? 0)%nat then ret no_files_found
                 else
                   let allS3Keys := concat (getS3KeysForFile <$> found) in
                   deleteResults <- delete_chunks (S3_BUCKET_NAME ctx) (chunks chunkSize allS3Keys) ;;
                   deletedCount <- deleteMany (owned_among (_id <$> found) userId) ;;
                   let successfulS3Deletes :=
                     foldl (λ acc result, acc + Z.of_nat (length result)) 0 deleteResults in
                   send 200
                     (BulkDeletedJson (pretty deletedCount +:+ " files deleted successfully")
                        deletedCount successfulS3Deletes (summary <$> found)))
                (λ err_message, ret (bulk_delete_failed err_message))
      | _ => ret invalid_request
      end
  | _ => ret unauthorized
  end.

(** ** Query engine ([searchFiles], upload.controller.ts) *)

Record SearchQuery := mkQuery {
  q_query : option string;
  q_type : option string;
  q_mimeType : option string;
  q_minSize : option Z;               (* parseInt(minSize.toString()) *)
  q_maxSize : option Z;
  q_startDate : option Z;             (* new Date(startDate.toString()) *)
  q_endDate : option Z;
  q_page : option Z;                  (* parseInt(page.toString()) *)
  q_limit : option Z;
  q_sortBy : option string;
  q_sortOrder : option string;
}.

Definition range_cond (mk : Z → Bson) (lo hi : option Z) : list Cond :=
  match lo, hi with
  | None, None => []
  | _, _ => [CRange (mk <$> lo) (mk <$> hi)]
  end.

(** The filter object built from the request. *)
Definition search_filter (userId : string) (q : SearchQuery) : Filter :=
  [("uploadedBy", CEq (BString userId))]
  ++ (if JS.truthy (q_query q)
      then [("originalName", CRegex (default EmptyString (q_query q)) "i")] else [])
  ++ (if JS.truthy (q_type q) then [("type", CEq (BString (default EmptyString (q_type q))))] else [])
  ++ (if JS.truthy (q_mimeType q)
      then [("mimeType", CEq (BString (default EmptyString (q_mimeType q))))] else [])
  ++ ((λ c, ("size", c)) <$> range_cond BNumber (q_minSize q) (q_maxSize q))
  ++ ((λ c, ("uploadedAt", c)) <$> range_cond BDate (q_startDate q) (q_endDate q)).

(** Sort order of the store on one key; an absent field sorts first. *)
Definition bson_rank (v : option Bson) : Z :=
  match v with
  | None => 0
  | Some (BNumber _) => 1
  | Some (BString _) => 2
  | Some (BDocument _) => 3
  | Some (BObjectId _) => 4
  | Some (BDate _) => 5
  end.

Definition bson_before (a b : option Bson) : bool :=
  match a, b with
  | Some (BNumber x), Some (BNumber y) => x <? y
  | Some (BDate x), Some (BDate y) => x <? y
  | Some (BString x), Some (BString y) =>
      match String.compare x y with Lt => true | _ => false end
  | Some (BObjectId x), Some (BObjectId y) =>
      match String.compare x y with Lt => true | _ => false end
  | _, _ => bson_rank a <? bson_rank b
  end.

Fixpoint insert_sorted (before : FileMetadata → FileMetadata → bool)
    (d : FileMetadata) (l : list FileMetadata) : list FileMetadata :=
  match l with
  | [] => [d]
  | e :: r => if before e d then e :: insert_sorted before d r
              else if before d e then d :: l
              else e :: insert_sorted before d r
  end.

Definition sort_docs (key : string) (ascending : bool) (l : list FileMetadata) : list FileMetadata :=
  let before a b :=
    if ascending then bson_before (doc_field a key) (doc_field b key)
    else bson_before (doc_field b key) (doc_field a key) in
  foldl (λ acc d, insert_sorted before d acc) [] l.

Definition search_failed (err_message : string) : Response :=
  mkResponse 500 (ErrorJson err_message "Search failed").

Definition ceil_div (a b : Z) : Z := - ((- a) / b).

Definition searchFiles (user : option string) (q : SearchQuery) : M Response :=
  match user with
  | Some (String c u) =>
      let userId := String c u in
      try_catch
        (let page := default 1 (q_page q) in
         let limit := default 20 (q_limit q) in
         let sortBy := default "uploadedAt" (q_sortBy q) in
         let sortOrder := default "desc" (q_sortOrder q) in
         let filter := search_filter userId q in
         let pageNum := Z.max 1 page in
         let limitNum := Z.min 100 (Z.max 1 limit) in
         let skip := (pageNum - 1) * limitNum in
         both <- promise_all (find filter) (countDocuments filter) ;;
         let '(matching, totalCount) := both in
         let items :=
           take (Z.to_nat limitNum)
             (drop (Z.to_nat skip) (sort_docs sortBy (String.eqb sortOrder "asc") matching)) in
         let totalPages := ceil_div totalCount limitNum in
         let hasNextPage := pageNum <? totalPages in
         let hasPreviousPage := 1 <? pageNum in
         send 200
           (SearchJson items hasNextPage
              (mkPagination pageNum totalPages totalCount limitNum hasNextPage hasPreviousPage)))
        (λ err_message, ret (search_failed err_message))
  | _ => ret unauthorized
  end.

(** ** Sample requests, used to run the handlers *)

Module Sample.

Definition is_hex (c : ascii) : bool :=
  let n := nat_of_ascii c in
  ((Nat.leb 48 n && Nat.leb n 57) || (Nat.leb 97 n && Nat.leb n 102)
   || (Nat.leb 65 n && Nat.leb n 70))%bool.

(** The 24-digit hexadecimal shape of an object identifier. *)
Definition is_hex24 (s : string) : bool :=
  let cs := String.list_ascii_of_string s in
  ((length cs =? 24)%nat && forallb is_hex cs)%bool.

Fixpoint contains (needle hay : string) : bool :=
  (String.prefix needle hay
   || match hay with
      | EmptyString => false
      | String _ r => contains needle r
      end)%bool.

(** Stand-in for the regular-expression engine on patterns without
    metacharacters: a substring test, ignoring case under option [i]. *)
Definition regex (pattern options subject : string) : bool :=
  if JS.has_char "i" options
  then contains (JS.toLowerCase pattern) (JS.toLowerCase subject)
  else contains pattern subject.

Definition no_fault {A} : A → option string := λ _, None.

Definition ctx : Context :=
  {| S3_COMP_BUCKET_URL := Some "https://s3.example.com";
     S3_COMP_BUCKET_BKT := "media";
     S3_COMP_VIRT_HOST := "https://media.example.com";
     S3_BUCKET_NAME := Some "media";
     iso_now := "2024-05-01T10:20:30.000Z";
     now := 1714558830000;
     uuidv4 := "123e4567-e89b-42d3-a456-426614174000";
     fresh_object_id := "665f1c2ab3d4e5f6a7b8c9d0";
     ObjectId_isValid := is_hex24;
     regex_test := regex;
     put_fault := no_fault;
     delete_fault := no_fault;
     batch_fault := no_fault;
     db_fault := no_fault |}.

Definition with_put_fault (f : string → option string) (c : Context) : Context :=
  mkContext (S3_COMP_BUCKET_URL c) (S3_COMP_BUCKET_BKT c) (S3_COMP_VIRT_HOST c)
    (S3_BUCKET_NAME c) (iso_now c) (now c) (uuidv4 c) (fresh_object_id c)
    (ObjectId_isValid c) (regex_test c) f (delete_fault c) (batch_fault c) (db_fault c).

Definition with_delete_fault (f : string → option string) (c : Context) : Context :=
  mkContext (S3_COMP_BUCKET_URL c) (S3_COMP_BUCKET_BKT c) (S3_COMP_VIRT_HOST c)
    (S3_BUCKET_NAME c) (iso_now c) (now c) (uuidv4 c) (fresh_object_id c)
    (ObjectId_isValid c) (regex_test c) (put_fault c) f (batch_fault c) (db_fault c).

Definition with_db_fault (f : DbOp → option string) (c : Context) : Context :=
  mkContext (S3_COMP_BUCKET_URL c) (S3_COMP_BUCKET_BKT c) (S3_COMP_VIRT_HOST c)
    (S3_BUCKET_NAME c) (iso_now c) (now c) (uuidv4 c) (fresh_object_id c)
    (ObjectId_isValid c) (regex_test c) (put_fault c) (delete_fault c) (batch_fault c) f.

Definition empty : World := mkWorld ∅ [] [].

(** A picture of [w] x [h] pixels that every tool decodes. *)
Definition picture (mime : string) (w h : positive) : Buffer :=
  {| sniffed := Some mime;
     image_size := Some (Some (Z.pos w), Some (Z.pos h));
     ffprobe := None;
     decoded := Some (w, h);
     encodes := true;
     screenshot := None;
     embedded_thumbnail := None |}.

Definition clip : Buffer :=
  {| sniffed := Some "video/mp4";
     image_size := None;
     ffprobe := Some (mkProbe [(Some 1920, Some 1080); (None, None)] (Some 12));
     decoded := None;
     encodes := false;
     screenshot := Some (mkJpeg 720 405 2);
     embedded_thumbnail := None |}.

Definition song : Buffer :=
  {| sniffed := Some "audio/mpeg";
     image_size := None;
     ffprobe := Some (mkProbe [(None, None)] (Some 215));
     decoded := None;
     encodes := false;
     screenshot := None;
     embedded_thumbnail := None |}.

Definition report : Buffer :=
  {| sniffed := Some "application/pdf";
     image_size := None;
     ffprobe := None;
     decoded := None;
     encodes := false;
     screenshot := None;
     embedded_thumbnail := None |}.

Definition upload (user : string) (name mime : string) (bytes : Z) (b : Buffer) : UploadRequest :=
  mkUploadRequest (Some user) (Some (mkUpload name mime bytes b)).

Definition photo_request : UploadRequest :=
  upload "u1" "photo.jpg" "image/jpeg" 2097152 (picture "image/jpeg" 1500 1000).

End Sample.

(** ** Notions used in the statements *)

(** The part of a string in front of the first separator. *)
Fixpoint before (sep : ascii) (s : string) : string :=
  match s with
  | EmptyString => EmptyString
  | String c r => if Ascii.eqb c sep then EmptyString else String c (before sep r)
  end.

Definition is_s3 (o : Op) : bool :=
  match o with
  | S3 _ _ => true
  | Db _ _ => false
  end.

(** The category the orchestrator resolves for an uploaded file. *)
Definition finalMimeType_of (file : UploadedFile) : string :=
  JS.or_else (m_mimeType (extractMediaMetadata (buffer file))) (mimetype file).

Definition category (file : UploadedFile) : FileType :=
  getFileType (finalMimeType_of file) (Some (originalname file)).

(** A request that passes the three guards in front of the [try] block. *)
Definition accepted (req : UploadRequest) (userId : string) (file : UploadedFile) : Prop :=
  user_id req = Some userId ∧ userId ≠ EmptyString ∧ req_file req = Some file
  ∧ file_size file ≤ FILE_CONSTRAINTS_MAX_FILE_SIZE.

Definition supported (t : FileType) : bool :=
  JS.includes ["image"; "video"; "audio"] (type_name t).

Definition put_ok (ctx : Context) (key contentType : string) (w : World) : World :=
  record (S3 (PutObjectCommand (S3_COMP_BUCKET_BKT ctx) key contentType) true)
    (with_objects ({[ (S3_COMP_BUCKET_BKT ctx, key) ]} ∪ objects w) w).

Definition put_failed (ctx : Context) (key contentType : string) (w : World) : World :=
  record (S3 (PutObjectCommand (S3_COMP_BUCKET_BKT ctx) key contentType) false) w.

Definition url_of (ctx : Context) (key : string) : string :=
  S3_COMP_VIRT_HOST ctx +:+ "/" +:+ key.

(** What the category dispatch leaves in the preview variables: the
    derivative with the key it will be written under, nothing, or the error
    rethrown by [extractVideoThumbnail]. *)
Definition derivative (file : UploadedFile) (baseKey fileId : string)
  : Outcome (option (Jpeg * string)) :=
  match category file with
  | image =>
      match generateImagePreview (buffer file) (finalMimeType_of file) with
      | Some j => Val (Some (j, image_previewKey baseKey fileId))
      | None => Val None
      end
  | video =>
      match generateVideoPoster (buffer file) with
      | Some j => Val (Some (j, video_previewKey baseKey fileId))
      | None =>
          match extractVideoThumbnail (buffer file) with
          | inl j => Val (Some (j, video_previewKey baseKey fileId))
          | inr e => Thrown e
          end
      end
  | _ => Val None
  end.

(** The record built for the insert, with the identifier it is stored under. *)
Definition record_of (id userId : string) (file : UploadedFile) (ctx : Context)
    (s3Key shown : string) : FileMetadata :=
  mkFile id (originalname file) (finalMimeType_of file) (category file) (file_size file)
    s3Key (url_of ctx s3Key) (Some shown)
    (mkDetails (url_of ctx s3Key) (m_width (extractMediaMetadata (buffer file)))
       (m_height (extractMediaMetadata (buffer file)))
       (m_duration (extractMediaMetadata (buffer file))) shown)
    (Some userId) (now ctx).

(** The last step: insert the record and answer. *)
Definition insert_step (userId : string) (file : UploadedFile) (ctx : Context)
    (s3Key shown : string) (w : World) : Outcome Response * World :=
  let doc := record_of EmptyString userId file ctx s3Key shown in
  match db_fault ctx op_insertOne with
  | Some e => (Val (upload_failed e), record (Db (InsertOne doc) false) w)
  | None =>
      let stored := record_of (fresh_object_id ctx) userId file ctx s3Key shown in
      (Val (mkResponse 201 (CreatedJson stored)),
       record (Db (InsertOne doc) true) (with_files (files w ++ [stored]) w))
  end.

Definition validation_responses : list Response :=
  [unauthorized; no_file; file_too_large; unsupported_media_type].

(** Keys of the objects the log shows as written. *)
Definition written_keys (log : list Op) : list string :=
  omap (λ o, match o with
             | S3 (PutObjectCommand _ key _) true => Some key
             | _ => None
             end) log.

Definition text_query (text : string) : SearchQuery :=
  mkQuery (Some text) None None None None None None None None None None.

Definition any_query : SearchQuery :=
  mkQuery None None None None None None None None None None None.

Definition found_items (r : Outcome Response) : option (list string * Z) :=
  match r with
  | Val (mkResponse 200 (SearchJson items _ p)) => Some (filename <$> items, totalCount p)
  | _ => None
  end.

(** The owner-scoped selection of the bulk paths, as a predicate on records. *)
Definition owned_in (ids : list string) (userId : string) (d : FileMetadata) : bool :=
  (bool_decide (_id d ∈ ids) && bool_decide (uploadedBy d = Some userId))%bool.

Definition stored (id owner date uuid name : string) (resized : bool) : FileMetadata :=
  let key := s3Key_of (baseKey_of owner date) uuid name in
  let shown := if resized then image_previewKey (baseKey_of owner date) uuid else key in
  mkFile id name "image/jpeg" image 2097152 key
    ("https://media.example.com/" +:+ key) (Some ("https://media.example.com/" +:+ shown))
    (mkDetails ("https://media.example.com/" +:+ key) (Some 1500) (Some 1000) None
       ("https://media.example.com/" +:+ shown))
    (Some owner) 1714558830000.

(** Three records: two of u1, one of u2. *)
Definition library : World :=
  mkWorld
    (list_to_set
       [("media", "uploads/u1/2024-05-01/a1b2c3d4-photo.jpg");
        ("media", "uploads/u1/2024-05-02/e5f6a7b8-beach.jpg");
        ("media", "uploads/u2/2024-05-03/c9d0e1f2-tree.jpg")])
    [stored "665f1c2ab3d4e5f6a7b8c9d0" "u1" "2024-05-01T" "a1b2c3d4" "photo.jpg" true;
     stored "665f1c2ab3d4e5f6a7b8c9d1" "u1" "2024-05-02T" "e5f6a7b8" "beach.jpg" false;
     stored "665f1c2ab3d4e5f6a7b8c9d2" "u2" "2024-05-03T" "c9d0e1f2" "tree.jpg" false]
    [].

(** The log entry of one attempted object deletion. *)
Definition delete_attempt (ctx : Context) (key : string) : Op :=
  S3 (DeleteObjectCommand (S3_COMP_BUCKET_BKT ctx) key) (bool_decide (delete_fault ctx key = None)).

(** ** Type guards and categories of the model ([upload.model.ts]) *)

Definition isImageFile (file : FileMetadata) : bool := JS.startsWith (mimeType file) "image/".

Definition isVideoFile (file : FileMetadata) : bool := JS.startsWith (mimeType file) "video/".

Definition isAudioFile (file : FileMetadata) : bool := JS.startsWith (mimeType file) "audio/".

Definition hasMediaDimensions (file : FileMetadata) : bool :=
  (num_truthy (d_width (details file)) && num_truthy (d_height (details file)))%bool.

Inductive FileCategory :=
| cat_image | cat_video | cat_audio | cat_document | cat_archive | cat_other.

Definition documentTypes : list string :=
  ["application/pdf";
   "application/msword";
   "application/vnd.openxmlformats-officedocument.wordprocessingml.document";
   "application/vnd.ms-excel";
   "application/vnd.openxmlformats-officedocument.spreadsheetml.sheet";
   "application/vnd.ms-powerpoint";
   "application/vnd.openxmlformats-officedocument.presentationml.presentation";
   "text/plain";
   "text/csv";
   "application/rtf"].

Definition archiveTypes : list string :=
  ["application/zip";
   "application/x-rar-compressed";
   "application/x-7z-compressed";
   "application/gzip";
   "application/x-tar"].

Definition getFileCategory (mime : string) : FileCategory :=
  if JS.startsWith mime "image/" then cat_image
  else if JS.startsWith mime "video/" then cat_video
  else if JS.startsWith mime "audio/" then cat_audio
  else if JS.includes documentTypes mime then cat_document
  else if JS.includes archiveTypes mime then cat_archive
  else cat_other.

(** ** Single-record fetch ([getFileById], upload.controller.ts) *)

(** [{ ...file, id, hasPreview, downloadUrl, previewUrl }] *)
Record EnrichedFile := mkEnriched {
  ef_file : FileMetadata;
  ef_id : string;
  hasPreview : bool;
  downloadUrl : string;
  previewUrl : option string;
}.

(** What the fetch sends: an error response, or status 200 with the enriched
    record. *)
Inductive FileAnswer :=
| FileError (r : Response)
| FileFound (e : EnrichedFile).

Definition file_not_accessible : Response :=
  mkResponse 404
    (ErrorJson "FILE_NOT_FOUND" "File not found or you do not have permission to access it").
Definition retrieve_failed (err_message : string) : Response :=
  mkResponse 500 (ErrorJson err_message "Failed to retrieve file").

Definition getFileById (user : option string) (param : option string) : M FileAnswer :=
  match user with
  | Some (String c u) =>
      let userId := String c u in
      ctx <- ask ;;
      match param with
      | Some (String p ps) =>
          let fileId := String p ps in
          if negb (ObjectId_isValid ctx fileId) then ret (FileError invalid_file_id)
          else
            try_catch
              (found <- findOne (owned_by_id fileId userId) ;;
               match found with
               | None => ret (FileError file_not_accessible)
               | Some file =>
                   ret (FileFound
                          (mkEnriched file (_id file)
                             (negb (bool_decide (preview file = Some (src file))))
                             (src file) (preview file)))
               end)
              (λ err_message, ret (FileError (retrieve_failed err_message)))
      | _ => ret (FileError invalid_file_id)
      end
  | _ => ret (FileError unauthorized)
  end.

(** ** Authentication middleware and the routes behind it
    ([authMiddleware], [requireRole], [upload.router.ts]) *)

Record User := mkUser {
  user_ident : string;                (* user.id *)
  user_role : option string;          (* user.role *)
}.

(** The object [auth.api.getSession] resolves to, when it is not [null]. *)
Record SessionLookup := mkLookup {
  lookup_session : bool;              (* session?.session is there *)
  lookup_user : option User;          (* session?.user *)
}.

Record AuthRequest := mkAuthRequest {
  authorization : option string;      (* req.headers.authorization *)
  getSession : Outcome (option SessionLookup);
  NODE_ENV : option string;
}.

(** A middleware either answers itself or calls [next()]. *)
Inductive Guarded (A : Type) :=
| Rejected (code : Z) (error message : string) (details : option string)
| Passed (a : A).
Arguments Rejected {A} code error message details.
Arguments Passed {A} a.

Definition authMiddleware (req : AuthRequest) : Guarded User :=
  match authorization req with
  | Some (String c h) =>
      if JS.startsWith (String c h) "Bearer " then
        match getSession req with
        | Val (Some (mkLookup true (Some user))) => Passed user
        | Val _ => Rejected 401 "INVALID_SESSION" "Session expired or invalid" None
        | Thrown err_message =>
            Rejected 401 "AUTH_ERROR" "Authentication failed"
              (if bool_decide (NODE_ENV req = Some "development") then Some err_message else None)
        end
      else Rejected 401 "UNAUTHORIZED" "Missing or invalid authorization header" None
  | _ => Rejected 401 "UNAUTHORIZED" "Missing or invalid authorization header" None
  end.

(** [requireRole(roles)] with [allowedRoles] already an array; [req.user] is
    the user a preceding middleware attached, if any. *)
Definition requireRole (allowedRoles : list string) (user : option User) : Guarded User :=
  match user with
  | None => Rejected 401 "UNAUTHORIZED" "Authentication required" None
  | Some u =>
      let userRole := JS.or_else (user_role u) "user" in
      if JS.includes allowedRoles userRole then Passed u
      else Rejected 403 "FORBIDDEN" "Insufficient permissions" None
  end.

(** [router.use(authMiddleware)] in front of a handler: the handler runs only
    after [next()], with [req.user] set to the user of the session. *)
Definition behind_auth {A} (req : AuthRequest) (handler : option string → M A) : M (Guarded A) :=
  match authMiddleware req with
  | Rejected code error message details => ret (Rejected code error message details)
  | Passed user => a <- handler (Some (user_ident user)) ;; ret (Passed a)
  end.

(** [router.post('/', upload.single('file'), uploadFile)] *)
Definition post_upload (req : AuthRequest) (file : option UploadedFile) : M (Guarded Response) :=
  behind_auth req (λ user, uploadFile (mkUploadRequest user file)).

(** [router.get('/search', searchFiles)] *)
Definition get_search (req : AuthRequest) (q : SearchQuery) : M (Guarded Response) :=
  behind_auth req (λ user, searchFiles user q).

(** [router.get('/:fileId', getFileById)] *)
Definition get_file (req : AuthRequest) (fileId : string) : M (Guarded FileAnswer) :=
  behind_auth req (λ user, getFileById user (Some fileId)).

(** [router.delete('/:fileId', deleteFile)] *)
Definition delete_file (req : AuthRequest) (fileId : string) : M (Guarded Response) :=
  behind_auth req (λ user, deleteFile user (Some fileId)).

(** [router.post('/bulk-delete', bulkDeleteFiles)] *)
Definition post_bulk_delete (req : AuthRequest) (fileIds : option (list string))
  : M (Guarded Response) :=
  behind_auth req (λ user, bulkDeleteFiles user fileIds).

(** ** Further notions used in the statements *)

(** Every record of the collection has its original in the upload bucket. *)
Definition originals_stored (ctx : Context) (w : World) : Prop :=
  ∀ d, d ∈ files w → (S3_COMP_BUCKET_BKT ctx, s3Key d) ∈ objects w.

(** Answer and pagination block of a search that answered 200. *)
Definition search_result (r : Outcome Response) : option (list FileMetadata * bool * Pagination) :=
  match r with
  | Val (mkResponse 200 (SearchJson items hasMore p)) => Some (items, hasMore, p)
  | _ => None
  end.


(** The record of a run that answered 201 (an empty record otherwise). *)
Definition created_record (run : Outcome Response * World) : FileMetadata :=
  match run.1 with
  | Val (mkResponse _ (CreatedJson d)) => d
  | _ => mkFile EmptyString EmptyString EmptyString other 0 EmptyString EmptyString None
           (mkDetails EmptyString None None None EmptyString) None 0
  end.

(** The sample context with [S3_BUCKET_NAME] not set. *)
Definition ctx_without_bulk_bucket : Context :=
  mkContext (Some "https://s3.example.com") "media" "https://media.example.com" None
    "2024-05-01T10:20:30.000Z" 1714558830000 "123e4567-e89b-42d3-a456-426614174000"
    "665f1c2ab3d4e5f6a7b8c9d0" Sample.is_hex24 Sample.regex
    Sample.no_fault Sample.no_fault Sample.no_fault Sample.no_fault.

(** Items and pagination block of an answer (empty unless it is a search
    answered 200). *)
Definition answered_items (r : Outcome Response) : list FileMetadata :=
  match search_result r with Some (items, _, _) => items | None => [] end.

Definition answered_pagination (r : Outcome Response) : Pagination :=
  match search_result r with
  | Some (_, _, p) => p
  | None => mkPagination 0 0 0 0 false false
  end.

(** The answer of [authMiddleware] to a request without a bearer header. *)
Definition missing_header {A} : Guarded A :=
  Rejected 401 "UNAUTHORIZED" "Missing or invalid authorization header" None.

(** A request with a bearer header whose session resolves to [userId]. *)
Definition signed_in (userId : string) : AuthRequest :=
  mkAuthRequest (Some "Bearer 7f3c2a") (Val (Some (mkLookup true (Some (mkUser userId None))))) None.

(** A request whose session resolves to [userId] but whose header is not a
    bearer header. *)
Definition basic_auth (userId : string) : AuthRequest :=
  mkAuthRequest (Some "Basic dTE6cHc=") (Val (Some (mkLookup true (Some (mkUser userId None))))) None.

(** * Properties *)

(** A run is its answer paired with the world it leaves. *)
Lemma run_eq {A} (run : Outcome A * World) (r : Outcome A) : run.1 = r → run = (r, run.2).
Proof. destruct run as [r' w']. simpl. intros ->. reflexivity. Qed.

Example split_path :
  JS.split "/"%char "uploads/u1/2024-05-01/abc-x.png" = ["uploads"; "u1"; "2024-05-01"; "abc-x.png"].
Proof. reflexivity. Qed.

Example getFileType_octet : getFileType "application/octet-stream" (Some "Movie.MKV") = video.
Proof. reflexivity. Qed.

(** ** Accepted uploads *)

Lemma supported_spec t : supported t = true ↔ t = image ∨ t = video ∨ t = audio.
Proof. destruct t; vm_compute; intuition congruence. Qed.

#[global] Arguments getFileType : simpl never.
#[global] Arguments extractMediaMetadata : simpl never.
#[global] Arguments generateImagePreview : simpl never.
#[global] Arguments baseKey_of : simpl never.
#[global] Arguments s3Key_of : simpl never.
#[global] Arguments image_previewKey : simpl never.
#[global] Arguments video_previewKey : simpl never.
#[global] Arguments String.append : simpl never.
#[global] Arguments JS.or_else : simpl never.

(** The part of [uploadFile] inside [try]/[catch], once the guards passed. *)
Lemma uploadFile_accepted req userId file ctx w :
  accepted req userId file →
  ∃ c u, userId = String c u ∧
  uploadFile req ctx w =
    (if negb (supported (category file)) then (Val unsupported_media_type, w)
     else
       try_catch
         (derived <- derive_preview (category file) file (finalMimeType_of file)
                       (baseKey_of userId (iso_now ctx)) (uuidv4 ctx) ;;
          let '(previewBuffer, previewKey, previewMimeType) := derived in
          let s3Key :=
            s3Key_of (baseKey_of userId (iso_now ctx)) (uuidv4 ctx) (originalname file) in
          originalUrl <- uploadToS3 s3Key (finalMimeType_of file) ;;
          match originalUrl with
          | None => throw "Media upload failed"
          | Some originalUrl =>
              previewUrl <-
                match previewBuffer, previewKey, previewMimeType with
                | Some _, Some (String k ks), Some (String m ms) =>
                    if negb (bool_decide (category file = audio))
                    then uploadToS3 (String k ks) (String m ms)
                    else ret (Some originalUrl)
                | _, _, _ =>
                    if bool_decide (category file = audio) then ret (Some originalUrl)
                    else ret None
                end ;;
              let shown := JS.or_else previewUrl originalUrl in
              insertedId <-
                insertOne
                  (mkFile EmptyString (originalname file) (finalMimeType_of file) (category file)
                     (file_size file) s3Key originalUrl (Some shown)
                     (mkDetails originalUrl (m_width (extractMediaMetadata (buffer file)))
                        (m_height (extractMediaMetadata (buffer file)))
                        (m_duration (extractMediaMetadata (buffer file))) shown)
                     (Some userId) (now ctx)) ;;
              send 201
                (CreatedJson
                   (mkFile insertedId (originalname file) (finalMimeType_of file) (category file)
                      (file_size file) s3Key originalUrl (Some shown)
                      (mkDetails originalUrl (m_width (extractMediaMetadata (buffer file)))
                         (m_height (extractMediaMetadata (buffer file)))
                         (m_duration (extractMediaMetadata (buffer file))) shown)
                      (Some userId) (now ctx)))
          end)
         (λ err_message, ret (upload_failed err_message)) ctx w).
Proof.
  intros (Hu & Hne & Hf & Hsz).
  destruct userId as [|c u]; [done|]. exists c, u. split; [done|].
  unfold uploadFile. rewrite Hu, Hf.
  replace (FILE_CONSTRAINTS_MAX_FILE_SIZE <? file_size file) with false
    by (symmetry; apply Z.ltb_ge; exact Hsz).
  unfold bind at 1. unfold ask at 1. unfold try_catch.
  fold (finalMimeType_of file). fold (category file). fold (supported (category file)).
  destruct (supported (category file)); reflexivity.
Qed.

(** ** Unsupported categories *)

(** C3. An upload that passes the guards and whose resolved category is not
    image, video or audio (so: document or other) is answered with the
    400 response [UNSUPPORTED_MEDIA_TYPE], and the world is left exactly as it
    was: nothing is put into the object store, nothing is inserted, and no
    call to either store is even logged. *)
Theorem unsupported_category_rejected_without_write
    (req : UploadRequest) (userId : string) (file : UploadedFile) (ctx : Context) (w : World) :
  accepted req userId file →
  category file ∉ [image; video; audio] →
  uploadFile req ctx w = (Val unsupported_media_type, w).
Proof.
  intros Hacc Hcat.
  destruct (uploadFile_accepted req userId file ctx w Hacc) as (c & u & _ & ->).
  destruct (supported (category file)) eqn:Hs; [|reflexivity].
  apply supported_spec in Hs. exfalso. apply Hcat.
  rewrite !elem_of_cons. tauto.
Qed.

Lemma unsupported_category_rejected_without_write_witness :
  uploadFile (Sample.upload "u1" "report.pdf" "application/pdf" 52000 Sample.report)
    Sample.ctx Sample.empty
  = (Val unsupported_media_type, Sample.empty).
Proof.
  apply (unsupported_category_rejected_without_write _ "u1"
           (mkUpload "report.pdf" "application/pdf" 52000 Sample.report)).
  - repeat split; [discriminate | vm_compute; discriminate].
  - replace (category _) with document by (vm_compute; reflexivity).
    rewrite !elem_of_cons, elem_of_nil. intuition discriminate.
Defined.

(** ** Running the gateway and the store *)

Lemma uploadToS3_run key contentType ctx w :
  uploadToS3 key contentType ctx w =
    if JS.truthy (S3_COMP_BUCKET_URL ctx)
    then match put_fault ctx key with
         | Some e => (Thrown e, put_failed ctx key contentType w)
         | None => (Val (Some (url_of ctx key)), put_ok ctx key contentType w)
         end
    else (Val None, w).
Proof.
  unfold uploadToS3, bind, ask, ret, s3_put, put_ok, put_failed, url_of.
  destruct (JS.truthy (S3_COMP_BUCKET_URL ctx)); simpl; [|reflexivity].
  destruct (put_fault ctx key); reflexivity.
Qed.

Lemma insertOne_run doc ctx w :
  insertOne doc ctx w =
    match db_fault ctx op_insertOne with
    | Some e => (Thrown e, record (Db (InsertOne doc) false) w)
    | None =>
        (Val (fresh_object_id ctx),
         record (Db (InsertOne doc) true)
           (with_files
              (files w ++
               [mkFile (fresh_object_id ctx) (filename doc) (mimeType doc) (type doc) (size doc)
                  (s3Key doc) (src doc) (preview doc) (details doc) (uploadedBy doc)
                  (uploadedAt doc)]) w))
    end.
Proof. unfold insertOne, db_call. destruct (db_fault ctx op_insertOne); reflexivity. Qed.

Lemma or_else_same (a : string) : JS.or_else (Some a) a = a.
Proof. destruct a; reflexivity. Qed.

Lemma filter_app_s3 (l1 l2 : list Op) :
  List.filter is_s3 (l1 ++ l2) = List.filter is_s3 l1 ++ List.filter is_s3 l2.
Proof. apply List.filter_app. Qed.

(** A 201 answer is only given to a request that passed the guards. *)
Lemma created_accepted req ctx w b w' :
  uploadFile req ctx w = (Val (mkResponse 201 b), w') →
  ∃ userId file, accepted req userId file.
Proof.
  unfold uploadFile, accepted.
  destruct (user_id req) as [[|c u]|]; try discriminate.
  destruct (req_file req) as [file|]; try discriminate.
  destruct (FILE_CONSTRAINTS_MAX_FILE_SIZE <? file_size file) eqn:Hsz; try discriminate.
  intros _. exists (String c u), file. apply Z.ltb_ge in Hsz. done.
Qed.

(** ** Audio *)

(** C4. When an audio payload is ingested (the answer is 201 with the record),
    the record's preview URL is its src URL, also inside [details], and the
    ingestion made exactly one call to the object store: the successful put
    of the original under the record's key. *)
Theorem audio_preview_is_src_single_write
    (req : UploadRequest) (file : UploadedFile) (ctx : Context) (w w' : World)
    (d : FileMetadata) :
  req_file req = Some file →
  category file = audio →
  uploadFile req ctx w = (Val (mkResponse 201 (CreatedJson d)), w') →
  preview d = Some (src d)
  ∧ d_preview (details d) = src d
  ∧ List.filter is_s3 (oplog w') =
      List.filter is_s3 (oplog w)
      ++ [S3 (PutObjectCommand (S3_COMP_BUCKET_BKT ctx) (s3Key d) (mimeType d)) true].
Proof.
  intros Hfile Hcat Hrun.
  destruct (created_accepted _ _ _ _ _ Hrun) as (userId & file' & Hacc).
  assert (file' = file) as -> by (destruct Hacc as (_ & _ & Hf & _); congruence).
  destruct (uploadFile_accepted req userId file ctx w Hacc) as (c & u & _ & Heq).
  rewrite Heq in Hrun. clear Heq. rewrite Hcat in Hrun. simpl in Hrun.
  unfold try_catch, bind in Hrun. simpl in Hrun.
  rewrite uploadToS3_run in Hrun.
  destruct (JS.truthy (S3_COMP_BUCKET_URL ctx)); [|discriminate].
  destruct (put_fault ctx _); [discriminate|].
  simpl in Hrun. rewrite insertOne_run in Hrun.
  destruct (db_fault ctx op_insertOne); [discriminate|].
  simpl in Hrun. injection Hrun as <- <-. simpl.
  rewrite or_else_same. repeat split.
  rewrite !filter_app_s3. simpl. rewrite app_nil_r. reflexivity.
Qed.

Lemma audio_preview_is_src_single_write_witness :
  ∃ d w',
    uploadFile (Sample.upload "u1" "song.mp3" "audio/mpeg" 4194304 Sample.song)
      Sample.ctx Sample.empty = (Val (mkResponse 201 (CreatedJson d)), w')
    ∧ preview d = Some (src d)
    ∧ List.filter is_s3 (oplog w') =
        [S3 (PutObjectCommand "media" (s3Key d) (mimeType d)) true].
Proof.
  set (run := uploadFile (Sample.upload "u1" "song.mp3" "audio/mpeg" 4194304 Sample.song)
                Sample.ctx Sample.empty).
  assert (Hrun : run = (Val (mkResponse 201 (CreatedJson (created_record run))), run.2))
    by (apply run_eq; vm_compute; reflexivity).
  assert (Hcat : category (mkUpload "song.mp3" "audio/mpeg" 4194304 Sample.song) = audio)
    by (vm_compute; reflexivity).
  exists (created_record run), run.2. split; [exact Hrun|].
  destruct (audio_preview_is_src_single_write
              (Sample.upload "u1" "song.mp3" "audio/mpeg" 4194304 Sample.song)
              (mkUpload "song.mp3" "audio/mpeg" 4194304 Sample.song)
              Sample.ctx Sample.empty _ _ eq_refl Hcat Hrun) as (H1 & _ & H3).
  split; [exact H1 | exact H3].
Defined.

(** ** The decision tree of an accepted upload *)

Lemma derive_preview_run file baseKey fileId ctx w :
  derive_preview (category file) file (finalMimeType_of file) baseKey fileId ctx w =
    match derivative file baseKey fileId with
    | Val (Some (j, key)) => (Val (Some j, Some key, Some "image/jpeg"), w)
    | Val None => (Val (None, None, None), w)
    | Thrown e => (Thrown e, w)
    end.
Proof.
  unfold derivative, derive_preview, bind, ret, throw.
  destruct (category file); try reflexivity.
  - destruct (generateImagePreview _ _); reflexivity.
  - destruct (generateVideoPoster _); [reflexivity|].
    destruct (extractVideoThumbnail _); reflexivity.
Qed.

Lemma derivative_not_audio file baseKey fileId p :
  derivative file baseKey fileId = Val (Some p) → category file ≠ audio.
Proof. unfold derivative. destruct (category file); discriminate. Qed.

Lemma append_cons_nonempty (a : string) (c : ascii) (b : string) :
  ∃ k ks, a +:+ String c b = String k ks.
Proof. destruct a; simpl; eauto. Qed.

Lemma derivative_key_nonempty file baseKey fileId j key :
  derivative file baseKey fileId = Val (Some (j, key)) → ∃ k ks, key = String k ks.
Proof.
  unfold derivative, image_previewKey, video_previewKey.
  destruct (category file); try discriminate.
  - destruct (generateImagePreview _ _); [|discriminate].
    intros [= _ <-]. apply append_cons_nonempty.
  - destruct (generateVideoPoster _).
    + intros [= _ <-]. apply append_cons_nonempty.
    + destruct (extractVideoThumbnail _); [|discriminate].
      intros [= _ <-]. apply append_cons_nonempty.
Qed.

Lemma or_else_url ctx key b : JS.or_else (Some (url_of ctx key)) b = url_of ctx key.
Proof.
  unfold url_of. destruct (append_cons_nonempty (S3_COMP_VIRT_HOST ctx) "/" key) as (k & ks & E).
  change (S3_COMP_VIRT_HOST ctx +:+ "/" +:+ key) with (S3_COMP_VIRT_HOST ctx +:+ String "/" key).
  rewrite E. reflexivity.
Qed.

Lemma uploadFile_run req userId file ctx w :
  accepted req userId file →
  supported (category file) = true →
  let baseKey := baseKey_of userId (iso_now ctx) in
  let s3Key := s3Key_of baseKey (uuidv4 ctx) (originalname file) in
  let mime := finalMimeType_of file in
  uploadFile req ctx w =
    match derivative file baseKey (uuidv4 ctx) with
    | Thrown e => (Val (upload_failed e), w)
    | Val dv =>
        if JS.truthy (S3_COMP_BUCKET_URL ctx) then
          match put_fault ctx s3Key with
          | Some e => (Val (upload_failed e), put_failed ctx s3Key mime w)
          | None =>
              let w1 := put_ok ctx s3Key mime w in
              match dv with
              | Some (j, key) =>
                  match put_fault ctx key with
                  | Some e => (Val (upload_failed e), put_failed ctx key "image/jpeg" w1)
                  | None =>
                      insert_step userId file ctx s3Key (url_of ctx key)
                        (put_ok ctx key "image/jpeg" w1)
                  end
              | None => insert_step userId file ctx s3Key (url_of ctx s3Key) w1
              end
          end
        else (Val (upload_failed "Media upload failed"), w)
    end.
Proof.
  intros Hacc Hsup baseKey s3Key mime.
  destruct (uploadFile_accepted req userId file ctx w Hacc) as (c & u & _ & ->).
  rewrite Hsup. simpl negb. cbv iota.
  unfold try_catch. unfold bind at 1. rewrite derive_preview_run.
  fold baseKey. fold s3Key. fold mime.
  destruct (derivative file baseKey (uuidv4 ctx)) as [[[j key]|]|e] eqn:Hd; [| |reflexivity].
  - pose proof (derivative_not_audio _ _ _ _ Hd) as Hna.
    destruct (derivative_key_nonempty _ _ _ _ _ Hd) as (k & ks & ->).
    unfold bind at 1. rewrite uploadToS3_run.
    destruct (JS.truthy (S3_COMP_BUCKET_URL ctx)) eqn:Hurl; [|reflexivity].
    destruct (put_fault ctx s3Key); [reflexivity|].
    rewrite (bool_decide_eq_false_2 _ Hna). simpl negb. cbv iota.
    unfold bind at 1. rewrite uploadToS3_run, Hurl.
    destruct (put_fault ctx (String k ks)); [reflexivity|].
    unfold bind. rewrite insertOne_run. unfold insert_step, record_of.
    rewrite or_else_url.
    destruct (db_fault ctx op_insertOne); reflexivity.
  - unfold bind at 1. rewrite uploadToS3_run.
    destruct (JS.truthy (S3_COMP_BUCKET_URL ctx)) eqn:Hurl; [|reflexivity].
    destruct (put_fault ctx s3Key); [reflexivity|].
    assert (Hshown : ∀ o, (o = Some (url_of ctx s3Key) ∨ o = None) →
                          JS.or_else o (url_of ctx s3Key) = url_of ctx s3Key).
    { intros o [->| ->]; [apply or_else_same | reflexivity]. }
    unfold bind at 1.
    destruct (bool_decide (category file = audio)); unfold ret; cbv beta iota;
      unfold bind; rewrite insertOne_run; unfold insert_step, record_of;
      rewrite Hshown by auto; destruct (db_fault ctx op_insertOne); reflexivity.
Qed.

Lemma derivative_supported file baseKey fileId p :
  derivative file baseKey fileId = Val (Some p) → supported (category file) = true.
Proof. unfold derivative. destruct (category file); (discriminate || reflexivity). Qed.

(** ** Failure of the derivative write *)

(** C10. When the original has been put and the put of the derivative
    (preview or poster) throws, the ingestion answers with the 500 response of
    the [catch] carrying the error's message, no record is inserted (the
    collection is unchanged and the log holds no insert), and the original
    stays in the bucket under its key: an object without a record. *)
Theorem derivative_put_failure_orphans_original
    (req : UploadRequest) (userId : string) (file : UploadedFile) (ctx : Context) (w : World)
    (j : Jpeg) (key msg : string) :
  let baseKey := baseKey_of userId (iso_now ctx) in
  let s3Key := s3Key_of baseKey (uuidv4 ctx) (originalname file) in
  accepted req userId file →
  JS.truthy (S3_COMP_BUCKET_URL ctx) = true →
  derivative file baseKey (uuidv4 ctx) = Val (Some (j, key)) →
  put_fault ctx s3Key = None →
  put_fault ctx key = Some msg →
  ∃ w',
    uploadFile req ctx w = (Val (upload_failed msg), w')
    ∧ files w' = files w
    ∧ (S3_COMP_BUCKET_BKT ctx, s3Key) ∈ objects w'
    ∧ oplog w' =
        oplog w
        ++ [S3 (PutObjectCommand (S3_COMP_BUCKET_BKT ctx) s3Key (finalMimeType_of file)) true;
            S3 (PutObjectCommand (S3_COMP_BUCKET_BKT ctx) key "image/jpeg") false].
Proof.
  intros baseKey s3Key Hacc Hurl Hd Horig Hprev.
  pose proof (uploadFile_run req userId file ctx w Hacc (derivative_supported _ _ _ _ Hd)) as Hrun.
  cbv zeta in Hrun. fold baseKey s3Key in Hrun.
  rewrite Hd, Hurl, Horig, Hprev in Hrun.
  eexists. split; [exact Hrun|].
  unfold put_failed, put_ok, record, with_objects. simpl.
  split; [reflexivity|]. split; [set_solver|].
  rewrite <- app_assoc. reflexivity.
Qed.

Lemma derivative_put_failure_orphans_original_witness :
  let preview_down key :=
    if String.eqb key "uploads/u1/2024-05-01/preview-123e4567-e89b-42d3-a456-426614174000.jpg"
    then Some "SlowDown" else None in
  ∃ w',
    uploadFile Sample.photo_request (Sample.with_put_fault preview_down Sample.ctx) Sample.empty
    = (Val (upload_failed "SlowDown"), w')
    ∧ files w' = []
    ∧ ("media", "uploads/u1/2024-05-01/123e4567-e89b-42d3-a456-426614174000-photo.jpg")
        ∈ objects w'.
Proof.
  intros preview_down.
  destruct (derivative_put_failure_orphans_original Sample.photo_request "u1"
              (mkUpload "photo.jpg" "image/jpeg" 2097152 (Sample.picture "image/jpeg" 1500 1000))
              (Sample.with_put_fault preview_down Sample.ctx) Sample.empty
              (mkJpeg 720 480 85)
              "uploads/u1/2024-05-01/preview-123e4567-e89b-42d3-a456-426614174000.jpg"
              "SlowDown")
    as (w' & Hrun & Hfiles & Hobj & _).
  - repeat split; [discriminate | vm_compute; discriminate].
  - reflexivity.
  - vm_compute. reflexivity.
  - reflexivity.
  - reflexivity.
  - exists w'. split; [exact Hrun|]. split; [exact Hfiles | exact Hobj].
Defined.

(** ** Error kinds of the ingestion *)

(** C5, as the code has it. The four guard failures are answered by four
    different responses, told apart by their [error] code (UNAUTHORIZED,
    NO_FILE, FILE_TOO_LARGE, UNSUPPORTED_MEDIA_TYPE). A failed put of the
    original and a failed insert of the record both end in the one [catch] of
    the handler: status 500, message "Upload failed", and as [error] the
    message of whatever was thrown. That response differs from the four
    above, and is the same function of the thrown message in both cases. *)
Theorem upload_failure_responses :
  (∀ req ctx w, JS.truthy (user_id req) = false → uploadFile req ctx w = (Val unauthorized, w))
  ∧ (∀ req ctx w, JS.truthy (user_id req) = true → req_file req = None →
       uploadFile req ctx w = (Val no_file, w))
  ∧ (∀ req ctx w file, JS.truthy (user_id req) = true → req_file req = Some file →
       FILE_CONSTRAINTS_MAX_FILE_SIZE < file_size file →
       uploadFile req ctx w = (Val file_too_large, w))
  ∧ (∀ req userId file ctx w, accepted req userId file → supported (category file) = false →
       uploadFile req ctx w = (Val unsupported_media_type, w))
  ∧ (∀ req userId file ctx w dv msg,
       accepted req userId file → supported (category file) = true →
       JS.truthy (S3_COMP_BUCKET_URL ctx) = true →
       derivative file (baseKey_of userId (iso_now ctx)) (uuidv4 ctx) = Val dv →
       put_fault ctx (s3Key_of (baseKey_of userId (iso_now ctx)) (uuidv4 ctx) (originalname file))
         = Some msg →
       (uploadFile req ctx w).1 = Val (upload_failed msg))
  ∧ (∀ req userId file ctx w dv msg,
       accepted req userId file → supported (category file) = true →
       JS.truthy (S3_COMP_BUCKET_URL ctx) = true →
       derivative file (baseKey_of userId (iso_now ctx)) (uuidv4 ctx) = Val dv →
       put_fault ctx (s3Key_of (baseKey_of userId (iso_now ctx)) (uuidv4 ctx) (originalname file))
         = None →
       (∀ j key, dv = Some (j, key) → put_fault ctx key = None) →
       db_fault ctx op_insertOne = Some msg →
       (uploadFile req ctx w).1 = Val (upload_failed msg))
  ∧ NoDup validation_responses
  ∧ (∀ msg, upload_failed msg ∉ validation_responses).
Proof.
  repeat apply conj.
  - intros req ctx w Hu. unfold uploadFile.
    destruct (user_id req) as [[|c u]|]; (discriminate || reflexivity).
  - intros req ctx w Hu Hf. unfold uploadFile.
    destruct (user_id req) as [[|c u]|]; try discriminate. rewrite Hf. reflexivity.
  - intros req ctx w file Hu Hf Hsz. unfold uploadFile.
    destruct (user_id req) as [[|c u]|]; try discriminate. rewrite Hf.
    apply Z.ltb_lt in Hsz. rewrite Hsz. reflexivity.
  - intros req userId file ctx w Hacc Hs.
    destruct (uploadFile_accepted req userId file ctx w Hacc) as (c & u & _ & ->).
    rewrite Hs. reflexivity.
  - intros req userId file ctx w dv msg Hacc Hs Hurl Hd Hput.
    rewrite (uploadFile_run req userId file ctx w Hacc Hs). cbv zeta.
    rewrite Hd, Hurl, Hput. reflexivity.
  - intros req userId file ctx w dv msg Hacc Hs Hurl Hd Hput Hprev Hins.
    rewrite (uploadFile_run req userId file ctx w Hacc Hs). cbv zeta.
    rewrite Hd, Hurl, Hput. unfold insert_step.
    destruct dv as [[j key]|].
    + rewrite (Hprev j key eq_refl), Hins. reflexivity.
    + rewrite Hins. reflexivity.
  - unfold validation_responses.
    repeat (apply NoDup_cons_2 || apply NoDup_nil_2);
      rewrite ?elem_of_cons, ?elem_of_nil; intuition discriminate.
  - intros msg. unfold validation_responses, upload_failed.
    rewrite !elem_of_cons, elem_of_nil. intuition discriminate.
Qed.

Lemma upload_failure_responses_witness :
  (uploadFile Sample.photo_request
     (Sample.with_put_fault (λ _, Some "socket hang up") Sample.ctx) Sample.empty).1
  = Val (upload_failed "socket hang up")
  ∧ (uploadFile Sample.photo_request
       (Sample.with_db_fault (λ _, Some "socket hang up") Sample.ctx) Sample.empty).1
    = Val (upload_failed "socket hang up").
Proof.
  destruct upload_failure_responses as (_ & _ & _ & _ & Hstorage & Hpersist & _).
  split.
  - apply (Hstorage Sample.photo_request "u1"
             (mkUpload "photo.jpg" "image/jpeg" 2097152 (Sample.picture "image/jpeg" 1500 1000))
             _ _ (Some (mkJpeg 720 480 85,
                        "uploads/u1/2024-05-01/preview-123e4567-e89b-42d3-a456-426614174000.jpg"))).
    + repeat split; [discriminate | vm_compute; discriminate].
    + reflexivity.
    + reflexivity.
    + vm_compute. reflexivity.
    + reflexivity.
  - apply (Hpersist Sample.photo_request "u1"
             (mkUpload "photo.jpg" "image/jpeg" 2097152 (Sample.picture "image/jpeg" 1500 1000))
             _ _ (Some (mkJpeg 720 480 85,
                        "uploads/u1/2024-05-01/preview-123e4567-e89b-42d3-a456-426614174000.jpg"))).
    + repeat split; [discriminate | vm_compute; discriminate].
    + reflexivity.
    + reflexivity.
    + vm_compute. reflexivity.
    + reflexivity.
    + reflexivity.
    + reflexivity.
Defined.

(** C5 as the specification states it fails: a storage failure (the put of
    the original throws, nothing else is called) and a persistence failure
    (both puts succeed, the insert throws) that carry the same message are
    answered by one and the same response. *)
Lemma storage_and_persistence_failures_coincide :
  let storage_down := Sample.with_put_fault (λ _, Some "socket hang up") Sample.ctx in
  let database_down := Sample.with_db_fault (λ _, Some "socket hang up") Sample.ctx in
  let r1 := uploadFile Sample.photo_request storage_down Sample.empty in
  let r2 := uploadFile Sample.photo_request database_down Sample.empty in
  r1.1 = r2.1
  ∧ r1.1 = Val (mkResponse 500 (ErrorJson "socket hang up" "Upload failed"))
  ∧ (λ o, match o with S3 _ ok | Db _ ok => (is_s3 o, ok) end) <$> oplog r1.2 = [(true, false)]
  ∧ (λ o, match o with S3 _ ok | Db _ ok => (is_s3 o, ok) end) <$> oplog r2.2
    = [(true, true); (true, true); (false, false)].
Proof. vm_compute. repeat split. Qed.

(** ** Image previews *)

Lemma round_div_upper (a b c : Z) : 0 < b → 2 * a + b < 2 * b * (c + 1) → round_div a b ≤ c.
Proof.
  intros Hb H. unfold round_div.
  assert ((2 * a + b) / (2 * b) < c + 1) by (apply Z.div_lt_upper_bound; lia). lia.
Qed.

(** Geometry of the inside fit without enlargement: a picture that does not
    already fit is scaled to a non-empty picture within the box, and grows in
    neither direction. *)
Lemma sharp_resize_inside_fits (W H w h : Z) :
  0 < W → 0 < H → 0 < w → 0 < h → W < w ∨ H < h →
  let '(w', h') := sharp_resize W H (mkResize fit_inside true) w h in
  0 < w' ≤ Z.min W w ∧ 0 < h' ≤ Z.min H h.
Proof.
  intros HW HH Hw Hh Hbig. unfold sharp_resize. simpl.
  destruct ((w <=? W) && (h <=? H))%bool eqn:Hfit.
  { apply andb_true_iff in Hfit as [?%Z.leb_le ?%Z.leb_le]. lia. }
  clear Hfit. destruct (h * W <? w * H) eqn:Hside.
  - apply Z.ltb_lt in Hside.
    assert (W ≤ w) by nia.
    assert (round_div (h * W) w ≤ H) by (apply round_div_upper; nia).
    assert (round_div (h * W) w ≤ h) by (apply round_div_upper; nia).
    lia.
  - apply Z.ltb_ge in Hside.
    assert (H ≤ h) by nia.
    assert (round_div (w * H) h ≤ W) by (apply round_div_upper; nia).
    assert (round_div (w * H) h ≤ w) by (apply round_div_upper; nia).
    lia.
Qed.

Lemma generateImagePreview_run (b : Buffer) (mime : string) :
  generateImagePreview b mime =
    match decoded b with
    | None => None
    | Some (w, h) =>
        if (encodes b && ((720 <? Z.pos w) || (720 <? Z.pos h)))%bool
        then let '(w', h') := sharp_resize 720 720 (mkResize fit_inside true) (Z.pos w) (Z.pos h) in
             Some (mkJpeg w' h' 85)
        else None
    end.
Proof.
  unfold generateImagePreview, sharp_metadata, sharp_resize_jpeg.
  destruct (decoded b) as [[w h]|]; [|reflexivity].
  unfold exceeds, num_truthy, PREVIEW_CONFIG_MAX_WIDTH, PREVIEW_CONFIG_MAX_HEIGHT,
    PREVIEW_CONFIG_JPEG_QUALITY. simpl.
  destruct (720 <? Z.pos w), (720 <? Z.pos h), (encodes b); reflexivity.
Qed.

(** C2, as the code has it. The preview deriver returns a derivative exactly
    when the picture decodes, re-encodes, and at least one of its two
    dimensions exceeds 720. The derivative then is a non-empty picture within
    720 x 720, no larger than the source in either direction, encoded at
    quality 85. In every other case there is no derivative, and an ingestion
    of such an image that succeeds stores the src URL as the preview URL. *)
Theorem image_preview_rule (b : Buffer) (mime : string) :
  match decoded b with
  | None => generateImagePreview b mime = None
  | Some (w, h) =>
      if (encodes b && ((720 <? Z.pos w) || (720 <? Z.pos h)))%bool
      then ∃ j, generateImagePreview b mime = Some j
                ∧ 0 < jpeg_width j ≤ Z.min 720 (Z.pos w)
                ∧ 0 < jpeg_height j ≤ Z.min 720 (Z.pos h)
                ∧ jpeg_quality j = 85
      else generateImagePreview b mime = None
  end
  ∧ ∀ req file ctx w d w',
      req_file req = Some file → buffer file = b → category file = image →
      generateImagePreview b (finalMimeType_of file) = None →
      uploadFile req ctx w = (Val (mkResponse 201 (CreatedJson d)), w') →
      preview d = Some (src d).
Proof.
  split.
  - rewrite generateImagePreview_run.
    destruct (decoded b) as [[w h]|]; [|reflexivity].
    destruct (encodes b && ((720 <? Z.pos w) || (720 <? Z.pos h)))%bool eqn:Hc; [|reflexivity].
    apply andb_true_iff in Hc as [_ Hbig]. apply orb_true_iff in Hbig.
    pose proof (sharp_resize_inside_fits 720 720 (Z.pos w) (Z.pos h)) as Hfit.
    destruct (sharp_resize 720 720 _ _ _) as [w' h'].
    eexists. split; [reflexivity|]. simpl.
    rewrite !Z.ltb_lt in Hbig. destruct Hfit as [Hw Hh]; lia.
  - intros req file ctx w d w' Hfile Hb Hcat Hnone Hrun.
    destruct (created_accepted _ _ _ _ _ Hrun) as (userId & file' & Hacc).
    assert (file' = file) as -> by (destruct Hacc as (_ & _ & Hf & _); congruence).
    rewrite (uploadFile_run req userId file ctx w Hacc) in Hrun
      by (rewrite Hcat; reflexivity).
    cbv zeta in Hrun. unfold derivative in Hrun. rewrite Hcat, Hb, Hnone in Hrun.
    destruct (JS.truthy (S3_COMP_BUCKET_URL ctx)); [|discriminate].
    destruct (put_fault ctx _); [discriminate|].
    unfold insert_step in Hrun.
    destruct (db_fault ctx op_insertOne); [discriminate|].
    injection Hrun as <- <-. reflexivity.
Qed.

Lemma image_preview_rule_witness :
  ∃ d w',
    uploadFile (Sample.upload "u1" "icon.png" "image/png" 20480 (Sample.picture "image/png" 640 480))
      Sample.ctx Sample.empty = (Val (mkResponse 201 (CreatedJson d)), w')
    ∧ preview d = Some (src d).
Proof.
  set (run := uploadFile
                (Sample.upload "u1" "icon.png" "image/png" 20480
                   (Sample.picture "image/png" 640 480))
                Sample.ctx Sample.empty).
  assert (Hrun : run = (Val (mkResponse 201 (CreatedJson (created_record run))), run.2))
    by (apply run_eq; vm_compute; reflexivity).
  assert (Hcat : category (mkUpload "icon.png" "image/png" 20480
                             (Sample.picture "image/png" 640 480)) = image)
    by (vm_compute; reflexivity).
  assert (Hnone : generateImagePreview (Sample.picture "image/png" 640 480)
                    (finalMimeType_of (mkUpload "icon.png" "image/png" 20480
                                         (Sample.picture "image/png" 640 480))) = None)
    by (vm_compute; reflexivity).
  exists (created_record run), run.2. split; [exact Hrun|].
  apply (proj2 (image_preview_rule (Sample.picture "image/png" 640 480) "image/png")
           (Sample.upload "u1" "icon.png" "image/png" 20480 (Sample.picture "image/png" 640 480))
           (mkUpload "icon.png" "image/png" 20480 (Sample.picture "image/png" 640 480))
           Sample.ctx Sample.empty _ _ eq_refl eq_refl Hcat Hnone Hrun).
Defined.

(** C2 as the specification states it fails: a picture of 1500 x 500 has only
    one dimension above 720, and the deriver resizes it all the same. *)
Lemma wide_image_is_resized :
  let b := Sample.picture "image/jpeg" 1500 500 in
  decoded b = Some (1500%positive, 500%positive)
  ∧ ¬ (720 < 1500 ∧ 720 < 500)
  ∧ generateImagePreview b "image/jpeg" = Some (mkJpeg 720 240 85).
Proof. split; [reflexivity|]. split; [lia|]. vm_compute. reflexivity. Qed.

(** ** Key reconstruction *)

Section Splitting.

Variable sep : ascii.

Lemma split_nonempty s : JS.split sep s ≠ [].
Proof.
  destruct s as [|c r]; simpl; [discriminate|].
  destruct (Ascii.eqb c sep); [discriminate|].
  destruct (JS.split sep r); discriminate.
Qed.

Lemma split_without_sep s : JS.has_char sep s = false → JS.split sep s = [s].
Proof.
  induction s as [|c r IH]; simpl; [reflexivity|].
  intros [Hc Hr]%orb_false_iff. rewrite Hc, (IH Hr). reflexivity.
Qed.

Lemma split_snoc x seg :
  JS.has_char sep seg = false →
  JS.split sep (x +:+ String sep seg) = JS.split sep x ++ [seg].
Proof.
  intros Hseg. induction x as [|c r IH]; simpl.
  - rewrite Ascii.eqb_refl, (split_without_sep _ Hseg). reflexivity.
  - rewrite IH. destruct (Ascii.eqb c sep); [reflexivity|].
    pose proof (split_nonempty r) as Hne.
    destruct (JS.split sep r); [done | reflexivity].
Qed.

Lemma join_split s : JS.join (String sep EmptyString) (JS.split sep s) = s.
Proof.
  induction s as [|c r IH]; simpl; [reflexivity|].
  pose proof (split_nonempty r) as Hne.
  destruct (Ascii.eqb c sep) eqn:Hc.
  - apply Ascii.eqb_eq in Hc as ->.
    destruct (JS.split sep r) as [|h t]; [done|].
    change (JS.join (String sep EmptyString) (EmptyString :: h :: t))
      with (String sep (JS.join (String sep EmptyString) (h :: t))).
    rewrite IH. reflexivity.
  - destruct (JS.split sep r) as [|h t]; [done|].
    rewrite <- IH. destruct t; reflexivity.
Qed.

Lemma head_split s : head (JS.split sep s) = Some (before sep s).
Proof.
  induction s as [|c r IH]; simpl; [reflexivity|].
  destruct (Ascii.eqb c sep); [reflexivity|].
  destruct (JS.split sep r); simpl in *; congruence.
Qed.

Lemma before_app_sep a b :
  JS.has_char sep a = false → before sep (a +:+ String sep b) = a.
Proof.
  induction a as [|c r IH]; simpl.
  - rewrite Ascii.eqb_refl. reflexivity.
  - intros [Hc Hr]%orb_false_iff. rewrite Hc, (IH Hr). reflexivity.
Qed.

Lemma has_char_app a b :
  JS.has_char sep (a +:+ b) = (JS.has_char sep a || JS.has_char sep b)%bool.
Proof. induction a as [|c r IH]; simpl; [reflexivity|]. rewrite IH, orb_assoc. reflexivity. Qed.

End Splitting.

Lemma string_app_inv_head (a b c : string) : a +:+ b = a +:+ c → b = c.
Proof. induction a; simpl; intros H; [exact H|]. injection H. auto. Qed.

Lemma last_snoc_string (l : list string) (x : string) : last (l ++ [x]) = Some x.
Proof. apply last_snoc. Qed.

(** What the delete paths rebuild from a key of the write-time shape
    [base/fileId-name]: the base path is recovered whole, the file id only up
    to its first hyphen. *)
Lemma getS3KeysForFile_scheme (d : FileMetadata) (base fileId name : string) :
  s3Key d = s3Key_of base fileId name →
  JS.has_char "/" fileId = false →
  JS.has_char "/" name = false →
  getS3KeysForFile d =
    if (bool_decide (type d = image) && JS.truthy (preview d)
        && negb (bool_decide (preview d = Some (src d))))%bool
    then [s3Key d; image_previewKey base (before "-" fileId)]
    else if (bool_decide (type d = video) && JS.truthy (preview d))%bool
    then [s3Key d; video_previewKey base (before "-" fileId)]
    else [s3Key d].
Proof.
  intros Hkey Hid Hname. unfold getS3KeysForFile. rewrite Hkey.
  unfold s3Key_of, image_previewKey, video_previewKey.
  change (base +:+ "/" +:+ fileId +:+ "-" +:+ name)
    with (base +:+ String "/" (fileId +:+ String "-" name)).
  rewrite split_snoc
    by (rewrite has_char_app; simpl; rewrite Hid, Hname; reflexivity).
  unfold JS.pop, JS.init. rewrite last_snoc_string, removelast_last.
  cbv [default from_option id]. rewrite !head_split, join_split.
  assert (before "-" (fileId +:+ String "-" name) = before "-" fileId) as ->.
  { clear. induction fileId as [|c r IH]; simpl.
    - reflexivity.
    - destruct (Ascii.eqb c "-"); [reflexivity | rewrite IH; reflexivity]. }
  reflexivity.
Qed.

Lemma string_app_assoc (a b c : string) : (a +:+ b) +:+ c = a +:+ b +:+ c.
Proof.
  induction a as [|x a IH]; [reflexivity|].
  change (String x ((a +:+ b) +:+ c) = String x (a +:+ b +:+ c)). rewrite IH. reflexivity.
Qed.

(** X17. The precondition of the scheme: with a file id free of the hyphen that
    splices it to the file name, the delete path rebuilds exactly the
    derivative key of the write path. *)
Lemma reconstruction_covers_unhyphenated_id (d : FileMetadata) (base fileId name : string) :
  s3Key d = s3Key_of base fileId name →
  JS.has_char "/" fileId = false →
  JS.has_char "/" name = false →
  JS.has_char "-" fileId = false →
  s3Key d ∈ getS3KeysForFile d
  ∧ (type d = image → JS.truthy (preview d) = true → preview d ≠ Some (src d) →
     image_previewKey base fileId ∈ getS3KeysForFile d)
  ∧ (type d = video → JS.truthy (preview d) = true →
     video_previewKey base fileId ∈ getS3KeysForFile d).
Proof.
  intros Hkey Hid Hname Hhy.
  rewrite (getS3KeysForFile_scheme d base fileId name Hkey Hid Hname).
  assert (before "-" fileId = fileId) as ->.
  { clear -Hhy. induction fileId as [|c r IH]; simpl in *; [reflexivity|].
    apply orb_false_iff in Hhy as [-> Hr]. rewrite (IH Hr). reflexivity. }
  split; [|split].
  - repeat case_match; set_solver.
  - intros -> -> Hne. rewrite (bool_decide_eq_false_2 _ Hne). simpl. set_solver.
  - intros -> ->. simpl. set_solver.
Qed.

(** X18. The hazard: a file id with a hyphen in it, as every UUID has, is cut at
    that hyphen, and the key rebuilt from the fragment is not the key the
    derivative was written under. *)
Lemma reconstruction_misses_hyphenated_id (d : FileMetadata) (base a b name : string) :
  s3Key d = s3Key_of base (a +:+ "-" +:+ b) name →
  JS.has_char "/" (a +:+ "-" +:+ b) = false →
  JS.has_char "/" name = false →
  JS.has_char "-" a = false →
  a ≠ "preview" → a ≠ "poster" →
  (image_previewKey base (a +:+ "-" +:+ b) ∉ getS3KeysForFile d)
  ∧ (video_previewKey base (a +:+ "-" +:+ b) ∉ getS3KeysForFile d).
Proof.
  intros Hkey Hid Hname Ha Hp1 Hp2.
  rewrite (getS3KeysForFile_scheme d base _ name Hkey Hid Hname).
  change (a +:+ "-" +:+ b) with (a +:+ String "-" b). rewrite (before_app_sep _ _ _ Ha).
  assert (Hprim1 : image_previewKey base (a +:+ String "-" b) ≠ s3Key d).
  { rewrite Hkey. unfold image_previewKey, s3Key_of. intros H%string_app_inv_head.
    rewrite !string_app_assoc in H.
    change (String "/" ("preview" +:+ String "-" (a +:+ String "-" b +:+ ".jpg"))
            = String "/" (a +:+ String "-" (b +:+ "-" +:+ name))) in H.
    injection H as H. apply (f_equal (before "-")) in H.
    rewrite !before_app_sep in H by (reflexivity || exact Ha). congruence. }
  assert (Hprim2 : video_previewKey base (a +:+ String "-" b) ≠ s3Key d).
  { rewrite Hkey. unfold video_previewKey, s3Key_of. intros H%string_app_inv_head.
    rewrite !string_app_assoc in H.
    change (String "/" ("poster" +:+ String "-" (a +:+ String "-" b +:+ ".jpg"))
            = String "/" (a +:+ String "-" (b +:+ "-" +:+ name))) in H.
    injection H as H. apply (f_equal (before "-")) in H.
    rewrite !before_app_sep in H by (reflexivity || exact Ha). congruence. }
  assert (Hcut : ∀ pre : string, pre +:+ (a +:+ String "-" b) +:+ ".jpg" ≠ pre +:+ a +:+ ".jpg").
  { intros pre H%string_app_inv_head. rewrite string_app_assoc in H.
    apply string_app_inv_head in H. discriminate. }
  assert (Hsame1 : image_previewKey base (a +:+ String "-" b) ≠ image_previewKey base a).
  { unfold image_previewKey. intros H%string_app_inv_head. exact (Hcut _ H). }
  assert (Hsame2 : video_previewKey base (a +:+ String "-" b) ≠ video_previewKey base a).
  { unfold video_previewKey. intros H%string_app_inv_head. exact (Hcut _ H). }
  assert (Hx1 : image_previewKey base (a +:+ String "-" b) ≠ video_previewKey base a).
  { unfold image_previewKey, video_previewKey. intros H%string_app_inv_head. discriminate. }
  assert (Hx2 : video_previewKey base (a +:+ String "-" b) ≠ image_previewKey base a).
  { unfold image_previewKey, video_previewKey. intros H%string_app_inv_head. discriminate. }
  split; repeat case_match; rewrite ?not_elem_of_cons; repeat split;
    auto using not_elem_of_nil.
Qed.

(** C1 fails on the code. A 1500 x 1000 JPEG named photo.jpg, ingested with
    the version-4 UUID 123e4567-e89b-42d3-a456-426614174000, is written under
    its primary key and under the preview key built from the whole UUID. From
    the stored record the delete path rebuilds the primary key and a preview
    key built from the first group of the UUID only, so the preview object
    that was written is not among the keys it will delete. *)
Theorem reconstruction_misses_written_preview :
  ∃ d w',
    uploadFile Sample.photo_request Sample.ctx Sample.empty
      = (Val (mkResponse 201 (CreatedJson d)), w')
    ∧ written_keys (oplog w') =
        ["uploads/u1/2024-05-01/123e4567-e89b-42d3-a456-426614174000-photo.jpg";
         "uploads/u1/2024-05-01/preview-123e4567-e89b-42d3-a456-426614174000.jpg"]
    ∧ getS3KeysForFile d =
        ["uploads/u1/2024-05-01/123e4567-e89b-42d3-a456-426614174000-photo.jpg";
         "uploads/u1/2024-05-01/preview-123e4567.jpg"]
    ∧ "uploads/u1/2024-05-01/preview-123e4567-e89b-42d3-a456-426614174000.jpg"
        ∉ getS3KeysForFile d.
Proof.
  set (run := uploadFile Sample.photo_request Sample.ctx Sample.empty).
  assert (Hkeys : getS3KeysForFile (created_record run) =
            ["uploads/u1/2024-05-01/123e4567-e89b-42d3-a456-426614174000-photo.jpg";
             "uploads/u1/2024-05-01/preview-123e4567.jpg"]) by (vm_compute; reflexivity).
  exists (created_record run), run.2.
  split; [apply run_eq; vm_compute; reflexivity|].
  split; [vm_compute; reflexivity|].
  split; [exact Hkeys|].
  rewrite Hkeys, !not_elem_of_cons. repeat split; try discriminate. apply not_elem_of_nil.
Qed.

(** The poster of a video is missed in the same way. *)
Example video_poster_is_missed :
  ∃ d w',
    uploadFile (Sample.upload "u1" "clip.mp4" "video/mp4" 8388608 Sample.clip)
      Sample.ctx Sample.empty
      = (Val (mkResponse 201 (CreatedJson d)), w')
    ∧ written_keys (oplog w') =
        ["uploads/u1/2024-05-01/123e4567-e89b-42d3-a456-426614174000-clip.mp4";
         "uploads/u1/2024-05-01/poster-123e4567-e89b-42d3-a456-426614174000.jpg"]
    ∧ getS3KeysForFile d =
        ["uploads/u1/2024-05-01/123e4567-e89b-42d3-a456-426614174000-clip.mp4";
         "uploads/u1/2024-05-01/poster-123e4567.jpg"].
Proof.
  set (run := uploadFile (Sample.upload "u1" "clip.mp4" "video/mp4" 8388608 Sample.clip)
                Sample.ctx Sample.empty).
  exists (created_record run), run.2.
  split; [apply run_eq; vm_compute; reflexivity|].
  split; vm_compute; reflexivity.
Qed.

(** ** Search *)

(** No stored document has a field [originalName]: the file name is stored
    under [filename]. *)
Lemma doc_field_originalName (d : FileMetadata) : doc_field d "originalName" = None.
Proof. reflexivity. Qed.

(** Whatever the regular-expression engine, a search with a text query
    matches no document at all. *)
Lemma search_with_query_matches_nothing
    (regex : string → string → string → bool) (userId : string) (q : SearchQuery)
    (d : FileMetadata) :
  JS.truthy (q_query q) = true → matches regex (search_filter userId q) d = false.
Proof.
  intros Hq. unfold matches, search_filter. rewrite Hq.
  rewrite !forallb_app. simpl. rewrite andb_false_r. reflexivity.
Qed.

(** C8 fails on the code. After user u1 has ingested photo.jpg, the search of
    u1 for the text "photo" answers with no item and a total count of 0,
    although the stored file name contains "photo" and the same search
    without a text finds the record: the filter is put on the field
    [originalName], which the stored records do not have. *)
Theorem search_by_text_finds_nothing :
  let w := (uploadFile Sample.photo_request Sample.ctx Sample.empty).2 in
  (filename <$> files w) = ["photo.jpg"]
  ∧ Sample.contains "photo" "photo.jpg" = true
  ∧ found_items (searchFiles (Some "u1") (text_query "photo") Sample.ctx w).1 = Some ([], 0)
  ∧ found_items (searchFiles (Some "u1") any_query Sample.ctx w).1 = Some (["photo.jpg"], 1).
Proof. vm_compute. repeat split. Qed.

(** ** Bulk delete: the guards *)

Lemma filter_all_length {A} (p : A → bool) (l : list A) :
  length (List.filter p l) = length l → List.filter p l = l.
Proof.
  induction l as [|x l IH]; simpl; [reflexivity|].
  destruct (p x); simpl.
  - intros [= H]. rewrite (IH H). reflexivity.
  - intros H. pose proof (List.filter_length_le p l). lia.
Qed.

Lemma filter_some_rejected {A} (p : A → bool) (l : list A) (x : A) :
  x ∈ l → p x = false → (length (List.filter p l) =? length l)%nat = false.
Proof.
  intros Hin Hx. apply Nat.eqb_neq. intros Hlen.
  apply filter_all_length in Hlen.
  assert (Hx' : x ∈ List.filter p l) by (rewrite Hlen; exact Hin).
  apply list_elem_of_In, List.filter_In in Hx' as [_ Hx']. congruence.
Qed.

(** C6. For an authenticated requester, a batch of more than 100 ids is
    answered with the 400 response [TOO_MANY_FILES] and the world is left as
    it was, whatever the ids are and whatever the identifier check would say
    about them: no lookup, no deletion, no call to either store. A batch
    of at most 100 ids of which at least one fails the identifier check
    is answered with the 400 response [INVALID_FILE_IDS] listing the failing
    ids, again with the world left as it was. *)
Theorem bulk_delete_guards
    (userId : string) (ids : list string) (ctx : Context) (w : World) :
  userId ≠ EmptyString →
  (MAX_BULK_DELETE < Z.of_nat (length ids) →
   bulkDeleteFiles (Some userId) (Some ids) ctx w = (Val too_many_files, w))
  ∧ (Z.of_nat (length ids) ≤ MAX_BULK_DELETE →
     (∃ id, id ∈ ids ∧ ObjectId_isValid ctx id = false) →
     bulkDeleteFiles (Some userId) (Some ids) ctx w =
       (Val (invalid_file_ids (List.filter (λ i, negb (ObjectId_isValid ctx i)) ids)), w)).
Proof.
  intros Hu. destruct userId as [|c u]; [done|]. split.
  - intros Hlen. unfold bulkDeleteFiles.
    destruct ids as [|id ids']; [simpl in Hlen; unfold MAX_BULK_DELETE in Hlen; lia|].
    apply Z.ltb_lt in Hlen. rewrite Hlen. reflexivity.
  - intros Hlen (bad & Hin & Hbad). unfold bulkDeleteFiles.
    destruct ids as [|id ids']; [by apply elem_of_nil in Hin|].
    apply Z.ltb_ge in Hlen. rewrite Hlen.
    unfold bind, ask.
    rewrite (filter_some_rejected _ _ bad Hin Hbad). reflexivity.
Qed.

Lemma bulk_delete_guards_witness :
  bulkDeleteFiles (Some "u1") (Some (replicate 101 "not-an-id")) Sample.ctx Sample.empty
    = (Val too_many_files, Sample.empty)
  ∧ bulkDeleteFiles (Some "u1") (Some ["665f1c2ab3d4e5f6a7b8c9d0"; "42"]) Sample.ctx Sample.empty
    = (Val (invalid_file_ids ["42"]), Sample.empty).
Proof.
  split.
  - apply (bulk_delete_guards "u1" (replicate 101 "not-an-id") Sample.ctx Sample.empty).
    + discriminate.
    + vm_compute. reflexivity.
  - apply (bulk_delete_guards "u1" ["665f1c2ab3d4e5f6a7b8c9d0"; "42"] Sample.ctx Sample.empty).
    + discriminate.
    + vm_compute. discriminate.
    + exists "42". split; [|reflexivity]. apply elem_of_cons. right. apply elem_of_cons. left.
      reflexivity.
Defined.

(** ** Bulk delete: what is removed *)

#[global] Instance BObjectId_inj : Inj (=) (=) BObjectId.
Proof. intros x y [= ->]. reflexivity. Qed.

Lemma matches_owned_among regex ids userId d :
  matches regex (owned_among ids userId) d = owned_in ids userId d.
Proof.
  unfold matches, owned_among, owned_in. simpl. rewrite andb_true_r. f_equal.
  - apply bool_decide_ext. apply (list_elem_of_fmap_inj BObjectId).
  - change (doc_field d "uploadedBy") with (BString <$> uploadedBy d).
    destruct (uploadedBy d) as [o|]; simpl.
    + apply bool_decide_ext. split; [intros [= ->]; reflexivity | intros [= ->]; reflexivity].
    + reflexivity.
Qed.

(** Selecting by the ids of the records found selects the same records. *)
Lemma owned_in_found ids userId (l : list FileMetadata) d :
  d ∈ l →
  owned_in (_id <$> List.filter (owned_in ids userId) l) userId d = owned_in ids userId d.
Proof.
  intros Hd. unfold owned_in.
  destruct (bool_decide (uploadedBy d = Some userId)) eqn:Ho; [|rewrite !andb_false_r; reflexivity].
  rewrite !andb_true_r. apply bool_decide_ext. split.
  - intros (f & Hid & Hf)%list_elem_of_fmap.
    apply list_elem_of_In, List.filter_In in Hf as [_ Hf].
    apply andb_true_iff in Hf as [Hf _]. apply bool_decide_eq_true in Hf. congruence.
  - intros Hin. apply list_elem_of_fmap. exists d. split; [reflexivity|].
    apply list_elem_of_In, List.filter_In. split; [apply list_elem_of_In; exact Hd|].
    unfold owned_in. rewrite Ho, andb_true_r. apply bool_decide_eq_true. exact Hin.
Qed.




(** ** Single delete *)

(** Every key is attempted, in order, whether or not earlier attempts threw;
    the loop itself never throws and does not touch the collection. *)
Lemma delete_each_run (ctx : Context) (keys : list string) (w : World) :
  ∃ w', delete_each (S3_COMP_BUCKET_BKT ctx) keys ctx w = (Val (), w')
        ∧ files w' = files w
        ∧ oplog w' = oplog w ++ (delete_attempt ctx <$> keys).
Proof.
  revert w. induction keys as [|key rest IH]; intros w; simpl.
  - eexists. split; [reflexivity|]. rewrite app_nil_r. done.
  - unfold bind at 1. unfold try_catch, s3_delete, ret, delete_attempt.
    destruct (delete_fault ctx key) as [e|];
      match goal with
      | |- context [delete_each _ rest ctx ?w1] =>
          destruct (IH w1) as (w2 & -> & Hfiles & Hlog)
      end; exists w2; (split; [reflexivity|]); rewrite Hfiles, Hlog; simpl;
      rewrite <- app_assoc; done.
Qed.

Lemma find_remove_first (p : FileMetadata → bool) (l : list FileMetadata) (x : FileMetadata) :
  List.find p l = Some x →
  ∃ l1 l2, l = l1 ++ x :: l2 ∧ remove_first p l = l1 ++ l2 ∧ existsb p l = true.
Proof.
  induction l as [|d r IH]; simpl; [discriminate|].
  destruct (p d) eqn:Hd.
  - intros [= ->]. exists [], r. done.
  - intros H. destruct (IH H) as (l1 & l2 & -> & -> & ->). exists (d :: l1), l2. done.
Qed.

(** C9. For an authenticated requester, a well-formed id and a record of the
    requester under that id, and for every pattern of failures of the object
    deletions: single delete answers 200 with the keys it targeted; it sends
    one deletion per reconstructed key, in order, each attempted whether or
    not the others failed; the metadata delete is the last call, after all of
    them; and the record is removed from the collection. In particular a
    record whose preview object cannot be deleted is removed all the same. *)
Theorem single_delete_tolerates_object_failures
    (userId fileId : string) (ctx : Context) (w : World) (file : FileMetadata) :
  let q := owned_by_id fileId userId in
  userId ≠ EmptyString → fileId ≠ EmptyString → ObjectId_isValid ctx fileId = true →
  db_fault ctx op_findOne = None → db_fault ctx op_deleteOne = None →
  List.find (matches (regex_test ctx) q) (files w) = Some file →
  ∃ w',
    deleteFile (Some userId) (Some fileId) ctx w =
      (Val (mkResponse 200
              (DeletedJson "File deleted successfully" (_id file) (filename file) (s3Key file)
                 (getS3KeysForFile file))), w')
    ∧ oplog w' =
        oplog w ++ [Db (FindOne q) true]
        ++ (delete_attempt ctx <$> getS3KeysForFile file)
        ++ [Db (DeleteOne q) true]
    ∧ ∃ l1 l2, files w = l1 ++ file :: l2 ∧ files w' = l1 ++ l2.
Proof.
  intros q Hu Hf Hvalid Hfind Hdel Hfound.
  destruct userId as [|c u]; [done|]. destruct fileId as [|p ps]; [done|].
  unfold deleteFile. unfold bind at 1. unfold ask at 1. cbv beta iota.
  rewrite Hvalid. change (negb true) with false. cbv iota.
  unfold try_catch. unfold bind at 1. unfold findOne, db_call. rewrite Hfind.
  cbv beta iota zeta. fold q. rewrite Hfound.
  unfold bind at 1.
  match goal with
  | |- context [delete_each _ ?keys ctx ?w1] =>
      destruct (delete_each_run ctx keys w1) as (w2 & -> & Hfiles & Hlog)
  end.
  simpl in Hfiles, Hlog.
  unfold bind, deleteOne, db_call. rewrite Hdel. cbv beta iota zeta. unfold send, ret.
  destruct (find_remove_first _ _ _ Hfound) as (l1 & l2 & Hl & Hrm & _).
  eexists. split; [reflexivity|]. simpl. rewrite Hfiles, Hlog. split.
  - rewrite <- !app_assoc. reflexivity.
  - exists l1, l2. split; [exact Hl | exact Hrm].
Qed.

Lemma single_delete_tolerates_object_failures_witness :
  let preview_gone key :=
    if String.eqb key "uploads/u1/2024-05-01/preview-a1b2c3d4.jpg" then Some "NoSuchKey" else None in
  ∃ w',
    deleteFile (Some "u1") (Some "665f1c2ab3d4e5f6a7b8c9d0")
      (Sample.with_delete_fault preview_gone Sample.ctx) library
    = (Val (mkResponse 200
              (DeletedJson "File deleted successfully" "665f1c2ab3d4e5f6a7b8c9d0" "photo.jpg"
                 "uploads/u1/2024-05-01/a1b2c3d4-photo.jpg"
                 ["uploads/u1/2024-05-01/a1b2c3d4-photo.jpg";
                  "uploads/u1/2024-05-01/preview-a1b2c3d4.jpg"])), w')
    ∧ (_id <$> files w') = ["665f1c2ab3d4e5f6a7b8c9d1"; "665f1c2ab3d4e5f6a7b8c9d2"]
    ∧ (λ o, match o with S3 _ ok | Db _ ok => (is_s3 o, ok) end) <$> oplog w'
      = [(false, true); (true, true); (true, false); (false, true)].
Proof.
  intros preview_gone.
  destruct (single_delete_tolerates_object_failures "u1" "665f1c2ab3d4e5f6a7b8c9d0"
              (Sample.with_delete_fault preview_gone Sample.ctx) library
              (stored "665f1c2ab3d4e5f6a7b8c9d0" "u1" "2024-05-01T" "a1b2c3d4" "photo.jpg" true))
    as (w' & Hrun & Hlog & _).
  - discriminate.
  - discriminate.
  - reflexivity.
  - reflexivity.
  - reflexivity.
  - vm_compute. reflexivity.
  - exists w'. split; [rewrite Hrun; vm_compute; reflexivity|].
    apply (f_equal snd) in Hrun. simpl in Hrun. subst w'.
    split; vm_compute; reflexivity.
Defined.

(** * Further properties of the code *)

(** ** The type classifier *)

Lemma lower_idem (c : ascii) : JS.lower (JS.lower c) = JS.lower c.
Proof. destruct c as [[] [] [] [] [] [] [] []]; reflexivity. Qed.

Lemma lower_dot (c : ascii) : Ascii.eqb (JS.lower c) "." = Ascii.eqb c ".".
Proof. destruct c as [[] [] [] [] [] [] [] []]; reflexivity. Qed.

Lemma toLowerCase_idem (s : string) : JS.toLowerCase (JS.toLowerCase s) = JS.toLowerCase s.
Proof. induction s as [|c r IH]; simpl; [reflexivity|]. rewrite lower_idem, IH. reflexivity. Qed.

Lemma toLowerCase_app (a b : string) :
  JS.toLowerCase (a +:+ b) = JS.toLowerCase a +:+ JS.toLowerCase b.
Proof.
  induction a as [|c r IH]; [reflexivity|].
  change (String (JS.lower c) (JS.toLowerCase (r +:+ b))
          = String (JS.lower c) (JS.toLowerCase r +:+ JS.toLowerCase b)).
  rewrite IH. reflexivity.
Qed.

Lemma toLowerCase_no_dot (s : string) :
  JS.has_char "." (JS.toLowerCase s) = JS.has_char "." s.
Proof. induction s as [|c r IH]; simpl; [reflexivity|]. rewrite lower_dot, IH. reflexivity. Qed.

Lemma truthy_toLowerCase (s : string) : JS.truthy (Some (JS.toLowerCase s)) = JS.truthy (Some s).
Proof. destruct s; reflexivity. Qed.

(** X1. The file name takes part in the classification only when the MIME
    type is exactly [application/octet-stream]: for every other MIME type the
    category is the same whatever name, or no name, is passed. *)
Theorem getFileType_name_only_for_octet_stream (mime : string) (name1 name2 : option string) :
  mime ≠ "application/octet-stream" →
  getFileType mime name1 = getFileType mime name2.
Proof.
  intros Hm. unfold getFileType.
  rewrite (bool_decide_eq_false_2 _ Hm). reflexivity.
Qed.

Lemma getFileType_name_only_for_octet_stream_witness :
  getFileType "text/html" (Some "movie.mp4") = getFileType "text/html" None.
Proof.
  apply (getFileType_name_only_for_octet_stream "text/html" (Some "movie.mp4") None).
  discriminate.
Defined.

(** X2. The classification does not depend on the case of the ASCII letters
    of the file name: a name and its lower-cased form are classified alike
    under every MIME type. *)
Theorem getFileType_name_case_insensitive (mime name : string) :
  getFileType mime (Some name) = getFileType mime (Some (JS.toLowerCase name)).
Proof.
  unfold getFileType. rewrite truthy_toLowerCase. cbv [default from_option id].
  rewrite toLowerCase_idem. reflexivity.
Qed.

(** X3. Only the text after the last dot of the file name counts: with an
    extension free of dots, the name [stem.ext] is classified as [.ext] is,
    whatever the stem is, under every MIME type. *)
Theorem getFileType_only_last_extension (mime stem ext : string) :
  JS.has_char "." ext = false →
  getFileType mime (Some (stem +:+ "." +:+ ext)) = getFileType mime (Some ("." +:+ ext)).
Proof.
  intros Hext. unfold getFileType.
  assert (Hpop : ∀ s, JS.pop (JS.split "." (JS.toLowerCase (s +:+ "." +:+ ext)))
                      = Some (JS.toLowerCase ext)).
  { intros s. rewrite toLowerCase_app.
    change (JS.toLowerCase ("." +:+ ext)) with (String "." (JS.toLowerCase ext)).
    rewrite split_snoc by (rewrite toLowerCase_no_dot; exact Hext).
    apply last_snoc. }
  assert (Ht : ∀ s, JS.truthy (Some (s +:+ "." +:+ ext)) = true).
  { intros s. destruct (append_cons_nonempty s "." ext) as (k & ks & E).
    change (s +:+ "." +:+ ext) with (s +:+ String "." ext). rewrite E. reflexivity. }
  cbv [default from_option id].
  rewrite (Hpop stem), (Ht stem).
  change ("." +:+ ext) with (EmptyString +:+ "." +:+ ext).
  rewrite (Hpop EmptyString), (Ht EmptyString). reflexivity.
Qed.

Lemma getFileType_only_last_extension_witness :
  getFileType "application/octet-stream" (Some "holiday.2024.final.MP4")
  = getFileType "application/octet-stream" (Some ".MP4").
Proof.
  apply (getFileType_only_last_extension "application/octet-stream" "holiday.2024.final" "MP4").
  reflexivity.
Defined.

(** X4. Outside [application/octet-stream] the classifier of the controller
    and the category helper of the model agree on the three media categories:
    one says image, video or audio exactly when the other does. *)
Theorem getFileType_agrees_with_getFileCategory (mime : string) (name : option string) :
  mime ≠ "application/octet-stream" →
  (getFileType mime name = image ↔ getFileCategory mime = cat_image)
  ∧ (getFileType mime name = video ↔ getFileCategory mime = cat_video)
  ∧ (getFileType mime name = audio ↔ getFileCategory mime = cat_audio).
Proof.
  intros Hm. unfold getFileType, getFileCategory.
  rewrite (bool_decide_eq_false_2 _ Hm). cbv [andb].
  destruct (JS.startsWith mime "image/"); [repeat split; congruence|].
  destruct (JS.startsWith mime "video/"); [repeat split; congruence|].
  destruct (JS.startsWith mime "audio/"); [repeat split; congruence|].
  repeat split; intros H; repeat case_match; congruence.
Qed.

Lemma getFileType_agrees_with_getFileCategory_witness :
  getFileType "video/webm" (Some "a.png") = video ↔ getFileCategory "video/webm" = cat_video.
Proof.
  apply (getFileType_agrees_with_getFileCategory "video/webm" (Some "a.png")).
  discriminate.
Defined.

(** ** The metadata prober *)

(** X5. Whatever the tools answer, the metadata has the sniffed MIME type,
    its width and height are either both absent or both present and
    non-zero, and a duration, when present, is non-zero. When the in-memory
    size decode gives two non-zero dimensions, these are the dimensions
    reported and there is no duration: the probe is not consulted. *)
Theorem extractMediaMetadata_shape (b : Buffer) :
  let m := extractMediaMetadata b in
  m_mimeType m = sniffed b
  ∧ num_truthy (m_width m) = num_truthy (m_height m)
  ∧ (m_width m = None ↔ m_height m = None)
  ∧ (m_width m ≠ Some 0 ∧ m_height m ≠ Some 0 ∧ m_duration m ≠ Some 0)
  ∧ (∀ w h, image_size b = Some (Some w, Some h) → w ≠ 0 → h ≠ 0 →
       m = mkMeta (sniffed b) (Some w) (Some h) None).
Proof.
  unfold extractMediaMetadata.
  assert (Hnz : ∀ o : option Z, num_truthy o = true → o ≠ None ∧ o ≠ Some 0).
  { intros [z|]; simpl; [|discriminate]. intros H%negb_true_iff%Z.eqb_neq.
    split; congruence. }
  assert (Hdur : ∀ o : option Z, (if num_truthy o then o else None) ≠ Some 0).
  { intros o. destruct (num_truthy o) eqn:E; [apply Hnz, E | discriminate]. }
  destruct (image_size b) as [[w h]|] eqn:Hsz.
  - destruct (num_truthy w && num_truthy h)%bool eqn:Hwh.
    + apply andb_true_iff in Hwh as [Hw Hh]. simpl.
      destruct (Hnz _ Hw), (Hnz _ Hh). rewrite Hw, Hh.
      repeat split; try done.
      intros w' h' [= -> ->] _ _. reflexivity.
    + assert (Hno : ∀ w' h', Some (w, h) = Some (Some w', Some h') → w' ≠ 0 → h' ≠ 0 → False).
      { intros w' h' [= -> ->] Hw' Hh'. simpl in Hwh.
        apply Z.eqb_neq in Hw', Hh'. rewrite Hw', Hh' in Hwh. discriminate. }
      destruct (ffprobe b) as [info|]; simpl.
      * destruct (List.find _ (streams info)) as [[sw sh]|] eqn:Hfind; simpl.
        -- apply List.find_some in Hfind as [_ Hs]. simpl in Hs.
           apply andb_true_iff in Hs as [Hw Hh].
           destruct (Hnz _ Hw), (Hnz _ Hh). rewrite Hw, Hh.
           repeat split; try done. intros w' h' E ? ?. destruct (Hno w' h' E); done.
        -- repeat split; try done. intros w' h' E ? ?. destruct (Hno w' h' E); done.
      * repeat split; try done. intros w' h' E ? ?. destruct (Hno w' h' E); done.
  - destruct (ffprobe b) as [info|]; simpl.
    + destruct (List.find _ (streams info)) as [[sw sh]|] eqn:Hfind; simpl.
      * apply List.find_some in Hfind as [_ Hs]. simpl in Hs.
        apply andb_true_iff in Hs as [Hw Hh].
        destruct (Hnz _ Hw), (Hnz _ Hh). rewrite Hw, Hh.
        repeat split; done.
      * repeat split; done.
    + repeat split; done.
Qed.

Lemma extractMediaMetadata_shape_witness :
  extractMediaMetadata (Sample.picture "image/png" 640 480)
  = mkMeta (Some "image/png") (Some 640) (Some 480) None.
Proof.
  destruct (extractMediaMetadata_shape (Sample.picture "image/png" 640 480))
    as (_ & _ & _ & _ & H).
  apply (H 640 480); [reflexivity | discriminate | discriminate].
Defined.

(** ** The ingestion orchestrator *)

Lemma uploadFile_guards req ctx w :
  (∃ userId file, accepted req userId file)
  ∨ uploadFile req ctx w = (Val unauthorized, w)
  ∨ uploadFile req ctx w = (Val no_file, w)
  ∨ uploadFile req ctx w = (Val file_too_large, w).
Proof.
  unfold uploadFile, accepted.
  destruct (user_id req) as [[|c u]|]; auto.
  destruct (req_file req) as [file|]; auto.
  destruct (FILE_CONSTRAINTS_MAX_FILE_SIZE <? file_size file) eqn:Hsz; auto.
  left. exists (String c u), file. apply Z.ltb_ge in Hsz. done.
Qed.

(** What stands behind a 201 answer. *)
Lemma uploadFile_created_inv req ctx w d w' :
  uploadFile req ctx w = (Val (mkResponse 201 (CreatedJson d)), w') →
  ∃ userId file shown w1,
    accepted req userId file
    ∧ supported (category file) = true
    ∧ d = record_of (fresh_object_id ctx) userId file ctx
            (s3Key_of (baseKey_of userId (iso_now ctx)) (uuidv4 ctx) (originalname file)) shown
    ∧ w' = record
             (Db (InsertOne
                    (record_of EmptyString userId file ctx
                       (s3Key_of (baseKey_of userId (iso_now ctx)) (uuidv4 ctx)
                          (originalname file)) shown)) true)
             (with_files (files w1 ++ [d]) w1)
    ∧ ((derivative file (baseKey_of userId (iso_now ctx)) (uuidv4 ctx) = Val None
        ∧ shown = url_of ctx (s3Key_of (baseKey_of userId (iso_now ctx)) (uuidv4 ctx)
                                (originalname file))
        ∧ w1 = put_ok ctx (s3Key_of (baseKey_of userId (iso_now ctx)) (uuidv4 ctx)
                             (originalname file)) (finalMimeType_of file) w)
       ∨ (∃ j key,
            derivative file (baseKey_of userId (iso_now ctx)) (uuidv4 ctx) = Val (Some (j, key))
            ∧ shown = url_of ctx key
            ∧ w1 = put_ok ctx key "image/jpeg"
                     (put_ok ctx (s3Key_of (baseKey_of userId (iso_now ctx)) (uuidv4 ctx)
                                    (originalname file)) (finalMimeType_of file) w))).
Proof.
  intros Hrun.
  destruct (created_accepted _ _ _ _ _ Hrun) as (userId & file & Hacc).
  destruct (uploadFile_accepted req userId file ctx w Hacc) as (c & u & _ & Heq).
  destruct (supported (category file)) eqn:Hsup;
    [|rewrite Heq in Hrun; discriminate].
  clear Heq. rewrite (uploadFile_run req userId file ctx w Hacc Hsup) in Hrun.
  cbv zeta in Hrun. unfold insert_step in Hrun.
  destruct (derivative file _ _) as [[[j key]|]|e] eqn:Hd; [| |discriminate].
  - destruct (JS.truthy (S3_COMP_BUCKET_URL ctx)); [|discriminate].
    destruct (put_fault ctx (s3Key_of _ _ _)); [discriminate|].
    destruct (put_fault ctx key); [discriminate|].
    destruct (db_fault ctx op_insertOne); [discriminate|].
    injection Hrun as <- <-.
    eexists userId, file, _, _.
    split; [exact Hacc|]. split; [exact Hsup|]. split; [reflexivity|].
    split; [|right; exists j, key; done]. reflexivity.
  - destruct (JS.truthy (S3_COMP_BUCKET_URL ctx)); [|discriminate].
    destruct (put_fault ctx (s3Key_of _ _ _)); [discriminate|].
    destruct (db_fault ctx op_insertOne); [discriminate|].
    injection Hrun as <- <-.
    eexists userId, file, _, _.
    split; [exact Hacc|]. split; [exact Hsup|]. split; [reflexivity|].
    split; [|left; done]. reflexivity.
Qed.

(** X6. The record of a successful ingestion, as answered with 201, is the
    last record of the collection and the only one added. It carries the
    identifier given by the store, the client's file name and declared size,
    the requester as owner, the request's time, a media category that is the
    classification of its own MIME type and name, the key
    [uploads/{owner}/{date}/{uuid}-{name}], a src URL that is the public host
    followed by that key, and details that repeat src and preview; and its
    original is in the upload bucket under its key. *)
Theorem uploadFile_record_consistent
    (req : UploadRequest) (ctx : Context) (w w' : World) (d : FileMetadata) :
  uploadFile req ctx w = (Val (mkResponse 201 (CreatedJson d)), w') →
  ∃ userId file,
    user_id req = Some userId ∧ req_file req = Some file
    ∧ files w' = files w ++ [d]
    ∧ _id d = fresh_object_id ctx
    ∧ filename d = originalname file
    ∧ size d = file_size file
    ∧ uploadedBy d = Some userId
    ∧ uploadedAt d = now ctx
    ∧ type d = getFileType (mimeType d) (Some (filename d))
    ∧ type d ∈ [image; video; audio]
    ∧ s3Key d = "uploads/" +:+ userId +:+ "/" +:+ default EmptyString (head (JS.split "T" (iso_now ctx)))
                +:+ "/" +:+ uuidv4 ctx +:+ "-" +:+ originalname file
    ∧ src d = S3_COMP_VIRT_HOST ctx +:+ "/" +:+ s3Key d
    ∧ d_src (details d) = src d
    ∧ Some (d_preview (details d)) = preview d
    ∧ (S3_COMP_BUCKET_BKT ctx, s3Key d) ∈ objects w'.
Proof.
  intros Hrun.
  destruct (uploadFile_created_inv _ _ _ _ _ Hrun)
    as (userId & file & shown & w1 & Hacc & Hsup & -> & -> & Hw1).
  destruct Hacc as (Hu & _ & Hf & _).
  exists userId, file. simpl.
  assert (Hfiles : files w1 = files w
                   ∧ (S3_COMP_BUCKET_BKT ctx,
                      s3Key_of (baseKey_of userId (iso_now ctx)) (uuidv4 ctx) (originalname file))
                       ∈ objects w1).
  { destruct Hw1 as [(_ & _ & ->)|(j & key & _ & _ & ->)]; simpl; split; try done; set_solver. }
  destruct Hfiles as [-> Hobj].
  apply supported_spec in Hsup.
  repeat split; try done.
  - rewrite !elem_of_cons. tauto.
  - unfold s3Key_of, baseKey_of. rewrite !string_app_assoc. reflexivity.
Qed.

Lemma uploadFile_record_consistent_witness :
  ∃ d w',
    uploadFile Sample.photo_request Sample.ctx Sample.empty
      = (Val (mkResponse 201 (CreatedJson d)), w')
    ∧ files w' = [d]
    ∧ s3Key d = "uploads/u1/2024-05-01/123e4567-e89b-42d3-a456-426614174000-photo.jpg"
    ∧ ("media", s3Key d) ∈ objects w'.
Proof.
  set (run := uploadFile Sample.photo_request Sample.ctx Sample.empty).
  assert (Hrun : run = (Val (mkResponse 201 (CreatedJson (created_record run))), run.2))
    by (apply run_eq; vm_compute; reflexivity).
  exists (created_record run), run.2. split; [exact Hrun|].
  destruct (uploadFile_record_consistent Sample.photo_request Sample.ctx Sample.empty _ _ Hrun)
    as (userId & file & _ & _ & Hfiles & _ & _ & _ & _ & _ & _ & _ & _ & _ & _ & _ & Hobj).
  split; [exact Hfiles|]. split; [vm_compute; reflexivity | exact Hobj].
Defined.

Lemma objects_added (b : string) (ks : list string) (o o' : gset (string * string)) :
  (∀ x, x ∈ o' ↔ (∃ k, k ∈ ks ∧ x = (b, k)) ∨ x ∈ o) →
  o' = list_to_set ((λ k, (b, k)) <$> ks) ∪ o.
Proof.
  intros H. apply set_eq. intros x. rewrite H, elem_of_union, elem_of_list_to_set.
  rewrite list_elem_of_fmap. split; (intros [(k & ? & ?)|?]; [left; exists k; done | right; done]).
Qed.

Ltac effect_leaf :=
  split; [reflexivity|];
  unfold put_ok, put_failed, record, with_objects, with_files;
  cbn [objects files oplog length]; rewrite ?app_nil_r, <- ?app_assoc;
  repeat match goal with |- _ ∧ _ => split end;
  first
    [ reflexivity
    | lia
    | apply objects_added; intros x;
      rewrite ?elem_of_union, ?elem_of_singleton;
      split;
      [ intros H; repeat destruct H as [H|H]; subst;
        first [ right; assumption
              | left; eexists; split; [|reflexivity]; rewrite ?elem_of_cons; tauto ]
      | intros [(k & Hk & ->)|H]; [|tauto];
        rewrite ?elem_of_cons, elem_of_nil in Hk;
        repeat destruct Hk as [Hk|Hk]; subst; tauto ]
    | left; split; [reflexivity | eauto]
    | right; eexists; split; [reflexivity|]; split; [reflexivity|];
      cbn [s3Key record_of]; rewrite ?elem_of_cons; tauto ].

(** Everything an accepted upload can do to the world. *)
Lemma uploadFile_accepted_effect req userId file ctx w :
  accepted req userId file →
  ∃ r w' ks ds ops,
    uploadFile req ctx w = (Val r, w')
    ∧ objects w' = list_to_set ((λ k, (S3_COMP_BUCKET_BKT ctx, k)) <$> ks) ∪ objects w
    ∧ files w' = files w ++ ds
    ∧ oplog w' = oplog w ++ ops
    ∧ (length ks ≤ 2)%nat
    ∧ ((ds = [] ∧ (r = unsupported_media_type ∨ ∃ msg, r = upload_failed msg))
       ∨ (∃ d, ds = [d] ∧ r = mkResponse 201 (CreatedJson d) ∧ s3Key d ∈ ks)).
Proof.
  intros Hacc.
  destruct (uploadFile_accepted req userId file ctx w Hacc) as (c & u & _ & Heq).
  destruct (supported (category file)) eqn:Hsup.
  2:{ rewrite Heq. exists unsupported_media_type, w, [], [], []. effect_leaf. }
  clear Heq. rewrite (uploadFile_run req userId file ctx w Hacc Hsup). cbv zeta.
  set (s3Key := s3Key_of _ _ _). unfold insert_step.
  destruct (derivative file _ _) as [[[j key]|]|e].
  - destruct (JS.truthy (S3_COMP_BUCKET_URL ctx)).
    2:{ eexists _, w, [], [], []. effect_leaf. }
    destruct (put_fault ctx s3Key).
    { eexists _, _, [], [], [_]. effect_leaf. }
    destruct (put_fault ctx key).
    { eexists _, _, [s3Key], [], [_; _]. effect_leaf. }
    destruct (db_fault ctx op_insertOne).
    + eexists _, _, [s3Key; key], [], [_; _; _]. effect_leaf.
    + eexists _, _, [s3Key; key], [_], [_; _; _]. effect_leaf.
  - destruct (JS.truthy (S3_COMP_BUCKET_URL ctx)).
    2:{ eexists _, w, [], [], []. effect_leaf. }
    destruct (put_fault ctx s3Key).
    { eexists _, _, [], [], [_]. effect_leaf. }
    destruct (db_fault ctx op_insertOne).
    + eexists _, _, [s3Key], [], [_; _]. effect_leaf.
    + eexists _, _, [s3Key], [_], [_; _]. effect_leaf.
  - eexists _, w, [], [], []. effect_leaf.
Qed.

Lemma written_keys_app (l1 l2 : list Op) :
  written_keys (l1 ++ l2) = written_keys l1 ++ written_keys l2.
Proof. apply omap_app. Qed.

(** X7. In a successful ingestion the objects written are the original and
    at most one derivative, in this order, and the preview URL of the record
    is the public URL of the last object written: the src URL itself when
    there is no derivative, the derivative's URL otherwise. Every object
    written is in the upload bucket afterwards. *)
Theorem uploadFile_preview_is_last_written
    (req : UploadRequest) (ctx : Context) (w w' : World) (d : FileMetadata) :
  uploadFile req ctx w = (Val (mkResponse 201 (CreatedJson d)), w') →
  ∃ ks,
    written_keys (oplog w') = written_keys (oplog w) ++ s3Key d :: ks
    ∧ (ks = [] ∨ ∃ key, ks = [key] ∧ type d ≠ audio)
    ∧ preview d = Some (S3_COMP_VIRT_HOST ctx +:+ "/" +:+ default (s3Key d) (last ks))
    ∧ (ks = [] → preview d = Some (src d))
    ∧ ∀ k, k ∈ s3Key d :: ks → (S3_COMP_BUCKET_BKT ctx, k) ∈ objects w'.
Proof.
  intros Hrun.
  destruct (uploadFile_created_inv _ _ _ _ _ Hrun)
    as (userId & file & shown & w1 & Hacc & Hsup & -> & -> & Hw1).
  destruct Hw1 as [(_ & -> & ->)|(j & key & Hd & -> & ->)].
  - exists []. unfold put_ok, record, with_files, with_objects.
    cbn [oplog objects s3Key record_of preview src type].
    rewrite !written_keys_app. simpl. rewrite app_nil_r.
    split; [reflexivity|]. split; [left; reflexivity|]. split; [reflexivity|].
    split; [reflexivity|]. intros k ->%list_elem_of_singleton.
    apply elem_of_union_l, elem_of_singleton. reflexivity.
  - exists [key]. unfold put_ok, record, with_files, with_objects.
    cbn [oplog objects s3Key record_of preview src type].
    rewrite !written_keys_app. simpl. rewrite ?app_nil_r, <- ?app_assoc.
    split; [reflexivity|].
    split; [right; exists key; split;
            [reflexivity | exact (derivative_not_audio _ _ _ _ Hd)]|].
    split; [reflexivity|]. split; [discriminate|].
    intros k. rewrite !elem_of_cons, elem_of_nil, !elem_of_union, !elem_of_singleton.
    intros [->|[->|[]]]; auto.
Qed.

Lemma uploadFile_preview_is_last_written_witness :
  ∃ d w',
    uploadFile Sample.photo_request Sample.ctx Sample.empty
      = (Val (mkResponse 201 (CreatedJson d)), w')
    ∧ preview d =
        Some "https://media.example.com/uploads/u1/2024-05-01/preview-123e4567-e89b-42d3-a456-426614174000.jpg".
Proof.
  set (run := uploadFile Sample.photo_request Sample.ctx Sample.empty).
  assert (Hrun : run = (Val (mkResponse 201 (CreatedJson (created_record run))), run.2))
    by (apply run_eq; vm_compute; reflexivity).
  exists (created_record run), run.2. split; [exact Hrun|].
  destruct (uploadFile_preview_is_last_written Sample.photo_request Sample.ctx Sample.empty
              _ _ Hrun) as (ks & _ & _ & Hp & _).
  vm_compute. reflexivity.
Defined.

(** X8. A video for which neither a frame can be grabbed nor an embedded
    thumbnail be read is not stored at all: the error rethrown by the
    thumbnail fallback ends the ingestion with a 500 answer carrying
    "Failed to read video thumbnail", before the original is written, and
    the world is left as it was. *)
Theorem uploadFile_video_without_frame_aborts
    (req : UploadRequest) (userId : string) (file : UploadedFile) (ctx : Context) (w : World) :
  accepted req userId file →
  category file = video →
  screenshot (buffer file) = None →
  embedded_thumbnail (buffer file) = None →
  uploadFile req ctx w = (Val (upload_failed "Failed to read video thumbnail"), w).
Proof.
  intros Hacc Hcat Hshot Hthumb.
  rewrite (uploadFile_run req userId file ctx w Hacc) by (rewrite Hcat; reflexivity).
  cbv zeta. unfold derivative, generateVideoPoster, extractVideoThumbnail.
  rewrite Hcat, Hshot, Hthumb. reflexivity.
Qed.

Lemma uploadFile_video_without_frame_aborts_witness :
  let broken :=
    mkBuffer (Some "video/mp4") None None None false None None in
  uploadFile (Sample.upload "u1" "clip.mp4" "video/mp4" 8388608 broken) Sample.ctx Sample.empty
  = (Val (mkResponse 500 (ErrorJson "Failed to read video thumbnail" "Upload failed")),
     Sample.empty).
Proof.
  intros broken.
  apply (uploadFile_video_without_frame_aborts _ "u1"
           (mkUpload "clip.mp4" "video/mp4" 8388608 broken)).
  - repeat split; [discriminate | vm_compute; discriminate].
  - reflexivity.
  - reflexivity.
  - reflexivity.
Defined.



(** X10. For an authenticated request with a file, the answer is
    [FILE_TOO_LARGE] exactly when the declared size is above 104857600 bytes:
    a file of exactly 100 MiB is not refused for its size. *)
Theorem uploadFile_too_large_iff
    (req : UploadRequest) (userId : string) (file : UploadedFile) (ctx : Context) (w : World) :
  user_id req = Some userId → userId ≠ EmptyString → req_file req = Some file →
  ((uploadFile req ctx w).1 = Val file_too_large ↔ 104857600 < file_size file).
Proof.
  intros Hu Hne Hf. split.
  - intros Hr. destruct (Z.lt_ge_cases 104857600 (file_size file)) as [|Hle]; [done|].
    exfalso.
    assert (Hacc : accepted req userId file) by (repeat split; done).
    destruct (uploadFile_accepted_effect req userId file ctx w Hacc)
      as (r & w' & ks & ds & ops & Hrun & _ & _ & _ & _ & Hcases).
    rewrite Hrun in Hr. simpl in Hr. injection Hr as ->.
    destruct Hcases as [(_ & [H|(msg & H)])|(d & _ & H & _)]; discriminate.
  - intros Hsz. unfold uploadFile. rewrite Hu, Hf.
    destruct userId as [|c u]; [done|].
    change FILE_CONSTRAINTS_MAX_FILE_SIZE with 104857600.
    apply Z.ltb_lt in Hsz. rewrite Hsz. reflexivity.
Qed.

Lemma uploadFile_too_large_iff_witness :
  (uploadFile (Sample.upload "u1" "song.mp3" "audio/mpeg" 104857600 Sample.song)
     Sample.ctx Sample.empty).1 ≠ Val file_too_large
  ∧ (uploadFile (Sample.upload "u1" "song.mp3" "audio/mpeg" 104857601 Sample.song)
       Sample.ctx Sample.empty).1 = Val file_too_large.
Proof.
  split.
  - intros H.
    apply (uploadFile_too_large_iff _ "u1"
             (mkUpload "song.mp3" "audio/mpeg" 104857600 Sample.song)) in H;
      [simpl in H; lia | reflexivity | discriminate | reflexivity].
  - apply (uploadFile_too_large_iff _ "u1"
             (mkUpload "song.mp3" "audio/mpeg" 104857601 Sample.song));
      [reflexivity | discriminate | reflexivity | simpl; lia].
Defined.

(** Everything any upload can do to the world. *)
Lemma uploadFile_effect req ctx w :
  ∃ r w' ks ds ops,
    uploadFile req ctx w = (Val r, w')
    ∧ objects w' = list_to_set ((λ k, (S3_COMP_BUCKET_BKT ctx, k)) <$> ks) ∪ objects w
    ∧ files w' = files w ++ ds
    ∧ oplog w' = oplog w ++ ops
    ∧ (length ks ≤ 2)%nat
    ∧ (ds = [] ∨ ∃ d, ds = [d] ∧ r = mkResponse 201 (CreatedJson d) ∧ s3Key d ∈ ks).
Proof.
  destruct (uploadFile_guards req ctx w) as [(userId & file & Hacc)|Hrefused].
  - destruct (uploadFile_accepted_effect req userId file ctx w Hacc)
      as (r & w' & ks & ds & ops & Hrun & Ho & Hf & Hl & Hk & Hcases).
    exists r, w', ks, ds, ops. repeat (split; [assumption|]).
    destruct Hcases as [[-> _]|Hd]; [left; reflexivity | right; exact Hd].
  - assert (∃ r, uploadFile req ctx w = (Val r, w)) as [r Hr]
      by (destruct Hrefused as [H|[H|H]]; eauto).
    exists r, w, [], [], []. split; [exact Hr|].
    cbn [fmap list_fmap list_to_set length]. rewrite !app_nil_r.
    split; [apply set_eq; intros x; rewrite elem_of_union, elem_of_empty; tauto|].
    repeat split; auto.
Qed.

(** X11. An ingestion never takes anything away, whatever the request and
    whatever fails: every object of the bucket is still there afterwards,
    the collection is the old one followed by at most one new record, and
    the log is the old one followed by the calls of this request. *)
Theorem uploadFile_only_adds (req : UploadRequest) (ctx : Context) (w : World) :
  let w' := (uploadFile req ctx w).2 in
  objects w ⊆ objects w'
  ∧ (∃ ds, files w' = files w ++ ds ∧ (length ds ≤ 1)%nat)
  ∧ (∃ ops, oplog w' = oplog w ++ ops).
Proof.
  destruct (uploadFile_effect req ctx w)
    as (r & w' & ks & ds & ops & Hrun & Ho & Hf & Hl & _ & Hcases).
  rewrite Hrun. cbn [snd]. split; [|split].
  - rewrite Ho. apply union_subseteq_r.
  - exists ds. split; [exact Hf|].
    destruct Hcases as [->|(d & -> & _)]; simpl; lia.
  - exists ops. exact Hl.
Qed.

(** X12. Ingestion keeps the collection free of dangling records: if every
    record has its original in the upload bucket before the request, the
    same holds after it, whatever the request and whatever fails. *)
Theorem uploadFile_keeps_originals_stored (req : UploadRequest) (ctx : Context) (w : World) :
  originals_stored ctx w → originals_stored ctx (uploadFile req ctx w).2.
Proof.
  intros Hinv.
  destruct (uploadFile_effect req ctx w)
    as (r & w' & ks & ds & ops & Hrun & Ho & Hf & _ & _ & Hcases).
  rewrite Hrun. cbn [snd]. intros d. rewrite Hf, Ho, elem_of_app, elem_of_union.
  intros [Hold|Hnew].
  - right. apply Hinv, Hold.
  - left. destruct Hcases as [->|(d' & -> & _ & Hk)].
    + by apply elem_of_nil in Hnew.
    + apply list_elem_of_singleton in Hnew as ->.
      apply elem_of_list_to_set, list_elem_of_fmap. exists (s3Key d'). done.
Qed.

Lemma uploadFile_keeps_originals_stored_witness :
  originals_stored Sample.ctx (uploadFile Sample.photo_request Sample.ctx library).2.
Proof.
  apply (uploadFile_keeps_originals_stored Sample.photo_request Sample.ctx library).
  intros d Hd. unfold library in Hd. cbn [files] in Hd.
  rewrite !elem_of_cons, elem_of_nil in Hd.
  destruct Hd as [->|[->|[->|[]]]]; vm_compute; reflexivity.
Defined.

(** ** Single delete and single fetch *)

Lemma matches_owned_by_id regex fileId userId d :
  matches regex (owned_by_id fileId userId) d
  = (bool_decide (_id d = fileId) && bool_decide (uploadedBy d = Some userId))%bool.
Proof.
  unfold matches, owned_by_id. simpl. rewrite andb_true_r. f_equal.
  - apply bool_decide_ext. split; [intros [= ->]; reflexivity | intros ->; reflexivity].
  - change (doc_field d "uploadedBy") with (BString <$> uploadedBy d).
    destruct (uploadedBy d) as [o|]; simpl; [|reflexivity].
    apply bool_decide_ext. split; [intros [= ->]; reflexivity | intros [= ->]; reflexivity].
Qed.

Lemma find_none_all {A} (p : A → bool) (l : list A) :
  (∀ x, x ∈ l → p x = false) → List.find p l = None.
Proof.
  induction l as [|x l IH]; simpl; [reflexivity|]. intros H.
  rewrite (H x) by apply list_elem_of_here. apply IH. intros y Hy. apply H.
  apply list_elem_of_further, Hy.
Qed.

Lemma no_owned_record regex fileId userId (l : list FileMetadata) :
  (∀ d, d ∈ l → _id d = fileId → uploadedBy d ≠ Some userId) →
  List.find (matches regex (owned_by_id fileId userId)) l = None.
Proof.
  intros H. apply find_none_all. intros d Hd. rewrite matches_owned_by_id.
  destruct (bool_decide (_id d = fileId)) eqn:Hid; [|reflexivity].
  apply bool_decide_eq_true in Hid. simpl. apply bool_decide_eq_false_2. exact (H d Hd Hid).
Qed.



(** The loop over the keys removes from the upload bucket exactly the keys
    whose deletion did not throw. *)
Lemma delete_each_objects (ctx : Context) (keys : list string) (w : World) :
  ∀ x, x ∈ objects (delete_each (S3_COMP_BUCKET_BKT ctx) keys ctx w).2 ↔
       x ∈ objects w
       ∧ ¬ ∃ k, k ∈ keys ∧ delete_fault ctx k = None ∧ x = (S3_COMP_BUCKET_BKT ctx, k).
Proof.
  revert w. induction keys as [|key rest IH]; intros w x.
  - simpl. split; [intros H; split; [exact H|]; intros (k & Hk & _); by apply elem_of_nil in Hk
                  | intros [H _]; exact H].
  - cbn [delete_each]. unfold bind at 1. unfold try_catch, s3_delete, ret.
    destruct (delete_fault ctx key) as [e|] eqn:Hfault.
    + rewrite IH. cbn [objects record]. split.
      * intros [Hx Hno]. split; [exact Hx|]. intros (k & Hk & Hk0 & ->).
        apply elem_of_cons in Hk as [->|Hk]; [congruence|]. apply Hno. eauto.
      * intros [Hx Hno]. split; [exact Hx|]. intros (k & Hk & Hk0 & ->).
        apply Hno. exists k. split; [apply list_elem_of_further, Hk | done].
    + rewrite IH. cbn [objects record with_objects].
      rewrite elem_of_difference, elem_of_singleton. split.
      * intros [[Hx Hne] Hno]. split; [exact Hx|]. intros (k & Hk & Hk0 & ->).
        apply elem_of_cons in Hk as [->|Hk]; [done|]. apply Hno. eauto.
      * intros [Hx Hno]. split; [split; [exact Hx|]|].
        -- intros ->. apply Hno. exists key. split; [apply list_elem_of_here | done].
        -- intros (k & Hk & Hk0 & ->). apply Hno. exists k.
           split; [apply list_elem_of_further, Hk | done].
Qed.

(** The whole of a single delete that finds its record. *)
Lemma deleteFile_found_run (userId fileId : string) (ctx : Context) (w : World)
    (file : FileMetadata) :
  userId ≠ EmptyString → fileId ≠ EmptyString →
  ObjectId_isValid ctx fileId = true →
  db_fault ctx op_findOne = None →
  List.find (matches (regex_test ctx) (owned_by_id fileId userId)) (files w) = Some file →
  deleteFile (Some userId) (Some fileId) ctx w =
    match db_fault ctx op_deleteOne with
    | Some e =>
        (Val (delete_failed e),
         record (Db (DeleteOne (owned_by_id fileId userId)) false)
           (delete_each (S3_COMP_BUCKET_BKT ctx) (getS3KeysForFile file) ctx
              (record (Db (FindOne (owned_by_id fileId userId)) true) w)).2)
    | None =>
        (Val (mkResponse 200
                (DeletedJson "File deleted successfully" (_id file) (filename file) (s3Key file)
                   (getS3KeysForFile file))),
         record (Db (DeleteOne (owned_by_id fileId userId)) true)
           (with_files
              (remove_first (matches (regex_test ctx) (owned_by_id fileId userId))
                 (files (delete_each (S3_COMP_BUCKET_BKT ctx) (getS3KeysForFile file) ctx
                           (record (Db (FindOne (owned_by_id fileId userId)) true) w)).2))
              (delete_each (S3_COMP_BUCKET_BKT ctx) (getS3KeysForFile file) ctx
                 (record (Db (FindOne (owned_by_id fileId userId)) true) w)).2))
    end.
Proof.
  intros Hu Hf Hvalid Hfind Hfound.
  destruct userId as [|c u]; [done|]. destruct fileId as [|p ps]; [done|].
  unfold deleteFile. unfold bind at 1. unfold ask at 1. cbv beta iota.
  rewrite Hvalid. change (negb true) with false. cbv iota.
  unfold try_catch. unfold bind at 1. unfold findOne, db_call. rewrite Hfind.
  cbv beta iota zeta. rewrite Hfound.
  unfold bind at 1.
  destruct (delete_each_run ctx (getS3KeysForFile file)
              (record (Db (FindOne (owned_by_id (String p ps) (String c u))) true) w))
    as (w2 & Hrun & _ & _).
  rewrite Hrun. cbn [snd].
  unfold bind, deleteOne, db_call.
  destruct (db_fault ctx op_deleteOne); reflexivity.
Qed.

Lemma primary_key_targeted (d : FileMetadata) : s3Key d ∈ getS3KeysForFile d.
Proof.
  unfold getS3KeysForFile. repeat case_match; rewrite ?elem_of_app; try left;
    apply list_elem_of_here.
Qed.

Lemma find_some_elem {A} (p : A → bool) (l : list A) (x : A) :
  List.find p l = Some x → x ∈ l ∧ p x = true.
Proof. intros [H1 H2]%List.find_some. split; [apply list_elem_of_In, H1 | exact H2]. Qed.

(** The bucket after a single delete that finds its record. *)
Lemma deleteFile_found_objects
    (userId fileId : string) (ctx : Context) (w : World) (file : FileMetadata) :
  userId ≠ EmptyString → fileId ≠ EmptyString →
  ObjectId_isValid ctx fileId = true →
  db_fault ctx op_findOne = None →
  List.find (matches (regex_test ctx) (owned_by_id fileId userId)) (files w) = Some file →
  ∀ x, x ∈ objects (deleteFile (Some userId) (Some fileId) ctx w).2 ↔
       x ∈ objects w
       ∧ ¬ ∃ k, k ∈ getS3KeysForFile file ∧ delete_fault ctx k = None
                ∧ x = (S3_COMP_BUCKET_BKT ctx, k).
Proof.
  intros Hu Hf Hvalid Hfind Hfound x.
  rewrite (deleteFile_found_run userId fileId ctx w file Hu Hf Hvalid Hfind Hfound).
  destruct (db_fault ctx op_deleteOne); cbn [snd objects record with_files];
    rewrite delete_each_objects; reflexivity.
Qed.

Lemma deleteFile_found_original_gone
    (userId fileId : string) (ctx : Context) (w : World) (file : FileMetadata) :
  userId ≠ EmptyString → fileId ≠ EmptyString →
  ObjectId_isValid ctx fileId = true →
  db_fault ctx op_findOne = None →
  List.find (matches (regex_test ctx) (owned_by_id fileId userId)) (files w) = Some file →
  delete_fault ctx (s3Key file) = None →
  (S3_COMP_BUCKET_BKT ctx, s3Key file) ∉ objects (deleteFile (Some userId) (Some fileId) ctx w).2.
Proof.
  intros Hu Hf Hvalid Hfind Hfound Hok Hin.
  apply (deleteFile_found_objects userId fileId ctx w file Hu Hf Hvalid Hfind Hfound)
    in Hin as [_ Hno].
  apply Hno. exists (s3Key file). split; [apply primary_key_targeted | done].
Qed.

(** X14. A single delete that finds its record removes from the upload
    bucket exactly the reconstructed keys whose deletion did not throw, and
    nothing else, whether or not the metadata delete succeeds afterwards. The
    original, whose key is always among the reconstructed ones, is gone
    unless its own deletion threw. *)
Theorem deleteFile_removes_only_targeted_keys
    (userId fileId : string) (ctx : Context) (w : World) (file : FileMetadata) :
  userId ≠ EmptyString → fileId ≠ EmptyString →
  ObjectId_isValid ctx fileId = true →
  db_fault ctx op_findOne = None →
  List.find (matches (regex_test ctx) (owned_by_id fileId userId)) (files w) = Some file →
  (∀ x, x ∈ objects (deleteFile (Some userId) (Some fileId) ctx w).2 ↔
        x ∈ objects w
        ∧ ¬ ∃ k, k ∈ getS3KeysForFile file ∧ delete_fault ctx k = None
                 ∧ x = (S3_COMP_BUCKET_BKT ctx, k))
  ∧ (delete_fault ctx (s3Key file) = None →
     (S3_COMP_BUCKET_BKT ctx, s3Key file) ∉ objects (deleteFile (Some userId) (Some fileId) ctx w).2).
Proof.
  intros Hu Hf Hvalid Hfind Hfound.
  split.
  - exact (deleteFile_found_objects userId fileId ctx w file Hu Hf Hvalid Hfind Hfound).
  - exact (deleteFile_found_original_gone userId fileId ctx w file Hu Hf Hvalid Hfind Hfound).
Qed.

Lemma deleteFile_removes_only_targeted_keys_witness :
  elements (objects (deleteFile (Some "u1") (Some "665f1c2ab3d4e5f6a7b8c9d0")
                       Sample.ctx library).2)
  ≡ₚ [("media", "uploads/u1/2024-05-02/e5f6a7b8-beach.jpg");
      ("media", "uploads/u2/2024-05-03/c9d0e1f2-tree.jpg")].
Proof.
  pose proof (deleteFile_removes_only_targeted_keys "u1" "665f1c2ab3d4e5f6a7b8c9d0"
                Sample.ctx library
                (stored "665f1c2ab3d4e5f6a7b8c9d0" "u1" "2024-05-01T" "a1b2c3d4" "photo.jpg" true))
    as [Hobj _]; [discriminate | discriminate | reflexivity | reflexivity | reflexivity|].
  apply NoDup_Permutation.
  - apply NoDup_elements.
  - repeat (apply NoDup_cons_2 || apply NoDup_nil_2);
      rewrite ?elem_of_cons, ?elem_of_nil; intuition discriminate.
  - intros x. rewrite elem_of_elements, Hobj.
    change (getS3KeysForFile _)
      with ["uploads/u1/2024-05-01/a1b2c3d4-photo.jpg";
            "uploads/u1/2024-05-01/preview-a1b2c3d4.jpg"].
    unfold library. cbn [objects]. rewrite elem_of_list_to_set.
    rewrite !elem_of_cons, !elem_of_nil. split.
    + intros [[->|[->|[->|[]]]] Hno]; auto.
      exfalso. apply Hno. eexists. split; [apply list_elem_of_here|]. split; reflexivity.
    + intros [->|[->|[]]]; (split; [auto|]);
        intros (k & Hk & _ & E); rewrite !elem_of_cons, elem_of_nil in Hk;
        destruct Hk as [->|[->|[]]]; discriminate.
Defined.

(** X15. When the metadata delete throws after the record was found, the
    answer is 500 "Delete failed" with the error's message, but every object
    deletion has been sent by then: the record stays in the collection while
    its original, unless that deletion threw as well, is gone from the
    bucket. *)
Theorem deleteFile_failed_metadata_delete_leaves_record
    (userId fileId : string) (ctx : Context) (w : World) (file : FileMetadata) (msg : string) :
  userId ≠ EmptyString → fileId ≠ EmptyString →
  ObjectId_isValid ctx fileId = true →
  db_fault ctx op_findOne = None →
  db_fault ctx op_deleteOne = Some msg →
  List.find (matches (regex_test ctx) (owned_by_id fileId userId)) (files w) = Some file →
  ∃ w',
    deleteFile (Some userId) (Some fileId) ctx w
      = (Val (mkResponse 500 (ErrorJson msg "Delete failed")), w')
    ∧ files w' = files w
    ∧ file ∈ files w'
    ∧ oplog w' =
        oplog w ++ [Db (FindOne (owned_by_id fileId userId)) true]
        ++ (delete_attempt ctx <$> getS3KeysForFile file)
        ++ [Db (DeleteOne (owned_by_id fileId userId)) false]
    ∧ (delete_fault ctx (s3Key file) = None →
       (S3_COMP_BUCKET_BKT ctx, s3Key file) ∉ objects w').
Proof.
  intros Hu Hf Hvalid Hfind Hdel Hfound.
  pose proof (deleteFile_found_original_gone userId fileId ctx w file
                Hu Hf Hvalid Hfind Hfound) as Hgone.
  rewrite (deleteFile_found_run userId fileId ctx w file Hu Hf Hvalid Hfind Hfound) in *.
  rewrite Hdel in *. cbn [snd] in Hgone.
  destruct (delete_each_run ctx (getS3KeysForFile file)
              (record (Db (FindOne (owned_by_id fileId userId)) true) w))
    as (w2 & Hrun & Hfiles & Hlog).
  rewrite Hrun in *. cbn [snd] in *.
  eexists. split; [reflexivity|]. cbn [files oplog record]. rewrite Hfiles, Hlog.
  cbn [files oplog record]. split; [reflexivity|].
  split; [apply (find_some_elem _ _ _ Hfound)|].
  split; [rewrite <- !app_assoc; reflexivity | exact Hgone].
Qed.

Lemma deleteFile_failed_metadata_delete_leaves_record_witness :
  let database_down := Sample.with_db_fault
                         (λ op, match op with op_deleteOne => Some "pool closed" | _ => None end)
                         Sample.ctx in
  ∃ w',
    deleteFile (Some "u1") (Some "665f1c2ab3d4e5f6a7b8c9d0") database_down library
      = (Val (mkResponse 500 (ErrorJson "pool closed" "Delete failed")), w')
    ∧ files w' = files library
    ∧ ("media", "uploads/u1/2024-05-01/a1b2c3d4-photo.jpg") ∉ objects w'.
Proof.
  intros database_down.
  destruct (deleteFile_failed_metadata_delete_leaves_record "u1" "665f1c2ab3d4e5f6a7b8c9d0"
              database_down library
              (stored "665f1c2ab3d4e5f6a7b8c9d0" "u1" "2024-05-01T" "a1b2c3d4" "photo.jpg" true)
              "pool closed")
    as (w' & Hrun & Hfiles & _ & _ & Hgone);
    [discriminate | discriminate | reflexivity | reflexivity | reflexivity | reflexivity|].
  exists w'. split; [exact Hrun|]. split; [exact Hfiles|]. apply Hgone. reflexivity.
Defined.

Lemma find_app_none {A} (p : A → bool) (l l' : list A) :
  List.find p l = None → List.find p (l ++ l') = List.find p l'.
Proof.
  induction l as [|x l IH]; simpl; [reflexivity|].
  destruct (p x); [discriminate | exact IH].
Qed.

Lemma getFileById_run (userId fileId : string) (ctx : Context) (w : World) :
  userId ≠ EmptyString → fileId ≠ EmptyString →
  ObjectId_isValid ctx fileId = true →
  db_fault ctx op_findOne = None →
  getFileById (Some userId) (Some fileId) ctx w =
    (Val match List.find (matches (regex_test ctx) (owned_by_id fileId userId)) (files w) with
         | None => FileError file_not_accessible
         | Some file =>
             FileFound (mkEnriched file (_id file)
                          (negb (bool_decide (preview file = Some (src file))))
                          (src file) (preview file))
         end,
     record (Db (FindOne (owned_by_id fileId userId)) true) w).
Proof.
  intros Hu Hf Hvalid Hfind.
  destruct userId as [|c u]; [done|]. destruct fileId as [|p ps]; [done|].
  unfold getFileById. unfold bind at 1. unfold ask at 1. cbv beta iota.
  rewrite Hvalid. change (negb true) with false. cbv iota.
  unfold try_catch, bind, findOne, db_call. rewrite Hfind. cbv beta iota zeta.
  destruct (List.find _ (files w)); reflexivity.
Qed.

(** What a lookup can see of a record just created. *)
Lemma uploadFile_created_lookup req ctx w w' d :
  uploadFile req ctx w = (Val (mkResponse 201 (CreatedJson d)), w') →
  ∃ userId,
    user_id req = Some userId ∧ userId ≠ EmptyString
    ∧ files w' = files w ++ [d]
    ∧ _id d = fresh_object_id ctx
    ∧ uploadedBy d = Some userId
    ∧ (preview d = Some (src d)
       ∨ ∃ key, preview d = Some (S3_COMP_VIRT_HOST ctx +:+ "/" +:+ key)
                ∧ (S3_COMP_BUCKET_BKT ctx, key) ∈ objects w').
Proof.
  intros Hrun.
  destruct (uploadFile_created_inv _ _ _ _ _ Hrun)
    as (userId & file & shown & w1 & Hacc & Hsup & -> & -> & Hw1).
  destruct Hacc as (Hu & Hne & _).
  exists userId. split; [exact Hu|]. split; [exact Hne|].
  destruct Hw1 as [(_ & -> & ->)|(j & key & Hd & -> & ->)].
  - unfold put_ok, record, with_files, with_objects.
    cbn [files oplog objects s3Key record_of preview src _id uploadedBy].
    repeat (split; [reflexivity|]). left. reflexivity.
  - unfold put_ok, record, with_files, with_objects.
    cbn [files oplog objects s3Key record_of preview src _id uploadedBy].
    repeat (split; [reflexivity|]). right. exists key. split; [reflexivity|].
    apply elem_of_union_l, elem_of_singleton. reflexivity.
Qed.

(** X16. Insert and lookup round trip. After a successful ingestion, and
    provided the identifier given by the store is well-formed and was not in
    use, the requester's fetch of that identifier answers with exactly the
    record of the 201 answer, with [downloadUrl] its src, [previewUrl] its
    preview and [hasPreview] telling whether the two differ; [hasPreview]
    is set only when a derivative object is in the bucket behind the preview
    URL. Any other user fetching the same identifier gets 404. *)
Theorem getFileById_after_upload
    (req : UploadRequest) (ctx : Context) (w w' : World) (d : FileMetadata) :
  uploadFile req ctx w = (Val (mkResponse 201 (CreatedJson d)), w') →
  fresh_object_id ctx ≠ EmptyString →
  ObjectId_isValid ctx (fresh_object_id ctx) = true →
  (∀ e, e ∈ files w → _id e ≠ fresh_object_id ctx) →
  db_fault ctx op_findOne = None →
  (∃ e, (getFileById (user_id req) (Some (_id d)) ctx w').1 = Val (FileFound e)
        ∧ ef_file e = d ∧ ef_id e = _id d ∧ downloadUrl e = src d ∧ previewUrl e = preview d
        ∧ (hasPreview e = true ↔ preview d ≠ Some (src d))
        ∧ (hasPreview e = true →
           ∃ key, preview d = Some (S3_COMP_VIRT_HOST ctx +:+ "/" +:+ key)
                  ∧ (S3_COMP_BUCKET_BKT ctx, key) ∈ objects w'))
  ∧ (∀ other, other ≠ EmptyString → user_id req ≠ Some other →
       (getFileById (Some other) (Some (_id d)) ctx w').1 = Val (FileError file_not_accessible)).
Proof.
  intros Hrun Hne Hvalid Hfresh Hfind.
  destruct (uploadFile_created_lookup req ctx w w' d Hrun)
    as (userId & Hu & Hacc & Hfiles & Hid & Hown & Hshown).
  assert (Hold : ∀ who, List.find (matches (regex_test ctx) (owned_by_id (_id d) who)) (files w)
                        = None).
  { intros who. apply no_owned_record. intros e He Hid'. exfalso.
    apply (Hfresh e He). congruence. }
  split.
  - rewrite Hu, (getFileById_run userId (_id d) ctx w') by (rewrite ?Hid; done).
    rewrite Hfiles, (find_app_none _ _ _ (Hold userId)). cbn [List.find].
    rewrite matches_owned_by_id, Hown, !bool_decide_eq_true_2 by reflexivity.
    cbn [andb fst]. eexists. split; [reflexivity|]. cbn.
    repeat split; try reflexivity.
    + intros H%negb_true_iff%bool_decide_eq_false. exact H.
    + intros H. apply negb_true_iff, bool_decide_eq_false. exact H.
    + intros H%negb_true_iff%bool_decide_eq_false.
      destruct Hshown as [Hsame|Hkey]; [destruct (H Hsame) | exact Hkey].
  - intros other Hother Hdiff.
    rewrite (getFileById_run other (_id d) ctx w') by (rewrite ?Hid; done).
    rewrite Hfiles, (find_app_none _ _ _ (Hold other)). cbn [List.find].
    rewrite matches_owned_by_id, Hown.
    rewrite (bool_decide_eq_false_2 (Some userId = Some other)) by congruence.
    rewrite andb_false_r. reflexivity.
Qed.

Lemma getFileById_after_upload_witness :
  let w' := (uploadFile Sample.photo_request Sample.ctx Sample.empty).2 in
  (∃ e, (getFileById (Some "u1") (Some "665f1c2ab3d4e5f6a7b8c9d0") Sample.ctx w').1
          = Val (FileFound e)
        ∧ filename (ef_file e) = "photo.jpg" ∧ hasPreview e = true)
  ∧ (getFileById (Some "u2") (Some "665f1c2ab3d4e5f6a7b8c9d0") Sample.ctx w').1
    = Val (FileError file_not_accessible).
Proof.
  set (run := uploadFile Sample.photo_request Sample.ctx Sample.empty).
  assert (Hrun : run = (Val (mkResponse 201 (CreatedJson (created_record run))), run.2))
    by (apply run_eq; vm_compute; reflexivity).
  assert (Hid : _id (created_record run) = "665f1c2ab3d4e5f6a7b8c9d0")
    by (vm_compute; reflexivity).
  destruct (getFileById_after_upload Sample.photo_request Sample.ctx Sample.empty run.2
              (created_record run) Hrun) as [(e & He & Hfile & _ & _ & _ & Hhas & _) Hother].
  - discriminate.
  - reflexivity.
  - intros e He. exfalso. exact (proj1 (elem_of_nil e) He).
  - reflexivity.
  - intros w'. split.
    + exists e. rewrite Hid in He. split; [exact He|]. rewrite Hfile.
      split; [vm_compute; reflexivity|]. apply Hhas. vm_compute. discriminate.
    + rewrite <- Hid. apply Hother; [discriminate | vm_compute; discriminate].
Defined.

(** ** Key reconstruction on sample records *)

Lemma reconstruction_covers_unhyphenated_id_witness :
  image_previewKey (baseKey_of "u1" "2024-05-01T") "a1b2c3d4"
  ∈ getS3KeysForFile
      (stored "665f1c2ab3d4e5f6a7b8c9d0" "u1" "2024-05-01T" "a1b2c3d4" "photo.jpg" true).
Proof.
  apply (reconstruction_covers_unhyphenated_id
           (stored "665f1c2ab3d4e5f6a7b8c9d0" "u1" "2024-05-01T" "a1b2c3d4" "photo.jpg" true)
           (baseKey_of "u1" "2024-05-01T") "a1b2c3d4" "photo.jpg");
    try reflexivity.
  vm_compute. discriminate.
Defined.

Lemma reconstruction_misses_hyphenated_id_witness :
  image_previewKey (baseKey_of "u1" "2024-05-01T") "123e4567-e89b-42d3-a456-426614174000"
  ∉ getS3KeysForFile
      (stored "665f1c2ab3d4e5f6a7b8c9d0" "u1" "2024-05-01T"
         "123e4567-e89b-42d3-a456-426614174000" "photo.jpg" true).
Proof.
  apply (reconstruction_misses_hyphenated_id
           (stored "665f1c2ab3d4e5f6a7b8c9d0" "u1" "2024-05-01T"
              "123e4567-e89b-42d3-a456-426614174000" "photo.jpg" true)
           (baseKey_of "u1" "2024-05-01T") "123e4567" "e89b-42d3-a456-426614174000" "photo.jpg");
    try reflexivity; discriminate.
Defined.

(** ** Bulk delete *)

(** With fuel for every key, the slices put end to end are the list. *)
Lemma concat_chunks_from (n fuel : nat) (l : list string) :
  (0 < n)%nat → (length l ≤ fuel)%nat → concat (chunks_from fuel n l) = l.
Proof.
  intros Hn. revert l. induction fuel as [|fuel IH]; intros l Hl.
  - destruct l; [reflexivity | simpl in Hl; lia].
  - destruct l as [|k l]; [reflexivity|].
    cbn [chunks_from concat]. rewrite IH by (rewrite length_drop; simpl in *; lia).
    apply take_drop.
Qed.

(** X19. The loop over the key list cuts it into consecutive batches: put
    end to end the batches are the key list, no batch is empty and none has
    more than [n] keys, for every batch size [n] above zero (the code uses
    1000). *)
Theorem chunks_partition (n : nat) (keys : list string) :
  (0 < n)%nat →
  concat (chunks n keys) = keys
  ∧ Forall (λ chunk, (0 < length chunk ≤ n)%nat) (chunks n keys).
Proof.
  intros Hn. unfold chunks. split; [apply concat_chunks_from; [exact Hn | lia]|].
  assert (H : ∀ fuel l, Forall (λ chunk, (0 < length chunk ≤ n)%nat) (chunks_from fuel n l)).
  { induction fuel as [|fuel IH]; intros l; [constructor|].
    destruct l as [|k l]; [constructor|].
    cbn [chunks_from]. constructor; [|apply IH].
    rewrite length_take. simpl. lia. }
  apply H.
Qed.

Lemma chunks_partition_witness :
  concat (chunks 2 ["a"; "b"; "c"; "d"; "e"]) = ["a"; "b"; "c"; "d"; "e"]
  ∧ Forall (λ chunk, (0 < length chunk ≤ 2)%nat) (chunks 2 ["a"; "b"; "c"; "d"; "e"]).
Proof. apply (chunks_partition 2 ["a"; "b"; "c"; "d"; "e"]). lia. Defined.

(** The batches take objects out of the bucket they name only, never throw,
    leave the collection alone, and report at most as many deletions as
    keys were submitted. *)
Lemma delete_chunks_effect bucket cs ctx w :
  ∃ results w',
    delete_chunks bucket cs ctx w = (Val results, w')
    ∧ files w' = files w
    ∧ objects w' ⊆ objects w
    ∧ (∀ x, x ∈ objects w → bucket ≠ Some x.1 → x ∈ objects w')
    ∧ 0 ≤ foldl (λ acc result, acc + Z.of_nat (length result)) 0 results
        ≤ Z.of_nat (length (concat cs)).
Proof.
  assert (Hfold : ∀ (rs : list (list string)) a,
            foldl (λ acc result, acc + Z.of_nat (length result)) a rs
            = a + foldl (λ acc result, acc + Z.of_nat (length result)) 0 rs).
  { induction rs as [|r rs IH]; intros a; simpl; [lia|].
    rewrite (IH (a + _)), (IH (0 + _)). lia. }
  revert w. induction cs as [|chunk rest IH]; intros w.
  - exists [], w. simpl. repeat split; auto; lia.
  - cbn [delete_chunks]. unfold bind at 1. unfold try_catch, bind, ret, s3_delete_batch.
    destruct bucket as [b|]; [destruct (batch_fault ctx chunk)|];
      match goal with
      | |- context [delete_chunks ?bk rest ctx ?w1] =>
          destruct (IH w1) as (rs & w2 & -> & Hfiles & Hsub & Hkeep & Hsum)
      end; cbn [objects files record with_objects] in *;
      eexists _, _; (split; [reflexivity|]); (split; [exact Hfiles|]).
    + split; [exact Hsub|]. split; [exact Hkeep|].
      cbn [concat]. rewrite length_app. lia.
    + split; [intros x Hx; apply Hsub, elem_of_difference in Hx as [Hx _]; exact Hx|]. split.
      * intros x Hx Hb. apply Hkeep; [|exact Hb].
        apply elem_of_difference. split; [exact Hx|].
        rewrite elem_of_list_to_set, list_elem_of_fmap. intros (k & -> & _). by apply Hb.
      * cbn [concat foldl]. rewrite Hfold, length_app.
        pose proof (List.filter_length_le (λ k, bool_decide (delete_fault ctx k = None)) chunk).
        lia.
    + split; [exact Hsub|]. split; [exact Hkeep|].
      cbn [concat]. rewrite length_app. lia.
Qed.

Lemma keys_at_most_two (d : FileMetadata) : (length (getS3KeysForFile d) ≤ 2)%nat.
Proof. unfold getS3KeysForFile. repeat case_match; simpl; lia. Qed.

Lemma all_keys_bound (l : list FileMetadata) :
  (length (concat (getS3KeysForFile <$> l)) ≤ 2 * length l)%nat.
Proof.
  induction l as [|d l IH]; [simpl; lia|].
  rewrite fmap_cons. cbn [concat length]. rewrite length_app.
  pose proof (keys_at_most_two d). lia.
Qed.

Lemma filter_all_valid (p : string → bool) (ids : list string) :
  Forall (λ id, p id = true) ids → List.filter p ids = ids.
Proof. induction 1 as [|x l Hx _ IH]; simpl; [reflexivity|]. rewrite Hx, IH. reflexivity. Qed.

(** The lookup of a well-formed batch of an authenticated requester. *)
Lemma bulkDeleteFiles_lookup (userId : string) (ids : list string) (ctx : Context) (w : World) :
  userId ≠ EmptyString → ids ≠ [] → Z.of_nat (length ids) ≤ MAX_BULK_DELETE →
  Forall (λ id, ObjectId_isValid ctx id = true) ids →
  db_fault ctx op_find = None →
  let found := List.filter (owned_in ids userId) (files w) in
  let w1 := record (Db (Find (owned_among ids userId)) true) w in
  bulkDeleteFiles (Some userId) (Some ids) ctx w =
    if (length found =? 0)%nat then (Val no_files_found, w1)
    else
      let chunked :=
        delete_chunks (S3_BUCKET_NAME ctx)
          (chunks chunkSize (concat (getS3KeysForFile <$> found))) ctx w1 in
      match chunked.1 with
      | Thrown e => (Val (bulk_delete_failed e), chunked.2)
      | Val deleteResults =>
          match db_fault ctx op_deleteMany with
          | Some e =>
              (Val (bulk_delete_failed e),
               record (Db (DeleteMany (owned_among (_id <$> found) userId)) false) chunked.2)
          | None =>
              (Val (mkResponse 200
                      (BulkDeletedJson
                         (pretty (Z.of_nat (length found)) +:+ " files deleted successfully")
                         (Z.of_nat (length found))
                         (foldl (λ acc result, acc + Z.of_nat (length result)) 0 deleteResults)
                         (summary <$> found))),
               record (Db (DeleteMany (owned_among (_id <$> found) userId)) true)
                 (with_files (List.filter (λ d, negb (owned_in ids userId d)) (files w))
                    chunked.2))
          end
      end.
Proof.
  intros Hu Hne Hlen Hvalid Hfind found w1.
  destruct userId as [|c u]; [done|].
  unfold bulkDeleteFiles. destruct ids as [|id ids']; [done|].
  apply Z.ltb_ge in Hlen. rewrite Hlen.
  unfold bind at 1. unfold ask at 1. cbv beta iota.
  rewrite (filter_all_valid _ _ Hvalid), Nat.eqb_refl.
  change (negb true) with false. cbv iota. unfold try_catch. unfold bind at 1.
  unfold find, db_call. rewrite Hfind. cbv beta iota zeta.
  rewrite (List.filter_ext _ _ (matches_owned_among (regex_test ctx) (id :: ids') (String c u))).
  fold found. fold w1.
  destruct (length found =? 0)%nat; [reflexivity|].
  unfold bind at 1.
  destruct (delete_chunks_effect (S3_BUCKET_NAME ctx)
              (chunks chunkSize (concat (getS3KeysForFile <$> found))) ctx w1)
    as (rs & w2 & Hrun & Hfiles & _).
  rewrite Hrun. cbn [fst snd].
  unfold bind, deleteMany, db_call.
  destruct (db_fault ctx op_deleteMany); [reflexivity|].
  cbv beta iota zeta. unfold send, ret. rewrite Hfiles. cbn [files record].
  assert (Hsame : ∀ d, In d (files w) →
            matches (regex_test ctx) (owned_among (_id <$> found) (String c u)) d
            = owned_in (id :: ids') (String c u) d).
  { intros d Hd. rewrite matches_owned_among. apply owned_in_found, list_elem_of_In, Hd. }
  change (files w1) with (files w).
  rewrite (List.filter_ext_in _ _ _ Hsame).
  rewrite (List.filter_ext_in (λ d, negb (matches _ _ d))
             (λ d, negb (owned_in (id :: ids') (String c u) d)))
    by (intros d Hd; rewrite (Hsame d Hd); reflexivity).
  reflexivity.
Qed.



(** X21. In a bulk delete that removes records, the reported number of
    deleted objects is never negative and never above the number of keys
    submitted, which is at most two per record removed; it is not tied to
    the number of records otherwise. *)
Theorem bulkDeleteFiles_object_count_bounded
    (userId : string) (ids : list string) (ctx : Context) (w w' : World)
    (message : string) (deletedCount s3ObjectsDeleted : Z) (deletedFiles : list FileSummary) :
  userId ≠ EmptyString → ids ≠ [] → Z.of_nat (length ids) ≤ MAX_BULK_DELETE →
  Forall (λ id, ObjectId_isValid ctx id = true) ids →
  db_fault ctx op_find = None →
  bulkDeleteFiles (Some userId) (Some ids) ctx w
    = (Val (mkResponse 200 (BulkDeletedJson message deletedCount s3ObjectsDeleted deletedFiles)),
       w') →
  0 ≤ s3ObjectsDeleted ≤ 2 * deletedCount
  ∧ deletedCount = Z.of_nat (length deletedFiles)
  ∧ 0 < deletedCount ≤ Z.of_nat (length (files w)).
Proof.
  intros Hu Hne Hlen Hvalid Hfind.
  rewrite (bulkDeleteFiles_lookup userId ids ctx w Hu Hne Hlen Hvalid Hfind). cbv zeta.
  set (found := List.filter (owned_in ids userId) (files w)).
  destruct (length found =? 0)%nat eqn:Hz; [discriminate|]. apply Nat.eqb_neq in Hz.
  destruct (delete_chunks_effect (S3_BUCKET_NAME ctx)
              (chunks chunkSize (concat (getS3KeysForFile <$> found))) ctx
              (record (Db (Find (owned_among ids userId)) true) w))
    as (rs & w2 & Hrun & _ & _ & _ & Hsum).
  rewrite Hrun. cbn [fst snd].
  destruct (db_fault ctx op_deleteMany); [discriminate|].
  intros [= _ <- <- <- _].
  assert (Hc : concat (chunks chunkSize (concat (getS3KeysForFile <$> found)))
               = concat (getS3KeysForFile <$> found))
    by (apply concat_chunks_from; [unfold chunkSize; lia | lia]).
  rewrite Hc in Hsum. pose proof (all_keys_bound found).
  pose proof (List.filter_length_le (owned_in ids userId) (files w)).
  fold found in H0. rewrite length_fmap. lia.
Qed.

Lemma bulkDeleteFiles_object_count_bounded_witness :
  (bulkDeleteFiles (Some "u1") (Some ["665f1c2ab3d4e5f6a7b8c9d0"]) Sample.ctx library).1
    = Val (mkResponse 200
             (BulkDeletedJson "1 files deleted successfully" 1 2
                [mkSummary "665f1c2ab3d4e5f6a7b8c9d0" "photo.jpg"
                   "uploads/u1/2024-05-01/a1b2c3d4-photo.jpg" image]))
  ∧ 0 ≤ 2 ≤ 2 * 1.
Proof.
  set (run := bulkDeleteFiles (Some "u1") (Some ["665f1c2ab3d4e5f6a7b8c9d0"]) Sample.ctx library).
  assert (Hrun : run = (Val (mkResponse 200
                               (BulkDeletedJson "1 files deleted successfully" 1 2
                                  [mkSummary "665f1c2ab3d4e5f6a7b8c9d0" "photo.jpg"
                                     "uploads/u1/2024-05-01/a1b2c3d4-photo.jpg" image])),
                        run.2))
    by (apply run_eq; vm_compute; reflexivity).
  split; [rewrite Hrun; reflexivity|].
  destruct (bulkDeleteFiles_object_count_bounded "u1" ["665f1c2ab3d4e5f6a7b8c9d0"] Sample.ctx
              library run.2 _ _ _ _
              ltac:(discriminate) ltac:(discriminate) ltac:(vm_compute; discriminate)
              ltac:(repeat constructor) eq_refl Hrun) as [Hbound _].
  exact Hbound.
Defined.

(** X22. Bulk delete addresses the bucket named by [S3_BUCKET_NAME], not
    the bucket [S3_COMP_BUCKET_BKT] the uploads are written to. Whatever the
    request and whatever fails, it adds no object, and an object of any
    other bucket is still there afterwards; so when the two names differ, or
    [S3_BUCKET_NAME] is not set, no uploaded object is removed by it. *)
Theorem bulkDeleteFiles_touches_only_its_bucket
    (user : option string) (fileIds : option (list string)) (ctx : Context) (w : World) :
  objects (bulkDeleteFiles user fileIds ctx w).2 ⊆ objects w
  ∧ ∀ x, x ∈ objects w → S3_BUCKET_NAME ctx ≠ Some x.1 →
         x ∈ objects (bulkDeleteFiles user fileIds ctx w).2.
Proof.
  set (Q := λ w' : World,
         objects w' ⊆ objects w
         ∧ ∀ x, x ∈ objects w → S3_BUCKET_NAME ctx ≠ Some x.1 → x ∈ objects w').
  change (Q (bulkDeleteFiles user fileIds ctx w).2).
  assert (Hrefl : Q w) by (split; [reflexivity | auto]).
  unfold bulkDeleteFiles.
  destruct user as [[|c u]|]; try exact Hrefl.
  destruct fileIds as [[|id ids']|]; try exact Hrefl.
  destruct (MAX_BULK_DELETE <? _); [exact Hrefl|].
  unfold bind at 1. unfold ask at 1. cbv beta iota.
  destruct (negb _); [exact Hrefl|].
  unfold try_catch. unfold bind at 1. unfold find, db_call.
  destruct (db_fault ctx op_find); [exact Hrefl|]. cbv beta iota zeta.
  destruct (length _ =? 0)%nat; [exact Hrefl|].
  unfold bind at 1.
  match goal with
  | |- context [delete_chunks ?bk ?cs ctx ?w1] =>
      destruct (delete_chunks_effect bk cs ctx w1) as (rs & w2 & -> & _ & Hsub & Hkeep & _)
  end.
  cbn [objects record] in Hsub, Hkeep.
  unfold bind, deleteMany, db_call.
  destruct (db_fault ctx op_deleteMany); (split; [exact Hsub | exact Hkeep]).
Qed.

Lemma bulkDeleteFiles_touches_only_its_bucket_witness :
  ("media", "uploads/u1/2024-05-01/a1b2c3d4-photo.jpg")
  ∈ objects (bulkDeleteFiles (Some "u1") (Some ["665f1c2ab3d4e5f6a7b8c9d0"])
               ctx_without_bulk_bucket library).2.
Proof.
  apply (bulkDeleteFiles_touches_only_its_bucket (Some "u1") (Some ["665f1c2ab3d4e5f6a7b8c9d0"])
           ctx_without_bulk_bucket library).
  - unfold library. cbn [objects]. apply elem_of_list_to_set, list_elem_of_here.
  - discriminate.
Defined.

(** ** Search and the read paths *)

Lemma insert_sorted_perm before d l : insert_sorted before d l ≡ₚ d :: l.
Proof.
  induction l as [|e r IH]; simpl; [reflexivity|].
  destruct (before e d); [rewrite IH; apply perm_swap|].
  destruct (before d e); [reflexivity|]. rewrite IH. apply perm_swap.
Qed.

Lemma sort_docs_perm key ascending l : sort_docs key ascending l ≡ₚ l.
Proof.
  unfold sort_docs.
  set (before := λ a b, if ascending then _ else _).
  assert (H : ∀ l acc, foldl (λ acc d, insert_sorted before d acc) acc l ≡ₚ l ++ acc).
  { clear l. induction l as [|d l IH]; intros acc; simpl; [reflexivity|].
    rewrite IH, insert_sorted_perm. symmetry. apply Permutation_middle. }
  rewrite H, app_nil_r. reflexivity.
Qed.


(** The whole of a search by an authenticated requester. *)
Lemma searchFiles_run (userId : string) (q : SearchQuery) (ctx : Context) (w : World) :
  userId ≠ EmptyString →
  let filter := search_filter userId q in
  let matching := List.filter (matches (regex_test ctx) filter) (files w) in
  let pageNum := Z.max 1 (default 1 (q_page q)) in
  let limitNum := Z.min 100 (Z.max 1 (default 20 (q_limit q))) in
  let totalCount := Z.of_nat (length matching) in
  let items :=
    take (Z.to_nat limitNum)
      (drop (Z.to_nat ((pageNum - 1) * limitNum))
         (sort_docs (default "uploadedAt" (q_sortBy q))
            (String.eqb (default "desc" (q_sortOrder q)) "asc") matching)) in
  ∃ w', files w' = files w ∧ objects w' = objects w ∧
    searchFiles (Some userId) q ctx w =
      (match db_fault ctx op_find, db_fault ctx op_countDocuments with
       | None, None =>
           Val (mkResponse 200
                  (SearchJson items (pageNum <? ceil_div totalCount limitNum)
                     (mkPagination pageNum (ceil_div totalCount limitNum) totalCount limitNum
                        (pageNum <? ceil_div totalCount limitNum) (1 <? pageNum))))
       | Some e, _ => Val (search_failed e)
       | None, Some e => Val (search_failed e)
       end, w').
Proof.
  intros Hu filter matching pageNum limitNum totalCount items.
  destruct userId as [|c u]; [done|].
  unfold searchFiles, try_catch, bind, promise_all, find, countDocuments, db_call.
  fold filter.
  destruct (db_fault ctx op_find), (db_fault ctx op_countDocuments);
    eexists; (split; [|split; [|reflexivity]]); reflexivity.
Qed.

(** X23. A search never returns a record of another user, nor a record that
    is not in the collection: every item of a 200 answer is a stored record
    whose owner is the requester. *)
Theorem searchFiles_items_are_owned
    (user : option string) (q : SearchQuery) (ctx : Context) (w : World)
    (items : list FileMetadata) (hasMore : bool) (p : Pagination) :
  (searchFiles user q ctx w).1 = Val (mkResponse 200 (SearchJson items hasMore p)) →
  ∃ userId, user = Some userId ∧ ∀ d, d ∈ items → d ∈ files w ∧ uploadedBy d = Some userId.
Proof.
  intros Hrun.
  destruct user as [[|c u]|]; try discriminate.
  exists (String c u). split; [reflexivity|].
  destruct (searchFiles_run (String c u) q ctx w) as (w' & _ & _ & Heq); [done|].
  rewrite Heq in Hrun. cbn [fst] in Hrun.
  destruct (db_fault ctx op_find); [discriminate|].
  destruct (db_fault ctx op_countDocuments); [discriminate|].
  injection Hrun as <- _ _. intros d Hd.
  apply subseteq_take, subseteq_drop in Hd. rewrite sort_docs_perm in Hd.
  apply list_elem_of_In, List.filter_In in Hd as [Hin Hm]. split; [apply list_elem_of_In, Hin|].
  unfold matches, search_filter in Hm. cbn [app forallb fst snd] in Hm.
  apply andb_true_iff in Hm as [Hown _]. unfold cond_holds in Hown.
  change (doc_field d "uploadedBy") with (BString <$> uploadedBy d) in Hown.
  destruct (uploadedBy d) as [o|]; [|discriminate]. simpl in Hown.
  apply bool_decide_eq_true in Hown. congruence.
Qed.

Lemma searchFiles_items_are_owned_witness :
  let run := searchFiles (Some "u1") any_query Sample.ctx library in
  (_id <$> answered_items run.1) = ["665f1c2ab3d4e5f6a7b8c9d0"; "665f1c2ab3d4e5f6a7b8c9d1"]
  ∧ ∀ d, d ∈ answered_items run.1 → uploadedBy d = Some "u1".
Proof.
  intros run. split; [vm_compute; reflexivity|].
  assert (Hrun : run.1 = Val (mkResponse 200
                                (SearchJson (answered_items run.1) false
                                   (answered_pagination run.1))))
    by (vm_compute; reflexivity).
  destruct (searchFiles_items_are_owned (Some "u1") any_query Sample.ctx library _ _ _ Hrun)
    as (userId & [= <-] & Hall).
  intros d Hd. apply (Hall d Hd).
Defined.



(** What the two read paths leave behind. *)
Lemma searchFiles_world (user : option string) (q : SearchQuery) (ctx : Context) (w : World) :
  files (searchFiles user q ctx w).2 = files w
  ∧ objects (searchFiles user q ctx w).2 = objects w.
Proof.
  destruct user as [[|c u]|]; try (split; reflexivity).
  destruct (searchFiles_run (String c u) q ctx w) as (w' & Hf & Ho & ->); [done|].
  split; assumption.
Qed.

Lemma getFileById_world (user param : option string) (ctx : Context) (w : World) :
  files (getFileById user param ctx w).2 = files w
  ∧ objects (getFileById user param ctx w).2 = objects w.
Proof.
  set (Q := λ w' : World, files w' = files w ∧ objects w' = objects w).
  change (Q (getFileById user param ctx w).2).
  assert (Hrefl : Q w) by (split; reflexivity).
  unfold getFileById.
  destruct user as [[|c u]|]; try exact Hrefl.
  unfold bind at 1. unfold ask at 1. cbv beta iota.
  destruct param as [[|p ps]|]; try exact Hrefl.
  destruct (negb _); [exact Hrefl|].
  unfold try_catch, bind, findOne, db_call.
  destruct (db_fault ctx op_findOne); [exact Hrefl|]. cbv beta iota zeta.
  destruct (List.find _ (files w)); exact Hrefl.
Qed.

(** X25. The two read paths write nothing: whatever the request and
    whatever fails, a search and a single fetch leave the collection and
    the bucket exactly as they were. *)
Theorem read_paths_change_nothing
    (user : option string) (q : SearchQuery) (param : option string) (ctx : Context) (w : World) :
  files (searchFiles user q ctx w).2 = files w
  ∧ objects (searchFiles user q ctx w).2 = objects w
  ∧ files (getFileById user param ctx w).2 = files w
  ∧ objects (getFileById user param ctx w).2 = objects w.
Proof.
  destruct (searchFiles_world user q ctx w) as [Hs1 Hs2].
  destruct (getFileById_world user param ctx w) as [Hg1 Hg2].
  split; [exact Hs1|]. split; [exact Hs2|]. split; [exact Hg1 | exact Hg2].
Qed.

(** ** The routes behind the authentication middleware *)

Lemma startsWith_spec (s p : string) : JS.startsWith s p = true ↔ ∃ rest, s = p +:+ rest.
Proof.
  unfold JS.startsWith. revert s. induction p as [|c p IH]; intros s.
  - split; [intros _; exists s; reflexivity | intros _; destruct s; reflexivity].
  - destruct s as [|c' s]; simpl.
    + split; [discriminate | intros [rest H]; discriminate H].
    + destruct (Ascii.ascii_dec c c') as [->|Hne].
      * rewrite IH. split.
        -- intros [rest ->]. exists rest. reflexivity.
        -- intros [rest H]. exists rest.
           change (String c' p +:+ rest) with (String c' (p +:+ rest)) in H. congruence.
      * split; [discriminate|]. intros [rest H].
        change (String c p +:+ rest) with (String c (p +:+ rest)) in H. congruence.
Qed.

(** The world a route leaves: the one of its handler, run for the user of
    the session, or the old one when the middleware answers itself. *)
Lemma behind_auth_world {A} (req : AuthRequest) (handler : option string → M A)
    (ctx : Context) (w : World) :
  (behind_auth req handler ctx w).2
  = match authMiddleware req with
    | Passed u => (handler (Some (user_ident u)) ctx w).2
    | Rejected _ _ _ _ => w
    end.
Proof.
  unfold behind_auth. destruct (authMiddleware req) as [code e m ds|u]; [reflexivity|].
  unfold bind, ret. destruct (handler (Some (user_ident u)) ctx w) as [[a|e] w']; reflexivity.
Qed.

Lemma behind_auth_rejected {A} (req : AuthRequest) (handler : option string → M A)
    (ctx : Context) (w : World) :
  authMiddleware req = missing_header →
  behind_auth req handler ctx w = (Val missing_header, w).
Proof. unfold behind_auth. intros ->. reflexivity. Qed.

(** X26. Without a header of the form [Bearer <token>] no route does
    anything, even when the session lookup would succeed (say through a
    cookie): each of the five routes answers 401 [UNAUTHORIZED], its handler
    is not run, and the world is left as it was. *)
Theorem routes_reject_without_bearer
    (req : AuthRequest) (file : option UploadedFile) (q : SearchQuery) (fileId : string)
    (fileIds : option (list string)) (ctx : Context) (w : World) :
  (∀ token, authorization req ≠ Some ("Bearer " +:+ token)) →
  post_upload req file ctx w = (Val missing_header, w)
  ∧ get_search req q ctx w = (Val missing_header, w)
  ∧ get_file req fileId ctx w = (Val missing_header, w)
  ∧ delete_file req fileId ctx w = (Val missing_header, w)
  ∧ post_bulk_delete req fileIds ctx w = (Val missing_header, w).
Proof.
  intros Hheader.
  assert (Hauth : authMiddleware req = missing_header).
  { unfold authMiddleware. destruct (authorization req) as [[|c h]|] eqn:Hh; try reflexivity.
    destruct (JS.startsWith (String c h) "Bearer ") eqn:Hs; [|reflexivity].
    apply startsWith_spec in Hs as [token Hs]. exfalso. apply (Hheader token).
    rewrite Hs. reflexivity. }
  unfold post_upload, get_search, get_file, delete_file, post_bulk_delete.
  rewrite !(behind_auth_rejected req _ ctx w Hauth). repeat split.
Qed.

Lemma routes_reject_without_bearer_witness :
  delete_file (basic_auth "u1") "665f1c2ab3d4e5f6a7b8c9d0" Sample.ctx library
  = (Val missing_header, library).
Proof.
  assert (Hheader : ∀ token, authorization (basic_auth "u1") ≠ Some ("Bearer " +:+ token)).
  { intros token H. vm_compute in H. discriminate H. }
  destruct (routes_reject_without_bearer (basic_auth "u1") None
              (mkQuery None None None None None None None None None None None)
              "665f1c2ab3d4e5f6a7b8c9d0" None Sample.ctx library Hheader)
    as (_ & _ & _ & Hdelete & _).
  exact Hdelete.
Defined.

Lemma remove_first_keeps (p : FileMetadata → bool) (l : list FileMetadata) (d : FileMetadata) :
  d ∈ l → p d = false → d ∈ remove_first p l.
Proof.
  intros Hd Hp. induction l as [|x l IH]; simpl; [exact Hd|].
  apply elem_of_cons in Hd as [->|Hd].
  - rewrite Hp. apply list_elem_of_here.
  - destruct (p x); [exact Hd|]. apply list_elem_of_further, IH, Hd.
Qed.

Lemma uploadFile_keeps (req : UploadRequest) (ctx : Context) (w : World) (d : FileMetadata) :
  d ∈ files w → d ∈ files (uploadFile req ctx w).2.
Proof.
  intros Hd.
  destruct (uploadFile_effect req ctx w) as (r & w' & ks & ds & ops & Hrun & _ & Hf & _).
  rewrite Hrun. cbn [snd]. rewrite Hf. apply elem_of_app. left. exact Hd.
Qed.

(** A single delete removes no record of anybody but the requester. *)
Lemma deleteFile_keeps_others (user param : option string) (ctx : Context) (w : World)
    (d : FileMetadata) :
  d ∈ files w → (∀ u, user = Some u → uploadedBy d ≠ Some u) →
  d ∈ files (deleteFile user param ctx w).2.
Proof.
  intros Hd Hother.
  set (Q := λ w' : World, d ∈ files w').
  change (Q (deleteFile user param ctx w).2).
  assert (Hrefl : Q w) by exact Hd.
  unfold deleteFile.
  destruct user as [[|c u]|]; try exact Hrefl.
  unfold bind at 1. unfold ask at 1. cbv beta iota.
  destruct param as [[|p ps]|]; try exact Hrefl.
  destruct (negb _); [exact Hrefl|].
  unfold try_catch. unfold bind at 1. unfold findOne, db_call.
  destruct (db_fault ctx op_findOne); [exact Hrefl|]. cbv beta iota zeta.
  destruct (List.find _ (files w)) as [file|]; [|exact Hrefl].
  unfold bind at 1.
  destruct (delete_each_run ctx (getS3KeysForFile file)
              (record (Db (FindOne (owned_by_id (String p ps) (String c u))) true) w))
    as (w2 & Hrun & Hfiles & _).
  rewrite Hrun. unfold bind, deleteOne, db_call.
  destruct (db_fault ctx op_deleteOne).
  - unfold Q, ret. cbn [snd record files]. rewrite Hfiles. exact Hd.
  - unfold Q. cbv beta iota zeta. unfold send, ret. cbn [snd record with_files files].
    rewrite Hfiles. cbn [record files]. apply remove_first_keeps; [exact Hd|].
    rewrite matches_owned_by_id. apply andb_false_intro2, bool_decide_eq_false_2.
    apply Hother. reflexivity.
Qed.

(** A bulk delete removes no record of anybody but the requester. *)
Lemma bulkDeleteFiles_keeps_others (user : option string) (fileIds : option (list string))
    (ctx : Context) (w : World) (d : FileMetadata) :
  d ∈ files w → (∀ u, user = Some u → uploadedBy d ≠ Some u) →
  d ∈ files (bulkDeleteFiles user fileIds ctx w).2.
Proof.
  intros Hd Hother.
  set (Q := λ w' : World, d ∈ files w').
  change (Q (bulkDeleteFiles user fileIds ctx w).2).
  assert (Hrefl : Q w) by exact Hd.
  unfold bulkDeleteFiles.
  destruct user as [[|c u]|]; try exact Hrefl.
  destruct fileIds as [[|id ids']|]; try exact Hrefl.
  cbv zeta. destruct (MAX_BULK_DELETE <? _); [exact Hrefl|].
  unfold bind at 1. unfold ask at 1. cbv beta iota.
  destruct (negb _); [exact Hrefl|].
  unfold try_catch. unfold bind at 1. unfold find, db_call.
  destruct (db_fault ctx op_find); [exact Hrefl|]. cbv beta iota zeta.
  destruct (length _ =? 0)%nat; [exact Hrefl|].
  unfold bind at 1.
  match goal with
  | |- context [delete_chunks ?b ?cs ctx ?w1] =>
      destruct (delete_chunks_effect b cs ctx w1) as (rs & w2 & Hrun & Hfiles & _)
  end.
  rewrite Hrun. unfold bind, deleteMany, db_call.
  destruct (db_fault ctx op_deleteMany).
  - unfold Q, ret. cbn [snd record files]. rewrite Hfiles. exact Hd.
  - unfold Q. cbv beta iota zeta. unfold send, ret. cbn [snd record with_files files].
    rewrite Hfiles. cbn [record files].
    apply list_elem_of_In, List.filter_In. split; [apply list_elem_of_In, Hd|].
    rewrite matches_owned_among. unfold owned_in.
    rewrite (bool_decide_eq_false_2 (uploadedBy d = Some (String c u))) by (apply Hother; reflexivity).
    rewrite andb_false_r. reflexivity.
Qed.

(** X27. No request removes a metadata record of somebody else: a record
    that does not belong to the user of the session is still in the
    collection after any of the five routes, whatever ids the request names
    and whatever fails; a request the middleware turns away removes
    nothing at all. *)
Theorem routes_keep_records_of_others
    (req : AuthRequest) (file : option UploadedFile) (q : SearchQuery) (fileId : string)
    (fileIds : option (list string)) (ctx : Context) (w : World) (d : FileMetadata) :
  d ∈ files w →
  (∀ u, authMiddleware req = Passed u → uploadedBy d ≠ Some (user_ident u)) →
  d ∈ files (post_upload req file ctx w).2
  ∧ d ∈ files (get_search req q ctx w).2
  ∧ d ∈ files (get_file req fileId ctx w).2
  ∧ d ∈ files (delete_file req fileId ctx w).2
  ∧ d ∈ files (post_bulk_delete req fileIds ctx w).2.
Proof.
  intros Hd Hother.
  unfold post_upload, get_search, get_file, delete_file, post_bulk_delete.
  rewrite !behind_auth_world.
  destruct (authMiddleware req) as [code e m ds|u]; [repeat split; exact Hd|].
  assert (Hu : ∀ x, Some (user_ident u) = Some x → uploadedBy d ≠ Some x)
    by (intros x [= <-]; apply Hother; reflexivity).
  split; [apply uploadFile_keeps, Hd|].
  split; [rewrite (proj1 (searchFiles_world _ q ctx w)); exact Hd|].
  split; [rewrite (proj1 (getFileById_world _ (Some fileId) ctx w)); exact Hd|].
  split; [apply deleteFile_keeps_others; assumption|].
  apply bulkDeleteFiles_keeps_others; assumption.
Qed.

Lemma routes_keep_records_of_others_witness :
  stored "665f1c2ab3d4e5f6a7b8c9d0" "u1" "2024-05-01T" "a1b2c3d4" "photo.jpg" true
  ∈ files (delete_file (signed_in "u2") "665f1c2ab3d4e5f6a7b8c9d0" Sample.ctx library).2.
Proof.
  assert (Hd : stored "665f1c2ab3d4e5f6a7b8c9d0" "u1" "2024-05-01T" "a1b2c3d4" "photo.jpg" true
               ∈ files library) by apply list_elem_of_here.
  assert (Hother : ∀ u, authMiddleware (signed_in "u2") = Passed u →
            uploadedBy (stored "665f1c2ab3d4e5f6a7b8c9d0" "u1" "2024-05-01T" "a1b2c3d4"
                          "photo.jpg" true) ≠ Some (user_ident u)).
  { intros u Hu. vm_compute in Hu. injection Hu as <-. discriminate. }
  destruct (routes_keep_records_of_others (signed_in "u2") None
              (mkQuery None None None None None None None None None None None)
              "665f1c2ab3d4e5f6a7b8c9d0" None Sample.ctx library _ Hd Hother)
    as (_ & _ & _ & Hdelete & _).
  exact Hdelete.
Defined.
